(** * EventHub: ticket booking, catalogue and identity handlers

    A shallow embedding of the three request-handling back ends of the
    EventHub application and the proofs of their inventory, pricing,
    ordering and identity properties.

    - [KvServer]:   the Hono server over the key-value record store
                    (supabase/functions/server/index.tsx);
    - [MemServer]:  the single-callback Deno server over in-process Maps;
    - [MockServer]: the browser-side class used by the API client.

    Modelling conventions.  Values are taken at the types the TypeScript
    interfaces of the sources declare: a [number] is an integer of [Z]
    (ticket counts and epoch milliseconds; money amounts, that is prices,
    [totalAmount] and [totalPrice], are counted in hundredths of the
    currency unit, so that the sample price 299.99 is 29999), a [string]
    is a [string], an optional
    field of a request body is an [option].  Truthiness tests of the
    source ([!x], [x || d]) are written out with [truthy_str],
    [truthy_num] and [js_or].  Results of platform calls (the clock,
    [crypto.randomUUID], SHA-256, [Date] parsing, base64/JSON coding)
    reach the handlers through an [Env] record. *)

From stdpp Require Import gmap strings list fin_maps.
From Stdlib Require Import ZArith Lia.

Local Open Scope Z_scope.

(** ** JavaScript truthiness on the modelled types *)

(** [!!s] for a string: only the empty string is falsy. *)
Definition truthy_str (s : string) : bool := negb (String.eqb s "").

(** [!!n] for a number: only zero is falsy (NaN is outside the integer model). *)
Definition truthy_num (n : Z) : bool := negb (n =? 0).

(** [!!x] for a possibly [undefined] field. *)
Definition truthy_opt {A} (t : A → bool) (o : option A) : bool :=
  match o with
  | Some a => t a
  | None => false
  end.

(** [s.startsWith(p)] *)
Fixpoint startsWith (p s : string) : bool :=
  match p with
  | EmptyString => true
  | String c p' =>
      match s with
      | EmptyString => false
      | String d s' => Ascii.eqb c d && startsWith p' s'
      end
  end.

(** [x || d]: the left operand when it is truthy, else the right one. *)
Definition js_or {A} (t : A → bool) (o : option A) (d : A) : A :=
  match o with
  | Some a => if t a then a else d
  | None => d
  end.

(** ** Data model (the [User], [Event] and [Booking] interfaces) *)

Record User := {
  u_id : string;
  u_email : string;
  u_password : string;          (* hex digest *)
  u_firstName : string;
  u_lastName : string;
  u_isAdmin : bool;
  u_createdAt : string;
  u_updatedAt : option string;  (* written by the key-value server only *)
}.

Record Event := {
  ev_id : string;
  ev_title : string;
  ev_description : string;
  ev_dateTime : string;
  ev_location : string;
  ev_type : string;
  totalTickets : Z;
  availableTickets : Z;
  ev_price : Z;
  ev_imageUrl : string;
  ev_status : option string;     (* absent on the seeded sample events *)
  ev_createdAt : option string;
  ev_updatedAt : option string;
}.

Record Booking := {
  b_id : string;
  b_userId : string;
  b_eventId : string;
  b_quantity : Z;
  totalPrice : Z;
  b_bookingDate : string;
  b_status : string;
}.

(** [{ ...event, availableTickets: n }] *)
Definition with_availableTickets (e : Event) (n : Z) : Event :=
  {| ev_id := ev_id e; ev_title := ev_title e;
     ev_description := ev_description e; ev_dateTime := ev_dateTime e;
     ev_location := ev_location e; ev_type := ev_type e;
     totalTickets := totalTickets e; availableTickets := n;
     ev_price := ev_price e; ev_imageUrl := ev_imageUrl e;
     ev_status := ev_status e; ev_createdAt := ev_createdAt e;
     ev_updatedAt := ev_updatedAt e |}.

(** The inventory invariant of one event record. *)
Definition inventory_ok (e : Event) : Prop :=
  0 ≤ availableTickets e ∧ availableTickets e ≤ totalTickets e.

(** ** Platform environment *)

(** The fields of a decoded bearer token the code looks at, at the types
    [generateToken] writes them with: a string and a number, each of which
    may be absent from a token made elsewhere. *)
Record Payload := {
  p_userId : option string;
  p_exp : option Z;
}.

Record Env := {
  (** [Date.now()] *)
  now : Z;
  (** the [k]-th [new Date().toISOString()] evaluated while serving the request *)
  nowISO : nat → string;
  (** the clock readings of the seeding step *)
  seedISO : nat → string;
  (** [crypto.randomUUID()] *)
  randomUUID : string;
  (** hex of [crypto.subtle.digest('SHA-256', ...)] *)
  sha256hex : string → string;
  (** [new Date(d).toISOString()]; [None] when it throws a RangeError *)
  toISOString : string → option string;
  (** [btoa(JSON.stringify(payload))] *)
  btoa_stringify : Payload → string;
  (** [JSON.parse(atob(token))]; [None] when either call throws, or when
      reading a property of the parsed value throws *)
  parse_atob : string → option Payload;
}.

(** ** Identity operations (shared by the three back ends) *)

Definition hashPassword (env : Env) (password : string) : string :=
  sha256hex env password.

Definition day_ms : Z := 24 * 60 * 60 * 1000.

Definition generateToken (env : Env) (userId : string) : string :=
  btoa_stringify env {| p_userId := Some userId; p_exp := Some (now env + day_ms) |}.

(** [decoded.exp < Date.now()]: a missing [exp] compares as NaN, hence false. *)
Definition exp_lt_now (exp : option Z) (t : Z) : bool :=
  match exp with
  | Some e => e <? t
  | None => false
  end.

(** [verifyToken] of the key-value server: two separate tests. *)
Definition verifyToken (env : Env) (token : string) : option string :=
  match parse_atob env token with
  | None => None
  | Some decoded =>
      if negb (truthy_opt truthy_str (p_userId decoded)) then None
      else if exp_lt_now (p_exp decoded) (now env) then None
      else p_userId decoded
  end.

(** [verifyToken] of the in-memory server and of the mock class: one
    disjunction. *)
Definition verifyToken_mem (env : Env) (token : string) : option string :=
  match parse_atob env token with
  | None => None
  | Some decoded =>
      if negb (truthy_opt truthy_str (p_userId decoded))
         || exp_lt_now (p_exp decoded) (now env)
      then None
      else p_userId decoded
  end.

(** [parseFloat(n)] of a number: the number itself on the integer model. *)
Definition parseFloat (n : Z) : Z := n.

(** ** Responses *)

Inductive Body :=
| Err (msg : string)
  (** [`Not enough tickets available. Only ${n} tickets left.`] *)
| ErrNotEnough (remaining : Z)
  (** [{ success: true, booking: { ...booking, event: {title, dateTime, location} } }] *)
| BookingOk (b : Booking) (title dateTime location : string)
  (** [{ event }] *)
| EventOk (e : Event)
  (** [{ success: true, event }] *)
| EventSaved (e : Event)
  (** [{ user: {id, email, firstName, lastName, isAdmin}, token }] *)
| AuthOk (id email firstName lastName : string) (isAdmin : bool) (token : string).

Record Response := { status : Z; body : Body }.

Definition json (b : Body) (code : Z) : Response := {| status := code; body := b |}.

(** ** Request bodies *)

(** Body of [POST /bookings] and arguments of the in-memory variants. *)
Record BookingReq := {
  rq_eventId : option string;
  rq_quantity : option Z;
  rq_totalAmount : option Z;
}.

(** Body of [POST /signup]. *)
Record SignupReq := {
  rq_email : option string;
  rq_password : option string;
  rq_firstName : option string;
  rq_lastName : option string;
}.

(** Body of [POST] and [PUT /admin/events]. *)
Record EventReq := {
  rq_title : option string;
  rq_description : option string;
  rq_date : option string;
  rq_location : option string;
  rq_price : option Z;
  rq_capacity : option Z;
  rq_category : option string;
  rq_imageUrl : option string;
  rq_status : option string;
}.

(** The required-field test shared by the three [createEvent] variants:
    [!title || !date || !location || price === undefined]. *)
Definition event_fields_missing (rq : EventReq) : bool :=
  negb (truthy_opt truthy_str (rq_title rq))
  || negb (truthy_opt truthy_str (rq_date rq))
  || negb (truthy_opt truthy_str (rq_location rq))
  || negb (bool_decide (is_Some (rq_price rq))).

(** [!eventId || !quantity || quantity < 1] *)
Definition booking_fields_invalid (eventId : option string) (quantity : option Z) : bool :=
  negb (truthy_opt truthy_str eventId)
  || negb (truthy_opt truthy_num quantity)
  || match quantity with Some q => q <? 1 | None => false end.

(** [!quantity || quantity < 1] *)
Definition quantity_invalid (quantity : option Z) : bool :=
  negb (truthy_opt truthy_num quantity)
  || match quantity with Some q => q <? 1 | None => false end.

(** ** Further requests and answers *)

(** Body of [POST /signin]. *)
Record SigninReq := {
  si_email : option string;
  si_password : option string;
}.

(** [{ user: { id, email, firstName, lastName } }], the answer of the
    profile endpoints. *)
Record Profile := {
  pf_id : string;
  pf_email : string;
  pf_firstName : string;
  pf_lastName : string;
}.

Definition profile_of (u : User) : Profile :=
  {| pf_id := u_id u; pf_email := u_email u;
     pf_firstName := u_firstName u; pf_lastName := u_lastName u |}.

(** The answer of [/admin/stats]; [totalUsers] is reported by the
    key-value server only. *)
Record Stats := {
  totalEvents : Z;
  totalBookings : Z;
  totalRevenue : Z;
  activeEvents : Z;
  totalUsers : option Z;
}.

(** [event ? { title, dateTime, location, imageUrl } : null], the event
    part of a listed booking. *)
Record EventInfo := {
  ei_title : string;
  ei_dateTime : string;
  ei_location : string;
  ei_imageUrl : string;
}.

Definition info_of (e : Event) : EventInfo :=
  {| ei_title := ev_title e; ei_dateTime := ev_dateTime e;
     ei_location := ev_location e; ei_imageUrl := ev_imageUrl e |}.

(** [bookings.reduce((sum, booking) => sum + (booking.totalPrice || 0), 0)];
    on a number [x || 0] is [x]. *)
Definition revenue (bookings : list Booking) : Z :=
  foldl (λ sum booking, sum + totalPrice booking) 0 bookings.

(** [events.filter(event => event.availableTickets > 0).length] *)
Definition active_count (events : list Event) : Z :=
  Z.of_nat (length (filter (λ event, 0 < availableTickets event) events)).

(** [{ ...user, firstName: firstName || user.firstName,
       lastName: lastName || user.lastName, updatedAt: now }] *)
Definition with_names (u : User) (firstName lastName : option string) (t : string) : User :=
  {| u_id := u_id u; u_email := u_email u; u_password := u_password u;
     u_firstName := js_or truthy_str firstName (u_firstName u);
     u_lastName := js_or truthy_str lastName (u_lastName u);
     u_isAdmin := u_isAdmin u; u_createdAt := u_createdAt u;
     u_updatedAt := Some t |}.

(** * The key-value server *)

Module KvServer.

(** ** The record store *)

(** What the server keeps under a key: a user, an event or a booking
    object, or an id string (the two secondary indexes). *)
Inductive Value :=
| VUser (u : User)
| VEvent (e : Event)
| VBooking (b : Booking)
| VId (s : string).

(** Modelled from the spec: [kv_store.tsx] is imported by the server but is
    not among the sources.  The spec describes it as a mapping from string
    keys to JSON values with get-by-key, set-by-key and delete-by-key; a
    missing key reads as [undefined].  [writes] records the keys in the
    order in which [kv.set] was called.  Calls to the store are taken to
    succeed, so the handlers' answers to a failing store (their [catch]
    blocks) appear only where a platform call can throw.  The booking
    handlers over a store whose calls can throw are
    [post_events_book_faulty] and [post_bookings_faulty]. *)
Record World := {
  store : gmap string Value;
  writes : list string;
}.

(** Key templates of the server. *)
Definition event_key (id : string) : string := "event:" +:+ id.
Definition booking_key (id : string) : string := "booking:" +:+ id.
Definition user_key (id : string) : string := "user:" +:+ id.
Definition user_email_key (email : string) : string := "user_email:" +:+ email.
Definition user_booking_key (userId bookingId : string) : string :=
  "user_booking:" +:+ userId +:+ ":" +:+ bookingId.

Definition is_event (v : Value) : bool := if v is VEvent _ then true else false.
Definition is_booking (v : Value) : bool := if v is VBooking _ then true else false.
Definition is_user (v : Value) : bool := if v is VUser _ then true else false.
Definition is_id (v : Value) : bool := if v is VId _ then true else false.

(** The shape a value has under a key of each template. *)
Definition well_keyed (k : string) (v : Value) : bool :=
  if startsWith "event:" k then is_event v
  else if startsWith "booking:" k then is_booking v
  else if startsWith "user_booking:" k then is_id v
  else if startsWith "user_email:" k then is_id v
  else if startsWith "user:" k then is_user v
  else true.

Definition kv_typed (m : gmap string Value) : Prop :=
  ∀ k v, m !! k = Some v → well_keyed k v = true.

(** Inventory invariant of the whole store. *)
Definition inventory_inv (m : gmap string Value) : Prop :=
  ∀ k e, m !! k = Some (VEvent e) → inventory_ok e.

(** ** Handler monad

    A handler threads the store, may answer early ([return c.json(...)]),
    and is undefined ([None]) when it reads a value of the wrong shape
    under a key, which [kv_typed] excludes. *)
Inductive Step (A : Type) :=
| Continue (a : A)
| Return (r : Response).
Arguments Continue {A} a.
Arguments Return {A} r.

Definition Handler (A : Type) : Type := World → option (Step A * World).

#[export] Instance handler_ret : MRet Handler := λ A a w, Some (Continue a, w).

#[export] Instance handler_bind : MBind Handler := λ A B f m w,
  match m w with
  | Some (Continue a, w') => f a w'
  | Some (Return r, w') => Some (Return r, w')
  | None => None
  end.

Definition respond {A} (r : Response) : Handler A := λ w, Some (Return r, w).

Definition run (h : Handler Response) (w : World) : option (Response * World) :=
  match h w with
  | Some (Continue r, w') | Some (Return r, w') => Some (r, w')
  | None => None
  end.

(** [await kv.set(k, v)] *)
Definition kv_set (k : string) (v : Value) : Handler unit := λ w,
  Some (Continue tt, {| store := <[k := v]> (store w); writes := writes w ++ [k] |}).

(** [await kv.get(k)] *)
Definition kv_get (k : string) : Handler (option Value) := λ w,
  Some (Continue (store w !! k), w).

(** [await kv.get(k)] where the handler goes on to use the result as an event. *)
Definition kv_get_event (k : string) : Handler (option Event) := λ w,
  match store w !! k with
  | None => Some (Continue None, w)
  | Some (VEvent e) => Some (Continue (Some e), w)
  | Some _ => None
  end.

(** ... as a user. *)
Definition kv_get_user (k : string) : Handler (option User) := λ w,
  match store w !! k with
  | None => Some (Continue None, w)
  | Some (VUser u) => Some (Continue (Some u), w)
  | Some _ => None
  end.

(** Truthiness of a stored value: objects are truthy, an id string is
    truthy unless empty. *)
Definition truthy_value (v : Value) : bool :=
  match v with
  | VId s => truthy_str s
  | _ => true
  end.

(** ** Middleware *)

Definition requireAuth (env : Env) (authHeader : option string)
    (next : string → Handler Response) : Handler Response :=
  match authHeader with
  | None => respond (json (Err "Authorization header required") 401)
  | Some h =>
      if negb (truthy_str h) then
        respond (json (Err "Authorization header required") 401)
      else if negb (startsWith "Bearer " h) then
        respond (json (Err "Invalid Authorization header format") 401)
      else
        let token := String.substring 7 (String.length h - 7) h in
        if negb (truthy_str token) then
          respond (json (Err "Authorization token required") 401)
        else
          match verifyToken env token with
          | None => respond (json (Err "Invalid or expired token") 401)
          | Some userId => next userId
          end
  end.

Definition requireAdmin (userId : string) (next : Handler Response) : Handler Response :=
  if negb (truthy_str userId) then
    respond (json (Err "Authentication required") 401)
  else
    user ← kv_get_user (user_key userId);
    match user with
    | None => respond (json (Err "Admin access required") 403)
    | Some u =>
        if negb (u_isAdmin u) then respond (json (Err "Admin access required") 403)
        else next
    end.

(** ** Booking handlers *)

(** [POST /events/:id/book].  [body] is [None] when [c.req.json()] throws. *)
Definition post_events_book (env : Env) (userId eventId : string)
    (body : option (option Z)) : Handler Response :=
  if negb (truthy_str userId) then
    respond (json (Err "User authentication failed") 401)
  else if negb (truthy_str eventId) then
    respond (json (Err "Event ID is required") 400)
  else
    match body with
    | None => respond (json (Err "Invalid request body") 400)
    | Some oquantity =>
        match oquantity with
        | Some quantity =>
            if quantity_invalid oquantity then
              respond (json (Err "Valid quantity is required") 400)
            else
              event ← kv_get_event (event_key eventId);
              match event with
              | None => respond (json (Err "Event not found") 404)
              | Some event =>
                  if availableTickets event <? quantity then
                    respond (json (ErrNotEnough (availableTickets event)) 400)
                  else
                    let bookingId := randomUUID env in
                    let totalPrice := ev_price event * quantity in
                    let booking :=
                      {| b_id := bookingId; b_userId := userId; b_eventId := eventId;
                         b_quantity := quantity; totalPrice := totalPrice;
                         b_bookingDate := nowISO env 0; b_status := "Confirmed" |} in
                    let updatedEvent :=
                      with_availableTickets event (availableTickets event - quantity) in
                    kv_set (booking_key bookingId) (VBooking booking);;
                    kv_set (user_booking_key userId bookingId) (VId bookingId);;
                    kv_set (event_key eventId) (VEvent updatedEvent);;
                    mret (json (BookingOk booking (ev_title event) (ev_dateTime event)
                                          (ev_location event)) 200)
              end
        | None => respond (json (Err "Valid quantity is required") 400)
        end
    end.

(** [POST /bookings], the cart endpoint. *)
Definition post_bookings (env : Env) (userId : string) (rq : BookingReq)
    : Handler Response :=
  match rq_eventId rq, rq_quantity rq with
  | Some eventId, Some quantity =>
      if booking_fields_invalid (rq_eventId rq) (rq_quantity rq) then
        respond (json (Err "Event ID and valid quantity are required") 400)
      else
        event ← kv_get_event (event_key eventId);
        match event with
        | None => respond (json (Err "Event not found") 404)
        | Some event =>
            if availableTickets event <? quantity then
              respond (json (ErrNotEnough (availableTickets event)) 400)
            else
              let bookingId := randomUUID env in
              let calculatedTotal := ev_price event * quantity in
              let booking :=
                {| b_id := bookingId; b_userId := userId; b_eventId := eventId;
                   b_quantity := quantity;
                   totalPrice := js_or truthy_num (rq_totalAmount rq) calculatedTotal;
                   b_bookingDate := nowISO env 0; b_status := "Confirmed" |} in
              let updatedEvent :=
                with_availableTickets event (availableTickets event - quantity) in
              kv_set (booking_key bookingId) (VBooking booking);;
              kv_set (user_booking_key userId bookingId) (VId bookingId);;
              kv_set (event_key eventId) (VEvent updatedEvent);;
              mret (json (BookingOk booking (ev_title event) (ev_dateTime event)
                                    (ev_location event)) 200)
        end
  | _, _ => respond (json (Err "Event ID and valid quantity are required") 400)
  end.

(** ** Sign-up *)

(** [POST /signup] *)
Definition post_signup (env : Env) (rq : SignupReq) : Handler Response :=
  match rq_email rq, rq_password rq with
  | Some email, Some password =>
      if negb (truthy_str email) || negb (truthy_str password) then
        respond (json (Err "Email and password are required") 400)
      else
        existingUser ← kv_get (user_email_key email);
        if truthy_opt truthy_value existingUser then
          respond (json (Err "User already exists with this email") 400)
        else
          let userId := randomUUID env in
          let hashedPassword := hashPassword env password in
          let user :=
            {| u_id := userId; u_email := email; u_password := hashedPassword;
               u_firstName := js_or truthy_str (rq_firstName rq) "";
               u_lastName := js_or truthy_str (rq_lastName rq) "";
               u_isAdmin := false;
               u_createdAt := nowISO env 0; u_updatedAt := Some (nowISO env 1) |} in
          kv_set (user_key userId) (VUser user);;
          kv_set (user_email_key email) (VId userId);;
          let token := generateToken env userId in
          mret (json (AuthOk userId email (js_or truthy_str (rq_firstName rq) "")
                             (js_or truthy_str (rq_lastName rq) "") false token) 200)
  | _, _ => respond (json (Err "Email and password are required") 400)
  end.

(** ** Catalogue handlers *)

(** [GET /events/:id] *)
Definition get_events_id (eventId : string) : Handler Response :=
  event ← kv_get_event (event_key eventId);
  match event with
  | None => respond (json (Err "Event not found") 404)
  | Some event => mret (json (EventOk event) 200)
  end.

(** [POST /admin/events].  A date that [Date] cannot parse makes
    [toISOString] throw, which the handler's [catch] answers with 500. *)
Definition post_admin_events (env : Env) (rq : EventReq) : Handler Response :=
  match rq_title rq, rq_date rq, rq_location rq, rq_price rq with
  | Some title, Some date, Some location, Some price =>
      if event_fields_missing rq then
        respond (json (Err "Title, date, location, and price are required") 400)
      else
        let eventId := randomUUID env in
        match toISOString env date with
        | None => respond (json (Err "Failed to create event") 500)
        | Some dateTime =>
            let event :=
              {| ev_id := eventId; ev_title := title;
                 ev_description := js_or truthy_str (rq_description rq) "";
                 ev_dateTime := dateTime; ev_location := location;
                 ev_type := js_or truthy_str (rq_category rq) "General";
                 totalTickets := js_or truthy_num (rq_capacity rq) 100;
                 availableTickets := js_or truthy_num (rq_capacity rq) 100;
                 ev_price := parseFloat price;
                 ev_imageUrl := js_or truthy_str (rq_imageUrl rq) "";
                 ev_status := Some (js_or truthy_str (rq_status rq) "active");
                 ev_createdAt := Some (nowISO env 0);
                 ev_updatedAt := Some (nowISO env 1) |} in
            kv_set (event_key eventId) (VEvent event);;
            mret (json (EventSaved event) 200)
        end
  | _, _, _, _ =>
      respond (json (Err "Title, date, location, and price are required") 400)
  end.

(** [PUT /admin/events/:id] *)
Definition put_admin_events (env : Env) (eventId : string) (rq : EventReq)
    : Handler Response :=
  existingEvent ← kv_get_event (event_key eventId);
  match existingEvent with
  | None => respond (json (Err "Event not found") 404)
  | Some existingEvent =>
      let dateTime :=
        match rq_date rq with
        | Some date =>
            if truthy_str date then toISOString env date
            else Some (ev_dateTime existingEvent)
        | None => Some (ev_dateTime existingEvent)
        end in
      match dateTime with
      | None => respond (json (Err "Failed to update event") 500)
      | Some dateTime =>
          let updatedEvent :=
            {| ev_id := ev_id existingEvent;
               ev_title := js_or truthy_str (rq_title rq) (ev_title existingEvent);
               ev_description :=
                 default (ev_description existingEvent) (rq_description rq);
               ev_dateTime := dateTime;
               ev_location := js_or truthy_str (rq_location rq) (ev_location existingEvent);
               ev_type := js_or truthy_str (rq_category rq) (ev_type existingEvent);
               totalTickets :=
                 match rq_capacity rq with
                 | Some capacity => capacity
                 | None => totalTickets existingEvent
                 end;
               availableTickets :=
                 match rq_capacity rq with
                 | Some capacity =>
                     capacity - (totalTickets existingEvent - availableTickets existingEvent)
                 | None => availableTickets existingEvent
                 end;
               ev_price :=
                 match rq_price rq with
                 | Some price => parseFloat price
                 | None => ev_price existingEvent
                 end;
               ev_imageUrl := default (ev_imageUrl existingEvent) (rq_imageUrl rq);
               ev_status :=
                 match rq_status rq with
                 | Some status =>
                     if truthy_str status then Some status else ev_status existingEvent
                 | None => ev_status existingEvent
                 end;
               ev_createdAt := ev_createdAt existingEvent;
               ev_updatedAt := Some (nowISO env 0) |} in
          kv_set (event_key eventId) (VEvent updatedEvent);;
          mret (json (EventSaved updatedEvent) 200)
      end
  end.

(** ** Routes: handlers behind their middleware *)

Definition route_post_events_book (env : Env) (authHeader : option string)
    (eventId : string) (body : option (option Z)) : Handler Response :=
  requireAuth env authHeader (λ userId, post_events_book env userId eventId body).

Definition route_post_bookings (env : Env) (authHeader : option string)
    (rq : BookingReq) : Handler Response :=
  requireAuth env authHeader (λ userId, post_bookings env userId rq).

Definition route_post_admin_events (env : Env) (authHeader : option string)
    (rq : EventReq) : Handler Response :=
  requireAuth env authHeader (λ userId, requireAdmin userId (post_admin_events env rq)).

Definition route_put_admin_events (env : Env) (authHeader : option string)
    (eventId : string) (rq : EventReq) : Handler Response :=
  requireAuth env authHeader
    (λ userId, requireAdmin userId (put_admin_events env eventId rq)).

(** The store and the write log after a successful booking of [quantity]
    tickets of [event] with the record [booking]. *)
Definition booked (w : World) (userId eventId : string) (event : Event)
    (booking : Booking) : World :=
  {| store :=
       <[event_key eventId :=
           VEvent (with_availableTickets event (availableTickets event - b_quantity booking))]>
         (<[user_booking_key userId (b_id booking) := VId (b_id booking)]>
            (<[booking_key (b_id booking) := VBooking booking]> (store w)));
     writes := writes w ++ [booking_key (b_id booking);
                            user_booking_key userId (b_id booking);
                            event_key eventId] |}.

(** ** Deleting and enumerating *)

(** [await kv.del(k)] *)
Definition kv_del (k : string) : Handler unit := λ w,
  Some (Continue tt, {| store := delete k (store w); writes := writes w |}).

(** Modelled from the spec: [kv.getByPrefix(p)] enumerates the values
    under the keys that start with [p].  The order of the enumeration is
    the store's. *)
Definition prefix_values (p : string) (m : gmap string Value) : list Value :=
  (map_to_list (filter (λ kv, startsWith p kv.1 = true) m)).*2.

Definition kv_getByPrefix (p : string) : Handler (list Value) := λ w,
  Some (Continue (prefix_values p (store w)), w).

Definition as_booking (v : Value) : option Booking :=
  if v is VBooking b then Some b else None.
Definition as_event (v : Value) : option Event :=
  if v is VEvent e then Some e else None.
Definition as_id (v : Value) : option string :=
  if v is VId s then Some s else None.

(** An enumeration the handler goes on to use as a list of bookings, of
    events, of ids. *)
Definition kv_getByPrefix_as {A} (cast : Value → option A) (p : string)
    : Handler (list A) := λ w,
  match mapM cast (prefix_values p (store w)) with
  | Some l => Some (Continue l, w)
  | None => None
  end.

(** [await kv.get(k)] used as a booking, as an id. *)
Definition kv_get_booking (k : string) : Handler (option Booking) := λ w,
  match store w !! k with
  | None => Some (Continue None, w)
  | Some (VBooking b) => Some (Continue (Some b), w)
  | Some _ => None
  end.

Definition kv_get_id (k : string) : Handler (option string) := λ w,
  match store w !! k with
  | None => Some (Continue None, w)
  | Some (VId s) => Some (Continue (Some s), w)
  | Some _ => None
  end.

(** ** Sign-in and profile *)

(** [POST /signin] *)
Definition post_signin (env : Env) (rq : SigninReq) : Handler Response :=
  match si_email rq, si_password rq with
  | Some email, Some password =>
      if negb (truthy_str email) || negb (truthy_str password) then
        respond (json (Err "Email and password are required") 400)
      else
        userId ← kv_get_id (user_email_key email);
        match userId with
        | None => respond (json (Err "Invalid credentials") 401)
        | Some userId =>
            if negb (truthy_str userId) then
              respond (json (Err "Invalid credentials") 401)
            else
              user ← kv_get_user (user_key userId);
              match user with
              | None => respond (json (Err "User not found") 401)
              | Some user =>
                  let hashedPassword := hashPassword env password in
                  if negb (String.eqb (u_password user) hashedPassword) then
                    respond (json (Err "Invalid credentials") 401)
                  else
                    let token := generateToken env userId in
                    mret (json (AuthOk (u_id user) (u_email user) (u_firstName user)
                                       (u_lastName user) (u_isAdmin user) token) 200)
              end
        end
  | _, _ => respond (json (Err "Email and password are required") 400)
  end.

(** [GET /user/profile]; the value returned is the body of the 200 answer. *)
Definition get_user_profile (userId : string) : Handler Profile :=
  user ← kv_get_user (user_key userId);
  match user with
  | None => respond (json (Err "User not found") 404)
  | Some user => mret (profile_of user)
  end.

(** [PUT /user/profile] *)
Definition put_user_profile (env : Env) (userId : string)
    (firstName lastName : option string) : Handler Profile :=
  user ← kv_get_user (user_key userId);
  match user with
  | None => respond (json (Err "User not found") 404)
  | Some user =>
      let updatedUser := with_names user firstName lastName (nowISO env 0) in
      kv_set (user_key userId) (VUser updatedUser);;
      mret (profile_of updatedUser)
  end.

(** ** Listing, statistics and deletion *)

(** The loop of [GET /user/bookings] over the enumerated booking ids. *)
Fixpoint collect_bookings (userBookingIds : list string)
    : Handler (list (Booking * option EventInfo)) :=
  match userBookingIds with
  | [] => mret []
  | bookingId :: rest =>
      booking ← kv_get_booking (booking_key bookingId);
      match booking with
      | Some booking =>
          event ← kv_get_event (event_key (b_eventId booking));
          bookings ← collect_bookings rest;
          mret ((booking, info_of <$> event) :: bookings)
      | None => collect_bookings rest
      end
  end.

(** [GET /user/bookings] *)
Definition get_user_bookings (userId : string)
    : Handler (list (Booking * option EventInfo)) :=
  userBookingIds ← kv_getByPrefix_as as_id ("user_booking:" +:+ userId +:+ ":");
  collect_bookings userBookingIds.

(** [GET /admin/stats] *)
Definition get_admin_stats : Handler Stats :=
  events ← kv_getByPrefix_as as_event "event:";
  bookings ← kv_getByPrefix_as as_booking "booking:";
  users ← kv_getByPrefix "user:";
  mret {| totalEvents := Z.of_nat (length events);
          totalBookings := Z.of_nat (length bookings);
          totalRevenue := revenue bookings;
          activeEvents := active_count events;
          totalUsers := Some (Z.of_nat (length users)) |}.

(** [DELETE /admin/events/:id]; the value returned is the message of the
    200 answer. *)
Definition delete_admin_events (eventId : string) : Handler string :=
  event ← kv_get (event_key eventId);
  if negb (truthy_opt truthy_value event) then
    respond (json (Err "Event not found") 404)
  else
    bookings ← kv_getByPrefix_as as_booking "booking:";
    let eventBookings := filter (λ booking, b_eventId booking = eventId) bookings in
    if bool_decide (0 < length eventBookings)%nat then
      respond (json (Err "Cannot delete event with existing bookings") 400)
    else
      kv_del (event_key eventId);;
      mret "Event deleted successfully".

(** ** A store whose calls can throw

    [kv.get] and [kv.set] are awaited inside a [try], and the [catch] that
    encloses a call answers 500 when the call throws.  [throws n] tells
    whether the [n]-th store call of the request throws, counted from 0 in
    program order.  Modelled from the spec: a call that throws has written
    nothing.  [attempt (throws n) onError call] is the call under the
    [catch] that answers [onError]. *)
Definition attempt {A} (throws : bool) (onError : Response) (call : Handler A)
    : Handler A :=
  if throws then respond onError else call.

(** [POST /events/:id/book] over such a store.  The read of the event is
    under the outer [catch], which answers with the [message] of the
    error; the three writes are under the inner one. *)
Definition post_events_book_faulty (throws : nat → bool) (message : string) (env : Env)
    (userId eventId : string) (body : option (option Z)) : Handler Response :=
  if negb (truthy_str userId) then
    respond (json (Err "User authentication failed") 401)
  else if negb (truthy_str eventId) then
    respond (json (Err "Event ID is required") 400)
  else
    match body with
    | None => respond (json (Err "Invalid request body") 400)
    | Some oquantity =>
        match oquantity with
        | Some quantity =>
            if quantity_invalid oquantity then
              respond (json (Err "Valid quantity is required") 400)
            else
              event ← attempt (throws 0%nat)
                        (json (Err ("Booking creation failed: " +:+ message)) 500)
                        (kv_get_event (event_key eventId));
              match event with
              | None => respond (json (Err "Event not found") 404)
              | Some event =>
                  if availableTickets event <? quantity then
                    respond (json (ErrNotEnough (availableTickets event)) 400)
                  else
                    let bookingId := randomUUID env in
                    let totalPrice := ev_price event * quantity in
                    let booking :=
                      {| b_id := bookingId; b_userId := userId; b_eventId := eventId;
                         b_quantity := quantity; totalPrice := totalPrice;
                         b_bookingDate := nowISO env 0; b_status := "Confirmed" |} in
                    let updatedEvent :=
                      with_availableTickets event (availableTickets event - quantity) in
                    let failed := json (Err "Failed to save booking data") 500 in
                    attempt (throws 1%nat) failed
                      (kv_set (booking_key bookingId) (VBooking booking));;
                    attempt (throws 2%nat) failed
                      (kv_set (user_booking_key userId bookingId) (VId bookingId));;
                    attempt (throws 3%nat) failed
                      (kv_set (event_key eventId) (VEvent updatedEvent));;
                    mret (json (BookingOk booking (ev_title event) (ev_dateTime event)
                                          (ev_location event)) 200)
              end
        | None => respond (json (Err "Valid quantity is required") 400)
        end
    end.

(** [POST /bookings] over such a store: one [catch] encloses the read and
    the three writes. *)
Definition post_bookings_faulty (throws : nat → bool) (env : Env) (userId : string)
    (rq : BookingReq) : Handler Response :=
  match rq_eventId rq, rq_quantity rq with
  | Some eventId, Some quantity =>
      if booking_fields_invalid (rq_eventId rq) (rq_quantity rq) then
        respond (json (Err "Event ID and valid quantity are required") 400)
      else
        let failed := json (Err "Failed to create booking") 500 in
        event ← attempt (throws 0%nat) failed (kv_get_event (event_key eventId));
        match event with
        | None => respond (json (Err "Event not found") 404)
        | Some event =>
            if availableTickets event <? quantity then
              respond (json (ErrNotEnough (availableTickets event)) 400)
            else
              let bookingId := randomUUID env in
              let calculatedTotal := ev_price event * quantity in
              let booking :=
                {| b_id := bookingId; b_userId := userId; b_eventId := eventId;
                   b_quantity := quantity;
                   totalPrice := js_or truthy_num (rq_totalAmount rq) calculatedTotal;
                   b_bookingDate := nowISO env 0; b_status := "Confirmed" |} in
              let updatedEvent :=
                with_availableTickets event (availableTickets event - quantity) in
              attempt (throws 1%nat) failed
                (kv_set (booking_key bookingId) (VBooking booking));;
              attempt (throws 2%nat) failed
                (kv_set (user_booking_key userId bookingId) (VId bookingId));;
              attempt (throws 3%nat) failed
                (kv_set (event_key eventId) (VEvent updatedEvent));;
              mret (json (BookingOk booking (ev_title event) (ev_dateTime event)
                                    (ev_location event)) 200)
        end
  | _, _ => respond (json (Err "Event ID and valid quantity are required") 400)
  end.

End KvServer.

(** * The in-memory back ends *)

(** The [data] object of the in-memory server and the private fields of
    the mock class: four Maps and the seeding flag.  [log] records the
    order of the [Map.set] calls. *)
Inductive MapWrite :=
| SetUser (id : string)
| SetUserEmail (email : string)
| SetEvent (id : string)
| SetBooking (id : string).

Record Data := {
  users : gmap string User;
  events : gmap string Event;
  bookings : gmap string Booking;
  userEmails : gmap string string;
  initialized : bool;
  log : list MapWrite;
}.

Definition set_user (id : string) (u : User) (d : Data) : Data :=
  {| users := <[id := u]> (users d); events := events d; bookings := bookings d;
     userEmails := userEmails d; initialized := initialized d;
     log := log d ++ [SetUser id] |}.

Definition set_userEmail (email id : string) (d : Data) : Data :=
  {| users := users d; events := events d; bookings := bookings d;
     userEmails := <[email := id]> (userEmails d); initialized := initialized d;
     log := log d ++ [SetUserEmail email] |}.

Definition set_event (id : string) (e : Event) (d : Data) : Data :=
  {| users := users d; events := <[id := e]> (events d); bookings := bookings d;
     userEmails := userEmails d; initialized := initialized d;
     log := log d ++ [SetEvent id] |}.

Definition set_booking (id : string) (b : Booking) (d : Data) : Data :=
  {| users := users d; events := events d; bookings := <[id := b]> (bookings d);
     userEmails := userEmails d; initialized := initialized d;
     log := log d ++ [SetBooking id] |}.

Definition set_initialized (d : Data) : Data :=
  {| users := users d; events := events d; bookings := bookings d;
     userEmails := userEmails d; initialized := true; log := log d |}.

(** Inventory invariant of the event Map. *)
Definition events_inv (d : Data) : Prop :=
  ∀ id e, events d !! id = Some e → inventory_ok e.

(** A sample event: a record without status and timestamps. *)
Definition sample (id title description dateTime location type : string)
    (total available price : Z) (imageUrl : string) : Event :=
  {| ev_id := id; ev_title := title; ev_description := description;
     ev_dateTime := dateTime; ev_location := location; ev_type := type;
     totalTickets := total; availableTickets := available; ev_price := price;
     ev_imageUrl := imageUrl;
     ev_status := None; ev_createdAt := None; ev_updatedAt := None |}.

Definition test_user (password createdAt : string) : User :=
  {| u_id := "test-user-123"; u_email := "test@example.com"; u_password := password;
     u_firstName := "Test"; u_lastName := "User"; u_isAdmin := false;
     u_createdAt := createdAt; u_updatedAt := None |}.

Definition admin_user (password createdAt : string) : User :=
  {| u_id := "admin-user-123"; u_email := "admin@example.com"; u_password := password;
     u_firstName := "Admin"; u_lastName := "User"; u_isAdmin := true;
     u_createdAt := createdAt; u_updatedAt := None |}.

(** [events.forEach(event => data.events.set(event.id, event))] *)
Definition seed_events (l : list Event) (d : Data) : Data :=
  foldl (λ d e, set_event (ev_id e) e d) d l.

(** The authorisation preamble the in-memory server repeats in each
    protected branch. *)
Definition bearer_invalid (authHeader : option string) : bool :=
  match authHeader with
  | None => true
  | Some h => negb (truthy_str h) || negb (startsWith "Bearer " h)
  end.

Definition bearer_token (h : string) : string :=
  String.substring 7 (String.length h - 7) h.

(** The providers of the simulated OAuth flow and their fixed accounts
    (the [mockSocialUsers] table of both in-memory back ends). *)
Inductive Provider := google | facebook | github.

Definition social_email (p : Provider) : string :=
  match p with
  | google => "user@gmail.com"
  | facebook => "user@facebook.com"
  | github => "user@github.com"
  end.

Definition social_id (p : Provider) : string :=
  match p with
  | google => "google-user-123"
  | facebook => "facebook-user-123"
  | github => "github-user-123"
  end.

Definition social_firstName (p : Provider) : string :=
  match p with
  | google => "Google"
  | facebook => "Facebook"
  | github => "GitHub"
  end.

(** The user created at the first social sign-in: no password. *)
Definition social_user (p : Provider) (createdAt : string) : User :=
  {| u_id := social_id p; u_email := social_email p; u_password := "";
     u_firstName := social_firstName p; u_lastName := "User"; u_isAdmin := false;
     u_createdAt := createdAt; u_updatedAt := None |}.

(** [provider] of the request body: one of the three names, or anything
    else. *)
Definition provider_of (name : string) : option Provider :=
  if String.eqb name "google" then Some google
  else if String.eqb name "facebook" then Some facebook
  else if String.eqb name "github" then Some github
  else None.

(** [Array.from(map.values())] where the handler only sums or counts. *)
Definition values_of {A} (m : gmap string A) : list A := (map_to_list m).*2.

(** [Array.from(bookings.values()).filter(booking => booking.userId === userId)
    .map(booking => ({ ...booking, event: event ? {...} : null }))]: the
    bookings of [userId], each with the title, date, location and image of
    its event when [events] holds it.  The Map iterates in insertion
    order and the model in key order: the properties of the listing speak
    of membership only. *)
Definition own_bookings (userId : string) (d : Data) : list (Booking * option EventInfo) :=
  (λ booking, (booking, info_of <$> events d !! b_eventId booking))
    <$> filter (λ booking, b_userId booking = userId) (values_of (bookings d)).

Module MemServer.

Definition sampleEvents : list Event := [
  sample "1" "React Developer Conference 2025"
    "Join us for the biggest React conference of the year! Learn about the latest features, best practices, and connect with fellow developers."
    "2025-03-15T10:00:00Z" "San Francisco Convention Center" "Conference"
    500 350 29999
    "https://images.unsplash.com/photo-1540575467063-178a50c2df87?ixlib=rb-4.0.3&auto=format&fit=crop&w=1000&q=80";
  sample "2" "Jazz Night at Blue Note"
    "An intimate evening of smooth jazz featuring renowned musicians from around the world."
    "2025-02-28T20:00:00Z" "Blue Note Jazz Club, NYC" "Concert"
    150 75 8500
    "https://images.unsplash.com/photo-1493225457124-a3eb161ffa5f?ixlib=rb-4.0.3&auto=format&fit=crop&w=1000&q=80";
  sample "3" "Digital Marketing Workshop"
    "Master the art of digital marketing with hands-on workshops covering SEO, social media, and content strategy."
    "2025-03-05T09:00:00Z" "Downtown Business Center" "Workshop"
    50 25 15000
    "https://images.unsplash.com/photo-1552664730-d307ca884978?ixlib=rb-4.0.3&auto=format&fit=crop&w=1000&q=80"
].

(** [initializeData()]: runs at the head of every request and seeds once. *)
Definition initializeData (env : Env) (d : Data) : Data :=
  if initialized d then d
  else
    let d := set_user "test-user-123"
               (test_user "5e884898da28047151d0e56f8dc6292773603d0d6aabbdd62a11ef721d1542d8"
                          (seedISO env 0)) d in
    let d := set_userEmail "test@example.com" "test-user-123" d in
    let d := set_user "admin-user-123"
               (admin_user "240be518fabd2724ddb6f04eeb1da5967448d7e831c08c8fa822809f74c720a9"
                           (seedISO env 1)) d in
    let d := set_userEmail "admin@example.com" "admin-user-123" d in
    set_initialized (seed_events sampleEvents d).

Definition json_response (b : Body) (code : Z) (d : Data) : Response * Data :=
  (json b code, d).

(** The branch [path.includes('/events/') && GET]. *)
Definition get_event (env : Env) (eventId : string) (d : Data) : Response * Data :=
  let d := initializeData env d in
  match events d !! eventId with
  | None => json_response (Err "Event not found") 404 d
  | Some event => json_response (EventOk event) 200 d
  end.

(** The branch [path.endsWith('/signup') && POST]. *)
Definition signup (env : Env) (rq : SignupReq) (d : Data) : Response * Data :=
  let d := initializeData env d in
  match rq_email rq, rq_password rq with
  | Some email, Some password =>
      if negb (truthy_str email) || negb (truthy_str password) then
        json_response (Err "Email and password are required") 400 d
      else if bool_decide (is_Some (userEmails d !! email)) then
        json_response (Err "User already exists with this email") 400 d
      else
        let userId := randomUUID env in
        let hashedPassword := hashPassword env password in
        let user :=
          {| u_id := userId; u_email := email; u_password := hashedPassword;
             u_firstName := js_or truthy_str (rq_firstName rq) "";
             u_lastName := js_or truthy_str (rq_lastName rq) "";
             u_isAdmin := false;
             u_createdAt := nowISO env 0; u_updatedAt := None |} in
        let d := set_user userId user d in
        let d := set_userEmail email userId d in
        let token := generateToken env userId in
        json_response (AuthOk userId email (js_or truthy_str (rq_firstName rq) "")
                              (js_or truthy_str (rq_lastName rq) "") false token) 200 d
  | _, _ => json_response (Err "Email and password are required") 400 d
  end.

(** The branch [path.endsWith('/bookings') && POST]. *)
Definition createBooking (env : Env) (authHeader : option string) (rq : BookingReq)
    (d : Data) : Response * Data :=
  let d := initializeData env d in
  match authHeader with
  | Some h =>
      if bearer_invalid authHeader then json_response (Err "Authorization required") 401 d
      else
        match verifyToken_mem env (bearer_token h) with
        | None => json_response (Err "Invalid token") 401 d
        | Some userId =>
            match rq_eventId rq, rq_quantity rq with
            | Some eventId, Some quantity =>
                if booking_fields_invalid (rq_eventId rq) (rq_quantity rq) then
                  json_response (Err "Event ID and valid quantity are required") 400 d
                else
                  match events d !! eventId with
                  | None => json_response (Err "Event not found") 404 d
                  | Some event =>
                      if availableTickets event <? quantity then
                        json_response (ErrNotEnough (availableTickets event)) 400 d
                      else
                        let bookingId := randomUUID env in
                        let booking :=
                          {| b_id := bookingId; b_userId := userId; b_eventId := eventId;
                             b_quantity := quantity;
                             totalPrice :=
                               js_or truthy_num (rq_totalAmount rq)
                                     (ev_price event * quantity);
                             b_bookingDate := nowISO env 0; b_status := "Confirmed" |} in
                        let event :=
                          with_availableTickets event (availableTickets event - quantity) in
                        let d := set_event eventId event d in
                        let d := set_booking bookingId booking d in
                        json_response (BookingOk booking (ev_title event) (ev_dateTime event)
                                                 (ev_location event)) 200 d
                  end
            | _, _ => json_response (Err "Event ID and valid quantity are required") 400 d
            end
        end
  | None => json_response (Err "Authorization required") 401 d
  end.

(** The branch [path.includes('/admin/')], [/admin/events] with [POST]. *)
Definition createEvent (env : Env) (authHeader : option string) (rq : EventReq)
    (d : Data) : Response * Data :=
  let d := initializeData env d in
  match authHeader with
  | Some h =>
      if bearer_invalid authHeader then json_response (Err "Authorization required") 401 d
      else
        match verifyToken_mem env (bearer_token h) with
        | None => json_response (Err "Invalid token") 401 d
        | Some userId =>
            if negb (from_option u_isAdmin false (users d !! userId)) then
              json_response (Err "Admin access required") 403 d
            else
              match rq_title rq, rq_date rq, rq_location rq, rq_price rq with
              | Some title, Some date, Some location, Some price =>
                  if event_fields_missing rq then
                    json_response (Err "Title, date, location, and price are required") 400 d
                  else
                    let eventId := randomUUID env in
                    match toISOString env date with
                    | None => json_response (Err "Internal server error") 500 d
                    | Some dateTime =>
                        let event :=
                          {| ev_id := eventId; ev_title := title;
                             ev_description := js_or truthy_str (rq_description rq) "";
                             ev_dateTime := dateTime; ev_location := location;
                             ev_type := js_or truthy_str (rq_category rq) "General";
                             totalTickets := js_or truthy_num (rq_capacity rq) 100;
                             availableTickets := js_or truthy_num (rq_capacity rq) 100;
                             ev_price := parseFloat price;
                             ev_imageUrl := js_or truthy_str (rq_imageUrl rq) "";
                             ev_status := Some (js_or truthy_str (rq_status rq) "active");
                             ev_createdAt := Some (nowISO env 0);
                             ev_updatedAt := Some (nowISO env 1) |} in
                        json_response (EventSaved event) 200 (set_event eventId event d)
                    end
              | _, _, _, _ =>
                  json_response (Err "Title, date, location, and price are required") 400 d
              end
        end
  | None => json_response (Err "Authorization required") 401 d
  end.

(** The branch [path.endsWith('/signin') && POST]. *)
Definition signin (env : Env) (rq : SigninReq) (d : Data) : Response * Data :=
  let d := initializeData env d in
  match si_email rq, si_password rq with
  | Some email, Some password =>
      if negb (truthy_str email) || negb (truthy_str password) then
        json_response (Err "Email and password are required") 400 d
      else
        match userEmails d !! email with
        | None => json_response (Err "Invalid credentials") 401 d
        | Some userId =>
            if negb (truthy_str userId) then
              json_response (Err "Invalid credentials") 401 d
            else
              match users d !! userId with
              | None => json_response (Err "User not found") 401 d
              | Some user =>
                  let hashedPassword := hashPassword env password in
                  if negb (String.eqb (u_password user) hashedPassword) then
                    json_response (Err "Invalid credentials") 401 d
                  else
                    let token := generateToken env userId in
                    json_response (AuthOk (u_id user) (u_email user) (u_firstName user)
                                          (u_lastName user) (u_isAdmin user) token) 200 d
              end
        end
  | _, _ => json_response (Err "Email and password are required") 400 d
  end.

(** The branch [path.endsWith('/auth/social') && POST].  [provider] is
    the field of the body, if any.  When the e-mail index points to a user
    that the user Map does not hold, reading [user.id] throws and the outer
    [catch] answers 500. *)
Definition auth_social (env : Env) (provider : option string) (d : Data)
    : Response * Data :=
  let d := initializeData env d in
  match provider ≫= provider_of with
  | None =>
      json_response (Err "Valid provider (google, facebook, github) is required") 400 d
  | Some p =>
      let existing := userEmails d !! social_email p in
      let d :=
        if truthy_opt truthy_str existing then d
        else
          let d := set_user (social_id p) (social_user p (nowISO env 0)) d in
          set_userEmail (social_email p) (social_id p) d in
      let userId := if truthy_opt truthy_str existing then default "" existing
                    else social_id p in
      match users d !! userId with
      | None => json_response (Err "Internal server error") 500 d
      | Some user =>
          let token := generateToken env userId in
          json_response (AuthOk (u_id user) (u_email user) (u_firstName user)
                                (u_lastName user) (u_isAdmin user) token) 200 d
      end
  end.

(** The branch [path.includes('/admin/')], [/admin/stats]: the error
    answer, or the statistics of the 200 answer. *)
Definition admin_stats (env : Env) (authHeader : option string) (d : Data)
    : (Response + Stats) * Data :=
  let d := initializeData env d in
  match authHeader with
  | Some h =>
      if bearer_invalid authHeader then (inl (json (Err "Authorization required") 401), d)
      else
        match verifyToken_mem env (bearer_token h) with
        | None => (inl (json (Err "Invalid token") 401), d)
        | Some userId =>
            if negb (from_option u_isAdmin false (users d !! userId)) then
              (inl (json (Err "Admin access required") 403), d)
            else
              (inr {| totalEvents := Z.of_nat (size (events d));
                      totalBookings := Z.of_nat (size (bookings d));
                      totalRevenue := revenue (values_of (bookings d));
                      activeEvents := active_count (values_of (events d));
                      totalUsers := None |}, d)
        end
  | None => (inl (json (Err "Authorization required") 401), d)
  end.

(** The branch [path.endsWith('/user/bookings') && GET]: the error answer,
    or the listing of the 200 answer. *)
Definition user_bookings (env : Env) (authHeader : option string) (d : Data)
    : (Response + list (Booking * option EventInfo)) * Data :=
  let d := initializeData env d in
  match authHeader with
  | Some h =>
      if bearer_invalid authHeader then (inl (json (Err "Authorization required") 401), d)
      else
        match verifyToken_mem env (bearer_token h) with
        | None => (inl (json (Err "Invalid token") 401), d)
        | Some userId => (inr (own_bookings userId d), d)
        end
  | None => (inl (json (Err "Authorization required") 401), d)
  end.

End MemServer.

Module MockServer.

(** A method of the class returns a promise: resolved with a body, or
    rejected with the [Error] it threw. *)
Inductive Outcome :=
| Resolved (b : Body)
| Rejected (e : Body).

Definition sampleEvents : list Event := [
  sample "1" "React Developer Conference 2025"
    "Join us for the biggest React conference of the year! Learn about the latest features, best practices, and connect with fellow developers."
    "2025-03-15T10:00:00Z" "Bangalore International Exhibition Centre, Bangalore"
    "Conference" 500 350 250000
    "https://images.unsplash.com/photo-1540575467063-178a50c2df87?ixlib=rb-4.0.3&auto=format&fit=crop&w=1000&q=80";
  sample "2" "Classical Music Concert"
    "An enchanting evening of classical music featuring renowned Indian and international musicians."
    "2025-02-28T20:00:00Z" "NCPA Theatre, Mumbai" "Concert" 150 75 120000
    "https://images.unsplash.com/photo-1493225457124-a3eb161ffa5f?ixlib=rb-4.0.3&auto=format&fit=crop&w=1000&q=80";
  sample "3" "Digital Marketing Workshop"
    "Master the art of digital marketing with hands-on workshops covering SEO, social media, and content strategy."
    "2025-03-05T09:00:00Z" "WeWork, Cyber City, Gurgaon" "Workshop" 50 25 150000
    "https://images.unsplash.com/photo-1552664730-d307ca884978?ixlib=rb-4.0.3&auto=format&fit=crop&w=1000&q=80";
  sample "4" "IPL Cricket Match"
    "Experience the thrill of live cricket with this exciting IPL match between top teams!"
    "2025-04-12T19:00:00Z" "M. Chinnaswamy Stadium, Bangalore" "Sports" 20000 15000 80000
    "https://images.unsplash.com/photo-1546519638-68e109498ffc?ixlib=rb-4.0.3&auto=format&fit=crop&w=1000&q=80";
  sample "5" "Contemporary Art Exhibition"
    "Discover stunning contemporary art from emerging Indian artists at this exclusive gallery opening."
    "2025-03-20T18:00:00Z" "National Gallery of Modern Art, Delhi" "Arts & Culture"
    200 180 30000
    "https://images.unsplash.com/photo-1578321272176-b7bbc0679853?ixlib=rb-4.0.3&auto=format&fit=crop&w=1000&q=80"
].

(** [initialize()]: awaited at the head of every method, seeds once. *)
Definition initialize (env : Env) (d : Data) : Data :=
  if initialized d then d
  else
    let d := set_user "test-user-123"
               (test_user (hashPassword env "password123") (seedISO env 0)) d in
    let d := set_userEmail "test@example.com" "test-user-123" d in
    let d := set_user "admin-user-123"
               (admin_user (hashPassword env "admin123") (seedISO env 1)) d in
    let d := set_userEmail "admin@example.com" "admin-user-123" d in
    set_initialized (seed_events sampleEvents d).

Definition signUp (env : Env) (email password firstName lastName : string) (d : Data)
    : Outcome * Data :=
  let d := initialize env d in
  if bool_decide (is_Some (userEmails d !! email)) then
    (Rejected (Err "User already exists with this email"), d)
  else
    let userId := randomUUID env in
    let hashedPassword := hashPassword env password in
    let user :=
      {| u_id := userId; u_email := email; u_password := hashedPassword;
         u_firstName := js_or truthy_str (Some firstName) "";
         u_lastName := js_or truthy_str (Some lastName) "";
         u_isAdmin := false;
         u_createdAt := nowISO env 0; u_updatedAt := None |} in
    let d := set_user userId user d in
    let d := set_userEmail email userId d in
    let token := generateToken env userId in
    (Resolved (AuthOk userId email (js_or truthy_str (Some firstName) "")
                      (js_or truthy_str (Some lastName) "") false token), d).

Definition getEvent (env : Env) (eventId : string) (d : Data) : Outcome * Data :=
  let d := initialize env d in
  match events d !! eventId with
  | None => (Rejected (Err "Event not found"), d)
  | Some event => (Resolved (EventOk event), d)
  end.

Definition createBooking (env : Env) (token eventId : string) (quantity : Z)
    (totalAmount : option Z) (d : Data) : Outcome * Data :=
  let d := initialize env d in
  match verifyToken_mem env token with
  | None => (Rejected (Err "Invalid token"), d)
  | Some userId =>
      match events d !! eventId with
      | None => (Rejected (Err "Event not found"), d)
      | Some event =>
          if availableTickets event <? quantity then
            (Rejected (ErrNotEnough (availableTickets event)), d)
          else
            let bookingId := randomUUID env in
            let booking :=
              {| b_id := bookingId; b_userId := userId; b_eventId := eventId;
                 b_quantity := quantity;
                 totalPrice := js_or truthy_num totalAmount (ev_price event * quantity);
                 b_bookingDate := nowISO env 0; b_status := "Confirmed" |} in
            let event := with_availableTickets event (availableTickets event - quantity) in
            let d := set_event eventId event d in
            let d := set_booking bookingId booking d in
            (Resolved (BookingOk booking (ev_title event) (ev_dateTime event)
                                 (ev_location event)), d)
      end
  end.

(** [createAdminEvent]: the stored record has the ten fields of the
    [Event] interface.  An unparsable date makes [toISOString] throw the
    RangeError the method rejects with. *)
Definition createAdminEvent (env : Env) (token : string) (rq : EventReq) (d : Data)
    : Outcome * Data :=
  let d := initialize env d in
  match verifyToken_mem env token with
  | None => (Rejected (Err "Invalid token"), d)
  | Some userId =>
      if negb (from_option u_isAdmin false (users d !! userId)) then
        (Rejected (Err "Admin access required"), d)
      else
        match rq_title rq, rq_date rq, rq_location rq, rq_price rq with
        | Some title, Some date, Some location, Some price =>
            if event_fields_missing rq then
              (Rejected (Err "Title, date, location, and price are required"), d)
            else
              let eventId := randomUUID env in
              match toISOString env date with
              | None => (Rejected (Err "Invalid time value"), d)
              | Some dateTime =>
                  let event :=
                    {| ev_id := eventId; ev_title := title;
                       ev_description := js_or truthy_str (rq_description rq) "";
                       ev_dateTime := dateTime; ev_location := location;
                       ev_type := js_or truthy_str (rq_category rq) "General";
                       totalTickets := js_or truthy_num (rq_capacity rq) 100;
                       availableTickets := js_or truthy_num (rq_capacity rq) 100;
                       ev_price := parseFloat price;
                       ev_imageUrl := js_or truthy_str (rq_imageUrl rq) "";
                       ev_status := None; ev_createdAt := None; ev_updatedAt := None |} in
                  (Resolved (EventSaved event), set_event eventId event d)
              end
        | _, _, _, _ =>
            (Rejected (Err "Title, date, location, and price are required"), d)
        end
  end.

Definition signIn (env : Env) (email password : string) (d : Data) : Outcome * Data :=
  let d := initialize env d in
  match userEmails d !! email with
  | None => (Rejected (Err "Invalid credentials"), d)
  | Some userId =>
      if negb (truthy_str userId) then (Rejected (Err "Invalid credentials"), d)
      else
        match users d !! userId with
        | None => (Rejected (Err "User not found"), d)
        | Some user =>
            let hashedPassword := hashPassword env password in
            if negb (String.eqb (u_password user) hashedPassword) then
              (Rejected (Err "Invalid credentials"), d)
            else
              let token := generateToken env userId in
              (Resolved (AuthOk (u_id user) (u_email user) (u_firstName user)
                                (u_lastName user) (u_isAdmin user) token), d)
        end
  end.

(** [signInWithSocial]: the provider is one of the three of its type.
    When the e-mail index points to a user that the user Map does not
    hold, reading [user.id] throws the TypeError the method rejects with. *)
Definition signInWithSocial (env : Env) (p : Provider) (d : Data) : Outcome * Data :=
  let d := initialize env d in
  let existing := userEmails d !! social_email p in
  let d :=
    if truthy_opt truthy_str existing then d
    else
      let d := set_user (social_id p) (social_user p (nowISO env 0)) d in
      set_userEmail (social_email p) (social_id p) d in
  let userId := if truthy_opt truthy_str existing then default "" existing
                else social_id p in
  match users d !! userId with
  | None => (Rejected (Err "Cannot read properties of undefined (reading 'id')"), d)
  | Some user =>
      let token := generateToken env userId in
      (Resolved (AuthOk (u_id user) (u_email user) (u_firstName user)
                        (u_lastName user) (u_isAdmin user) token), d)
  end.

(** [getAdminStats]: the rejection, or the statistics it resolves with. *)
Definition getAdminStats (env : Env) (token : string) (d : Data)
    : (Body + Stats) * Data :=
  let d := initialize env d in
  match verifyToken_mem env token with
  | None => (inl (Err "Invalid token"), d)
  | Some userId =>
      if negb (from_option u_isAdmin false (users d !! userId)) then
        (inl (Err "Admin access required"), d)
      else
        (inr {| totalEvents := Z.of_nat (size (events d));
                totalBookings := Z.of_nat (size (bookings d));
                totalRevenue := revenue (values_of (bookings d));
                activeEvents := active_count (values_of (events d));
                totalUsers := None |}, d)
  end.

(** [getUserBookings]: the rejection, or the listing it resolves with. *)
Definition getUserBookings (env : Env) (token : string) (d : Data)
    : (Body + list (Booking * option EventInfo)) * Data :=
  let d := initialize env d in
  match verifyToken_mem env token with
  | None => (inl (Err "Invalid token"), d)
  | Some userId => (inr (own_bookings userId d), d)
  end.

End MockServer.

(** * The cart of the client *)

Module Cart.

(** The [CartItem] interface of [App.tsx]. *)
Record CartItem := {
  eventId : string;
  eventTitle : string;
  eventDate : string;
  eventLocation : string;
  price : Z;
  quantity : Z;
  eventImage : option string;
}.

(** [{ ...item, quantity: q }] *)
Definition with_quantity (item : CartItem) (q : Z) : CartItem :=
  {| eventId := eventId item; eventTitle := eventTitle item;
     eventDate := eventDate item; eventLocation := eventLocation item;
     price := price item; quantity := q; eventImage := eventImage item |}.


Definition removeFromCart (id : string) (prev : list CartItem) : list CartItem :=
  filter (λ item, eventId item ≠ id) prev.

Definition updateQuantity (id : string) (q : Z) (prev : list CartItem) : list CartItem :=
  if q <=? 0 then filter (λ item, eventId item ≠ id) prev
  else (λ item, if bool_decide (eventId item = id) then with_quantity item q else item)
         <$> prev.

Definition clearCart (prev : list CartItem) : list CartItem := [].

Definition getTotalPrice (cartItems : list CartItem) : Z :=
  foldl (λ total item, total + price item * quantity item) 0 cartItems.

Definition getTotalItems (cartItems : list CartItem) : Z :=
  foldl (λ total item, total + quantity item) 0 cartItems.

(** The arguments [handleCheckout] passes to [apiClient.createBooking]
    for each item: event id, quantity and the line total as
    [totalAmount]. *)
Definition checkout_requests (cartItems : list CartItem) : list BookingReq :=
  (λ item, {| rq_eventId := Some (eventId item);
              rq_quantity := Some (quantity item);
              rq_totalAmount := Some (price item * quantity item) |}) <$> cartItems.

End Cart.

(** * Callers and concrete inputs *)

(** A caller whose [Authorization] header is ["Bearer " + token] with a
    token that [verifyToken] resolves to [userId]. *)
Definition authenticated (env : Env) (h userId : string) : Prop :=
  bearer_invalid (Some h) = false
  ∧ bearer_token h ≠ ""
  ∧ verifyToken env (bearer_token h) = Some userId.

(** [l] records a write of [a] and, later, a write of [b]. *)
Definition written_before {A} (a b : A) (l : list A) : Prop :=
  ∃ l1 l2 l3, l = l1 ++ a :: l2 ++ b :: l3.

(** A platform with the clock at 1000 ms whose token decoder knows five
    tokens. *)
Definition env0 : Env :=
  {| now := 1000;
     nowISO := λ _, "2025-01-01T00:00:00.001Z";
     seedISO := λ _, "2025-01-01T00:00:00.000Z";
     randomUUID := "0b5e7a7e-0000-4000-8000-000000000001";
     sha256hex := λ s, "sha256:" +:+ s;
     toISOString := λ s, Some s;
     btoa_stringify := λ _, "tok-fresh";
     parse_atob := λ s,
       if String.eqb s "tok-u1" then
         Some {| p_userId := Some "u1"; p_exp := Some 5000 |}
       else if String.eqb s "tok-admin" then
         Some {| p_userId := Some "admin-user-123"; p_exp := Some 5000 |}
       else if String.eqb s "tok-now" then
         Some {| p_userId := Some "u1"; p_exp := Some 1000 |}
       else if String.eqb s "tok-noexp" then
         Some {| p_userId := Some "u1"; p_exp := None |}
       else if String.eqb s "tok-fresh" then
         Some {| p_userId := Some "u1"; p_exp := Some (1000 + day_ms) |}
       else None |}.

(** The Maps before the first request. *)
Definition no_data : Data :=
  {| users := ∅; events := ∅; bookings := ∅; userEmails := ∅;
     initialized := false; log := [] |}.

(** An event with capacity 100 of which 40 are sold. *)
Definition gala : Event :=
  sample "7" "Gala" "Annual gala" "2025-06-01T18:00:00.000Z" "Town Hall" "General"
         100 60 2500 "".

Definition gala_world : KvServer.World :=
  {| KvServer.store := {[ KvServer.event_key "7" := KvServer.VEvent gala ]};
     KvServer.writes := [] |}.

Definition gala_data : Data :=
  {| users := ∅; events := {[ "7" := gala ]}; bookings := ∅; userEmails := ∅;
     initialized := true; log := [] |}.

(** A request body that changes nothing but the capacity. *)
Definition capacity_only (capacity : Z) : EventReq :=
  {| rq_title := None; rq_description := None; rq_date := None; rq_location := None;
     rq_price := None; rq_capacity := Some capacity; rq_category := None;
     rq_imageUrl := None; rq_status := None |}.

(** The record a booking handler builds. *)
Definition new_booking (env : Env) (userId eventId : string) (quantity total : Z)
    : Booking :=
  {| b_id := randomUUID env; b_userId := userId; b_eventId := eventId;
     b_quantity := quantity; totalPrice := total;
     b_bookingDate := nowISO env 0; b_status := "Confirmed" |}.

(** The pricing rule of the booking transaction: a supplied override
    that passes the handler's test (it is not zero) is the total, and
    without an override the total is price times quantity. *)
Definition override_price_rule (totalAmount : option Z) (event : Event)
    (quantity : Z) (b : Booking) : Prop :=
  (∀ t, totalAmount = Some t → t ≠ 0 → totalPrice b = t)
  ∧ (totalAmount = None → totalPrice b = ev_price event * quantity).

(** The rule the handlers' test [totalAmount || ...] implements: a
    missing or zero [totalAmount] gives price times quantity, any other
    [totalAmount] is taken as it is. *)
Definition truthiness_price_rule (totalAmount : option Z) (event : Event)
    (quantity : Z) (b : Booking) : Prop :=
  (totalAmount = None ∨ totalAmount = Some 0 → totalPrice b = ev_price event * quantity)
  ∧ (∀ t, totalAmount = Some t → t ≠ 0 → totalPrice b = t).

(** Body of the cart request. *)
Definition cart_request (eventId : string) (quantity : Z) (totalAmount : option Z)
    : BookingReq :=
  {| rq_eventId := Some eventId; rq_quantity := Some quantity;
     rq_totalAmount := totalAmount |}.

(** ** Expectations on a created event *)

(** A creation request with its four required fields and the optional
    ones. *)
Definition event_request (title date location : string) (price : option Z)
    (capacity : option Z) (description category imageUrl status : option string)
    : EventReq :=
  {| rq_title := Some title; rq_description := description; rq_date := Some date;
     rq_location := Some location; rq_price := price; rq_capacity := capacity;
     rq_category := category; rq_imageUrl := imageUrl; rq_status := status |}.

(** The round trip in the words of the specification: the fields of the
    event equal the input, with the defaults (description empty, category
    "General", capacity 100, status "active") in the place of omitted
    fields, and all tickets are available. *)
Definition fields_equal_input (rq : EventReq) (e : Event) : Prop :=
  rq_title rq = Some (ev_title e)
  ∧ rq_date rq = Some (ev_dateTime e)
  ∧ rq_location rq = Some (ev_location e)
  ∧ rq_price rq = Some (ev_price e)
  ∧ ev_description e = default "" (rq_description rq)
  ∧ ev_type e = default "General" (rq_category rq)
  ∧ totalTickets e = default 100 (rq_capacity rq)
  ∧ ev_status e = Some (default "active" (rq_status rq))
  ∧ availableTickets e = totalTickets e.

(** What the handler stores: the date in the ISO form [iso] that [Date]
    gives it, and the defaults in the place of omitted and of falsy fields
    (an empty category or status, a capacity of 0). *)
Definition fields_as_stored (iso : string) (rq : EventReq) (e : Event) : Prop :=
  rq_title rq = Some (ev_title e)
  ∧ ev_dateTime e = iso
  ∧ rq_location rq = Some (ev_location e)
  ∧ rq_price rq = Some (ev_price e)
  ∧ ev_description e = default "" (rq_description rq)
  ∧ (rq_category rq = None ∨ rq_category rq = Some "" → ev_type e = "General")
  ∧ (∀ c, rq_category rq = Some c → c ≠ "" → ev_type e = c)
  ∧ (rq_capacity rq = None ∨ rq_capacity rq = Some 0 → totalTickets e = 100)
  ∧ (∀ n, rq_capacity rq = Some n → n ≠ 0 → totalTickets e = n)
  ∧ (rq_status rq = None ∨ rq_status rq = Some "" → ev_status e = Some "active")
  ∧ (∀ s, rq_status rq = Some s → s ≠ "" → ev_status e = Some s)
  ∧ availableTickets e = totalTickets e.

(** A required field is missing from the body. *)
Definition required_field_missing (rq : EventReq) : Prop :=
  rq_title rq = None ∨ rq_date rq = None ∨ rq_location rq = None ∨ rq_price rq = None.

Definition empty_world : KvServer.World :=
  {| KvServer.store := ∅; KvServer.writes := [] |}.

(** The Maps of a seeded server that holds the administrator only. *)
Definition admin_data : Data :=
  {| users := {[ "admin-user-123" := admin_user "digest" "2025-01-01T00:00:00.000Z" ]};
     events := ∅; bookings := ∅;
     userEmails := {[ "admin@example.com" := "admin-user-123" ]};
     initialized := true; log := [] |}.

(** ** Expectations on tokens and accounts *)

(** [verifyToken] in the words of the specification: the subject id
    exactly when the token decodes to a payload that holds a subject id
    and an expiry strictly greater than the current time, and invalid
    otherwise. *)
Definition verifyToken_strict (env : Env) (token : string) : option string :=
  match parse_atob env token with
  | Some decoded =>
      match p_userId decoded, p_exp decoded with
      | Some userId, Some exp => if now env <? exp then Some userId else None
      | _, _ => None
      end
  | None => None
  end.

(** The payload [generateToken] encodes. *)
Definition issued_payload (issuer : Env) (userId : string) : Payload :=
  {| p_userId := Some userId; p_exp := Some (now issuer + day_ms) |}.

(** The platform of [env0] one millisecond after the expiry of a token
    issued at [env0]. *)
Definition env_late : Env :=
  {| now := 1000 + day_ms + 1;
     nowISO := nowISO env0; seedISO := seedISO env0; randomUUID := randomUUID env0;
     sha256hex := sha256hex env0; toISOString := toISOString env0;
     btoa_stringify := btoa_stringify env0; parse_atob := parse_atob env0 |}.

(** An account registered under ann@example.com. *)
Definition ann : User :=
  {| u_id := "u1"; u_email := "ann@example.com"; u_password := "sha256:secret";
     u_firstName := "Ann"; u_lastName := ""; u_isAdmin := false;
     u_createdAt := "2025-01-01T00:00:00.000Z"; u_updatedAt := None |}.

Definition ann_world : KvServer.World :=
  {| KvServer.store :=
       {[ KvServer.user_key "u1" := KvServer.VUser ann;
          KvServer.user_email_key "ann@example.com" := KvServer.VId "u1" ]};
     KvServer.writes := [] |}.

Definition ann_data : Data :=
  {| users := {[ "u1" := ann ]}; events := ∅; bookings := ∅;
     userEmails := {[ "ann@example.com" := "u1" ]};
     initialized := true; log := [] |}.

Definition ann_again : SignupReq :=
  {| rq_email := Some "ann@example.com"; rq_password := Some "other";
     rq_firstName := Some "Eve"; rq_lastName := None |}.

(** ** Inputs of the further properties *)

(** The user record a sign-up builds. *)
Definition new_user (env : Env) (email password : string)
    (firstName lastName : option string) (updatedAt : option string) : User :=
  {| u_id := randomUUID env; u_email := email;
     u_password := hashPassword env password;
     u_firstName := js_or truthy_str firstName "";
     u_lastName := js_or truthy_str lastName "";
     u_isAdmin := false;
     u_createdAt := nowISO env 0; u_updatedAt := updatedAt |}.

Definition signin_request (email password : string) : SigninReq :=
  {| si_email := Some email; si_password := Some password |}.

Definition signup_request (email password : string) (firstName lastName : option string)
    : SignupReq :=
  {| rq_email := Some email; rq_password := Some password;
     rq_firstName := firstName; rq_lastName := lastName |}.

(** The platform of [env0] for a later request: another identifier, and
    a decoder that also knows the token of the user created under the
    identifier of [env0]. *)
Definition env1 : Env :=
  {| now := 2000;
     nowISO := λ _, "2025-01-01T00:00:00.002Z";
     seedISO := seedISO env0;
     randomUUID := "0b5e7a7e-0000-4000-8000-000000000002";
     sha256hex := sha256hex env0;
     toISOString := toISOString env0;
     btoa_stringify := λ _, "tok-next";
     parse_atob := λ s,
       if String.eqb s "tok-new" then
         Some {| p_userId := Some (randomUUID env0); p_exp := Some 5000 |}
       else parse_atob env0 s |}.

(** The Maps of a seeded server that holds the administrator and the
    event "7". *)
Definition staffed_data : Data :=
  {| users := users admin_data; events := events gala_data; bookings := ∅;
     userEmails := userEmails admin_data; initialized := true; log := [] |}.

(** The [totalPrice] of a stored booking, 0 for any other value. *)
Definition value_price (v : KvServer.Value) : Z :=
  match v with
  | KvServer.VBooking b => totalPrice b
  | _ => 0
  end.

(** A cart line for the event [id]. *)
Definition cart_line (id : string) (price quantity : Z) : Cart.CartItem :=
  {| Cart.eventId := id; Cart.eventTitle := "Event"; Cart.eventDate := "2025-06-01";
     Cart.eventLocation := "Town Hall"; Cart.price := price;
     Cart.quantity := quantity; Cart.eventImage := None |}.

Definition two_lines : list Cart.CartItem := [cart_line "7" 2500 2; cart_line "8" 900 1].

(** The sum of the [totalAmount] fields of a list of booking requests. *)
Definition requested_total (requests : list BookingReq) : Z :=
  foldr (λ rq sum, default 0 (rq_totalAmount rq) + sum) 0 requests.

(** A cart line the booking endpoints accept: an event id and at least
    one ticket. *)
Definition bookable (item : Cart.CartItem) : Prop :=
  Cart.eventId item ≠ "" ∧ 0 < Cart.quantity item.

(** The name under which a provider is requested. *)
Definition provider_name (p : Provider) : string :=
  match p with
  | google => "google"
  | facebook => "facebook"
  | github => "github"
  end.

(** What a booking request over a store that can throw leaves behind: a
    refusal leaves the state as it was; the 200 answer comes with the
    three writes, the event last; the 500 answer comes after none, one
    or two of the writes that precede the event's, with every event as it
    was. *)
Definition booking_outcome (env : Env) (userId : string) (w : KvServer.World)
    (resp : Response) (w' : KvServer.World) : Prop :=
  let id := randomUUID env in
  (status resp ≠ 200 ∧ status resp ≠ 500 ∧ w' = w)
  ∨ (status resp = 200
     ∧ ∃ eventId,
         KvServer.writes w'
         = KvServer.writes w
           ++ [KvServer.booking_key id; KvServer.user_booking_key userId id;
               KvServer.event_key eventId])
  ∨ (status resp = 500
     ∧ (∃ n, (n ≤ 2)%nat
             ∧ KvServer.writes w'
               = KvServer.writes w
                 ++ take n [KvServer.booking_key id; KvServer.user_booking_key userId id])
     ∧ ∀ eventId, KvServer.store w' !! KvServer.event_key eventId
                  = KvServer.store w !! KvServer.event_key eventId).

(** The state in which the answer was 500 and yet the booking and its
    index entry are stored, the event still offering the tickets. *)
Definition stranded (userId eventId : string) (booking : Booking) (event : Event)
    (w' : KvServer.World) : Prop :=
  KvServer.store w' !! KvServer.booking_key (b_id booking)
  = Some (KvServer.VBooking booking)
  ∧ KvServer.store w' !! KvServer.user_booking_key userId (b_id booking)
    = Some (KvServer.VId (b_id booking))
  ∧ KvServer.store w' !! KvServer.event_key eventId = Some (KvServer.VEvent event).

(** The store call that throws is the last write of a booking. *)
Definition last_write_throws (throws : nat → bool) : Prop :=
  throws 0%nat = false ∧ throws 1%nat = false ∧ throws 2%nat = false
  ∧ throws 3%nat = true.

Definition event_write_fails (n : nat) : bool := Nat.eqb n 3.

(** * Part II: properties *)

Import KvServer.

(** ** Truthiness and tokens *)

Lemma truthy_str_spec s : truthy_str s = true ↔ s ≠ "".
Proof.
  unfold truthy_str. destruct (String.eqb_spec s ""); simpl; split; congruence.
Qed.

Lemma truthy_num_spec n : truthy_num n = true ↔ n ≠ 0.
Proof.
  unfold truthy_num. destruct (Z.eqb_spec n 0); simpl; split; congruence.
Qed.

Lemma verifyToken_mem_eq env token :
  verifyToken_mem env token = verifyToken env token.
Proof.
  unfold verifyToken_mem, verifyToken.
  destruct (parse_atob env token) as [d|]; [|done].
  by destruct (truthy_opt truthy_str (p_userId d)).
Qed.

(** ** Facts on keys and on the monad *)

Ltac unfold_handler :=
  unfold mbind, handler_bind, mret, handler_ret, respond, kv_set, kv_get,
    kv_get_event, kv_get_user in *.

Lemma event_key_inj a b : event_key a = event_key b → a = b.
Proof. unfold event_key. cbv [String.append]. congruence. Qed.

(** A key that holds an event in a typed store is none of the keys under
    which bookings and index entries are written. *)
Lemma event_not_at_booking_key id e : well_keyed (booking_key id) (VEvent e) = false.
Proof. by vm_compute. Qed.

Lemma event_not_at_user_booking_key u id e :
  well_keyed (user_booking_key u id) (VEvent e) = false.
Proof. by vm_compute. Qed.

Lemma well_keyed_event id e : well_keyed (event_key id) (VEvent e) = true.
Proof. by vm_compute. Qed.

Lemma well_keyed_booking id b : well_keyed (booking_key id) (VBooking b) = true.
Proof. by vm_compute. Qed.

Lemma well_keyed_user_booking u id s : well_keyed (user_booking_key u id) (VId s) = true.
Proof. by vm_compute. Qed.

Lemma well_keyed_user id u : well_keyed (user_key id) (VUser u) = true.
Proof. by vm_compute. Qed.

Lemma well_keyed_user_email e s : well_keyed (user_email_key e) (VId s) = true.
Proof. by vm_compute. Qed.

Lemma kv_typed_insert m k v :
  kv_typed m → well_keyed k v = true → kv_typed (<[k := v]> m).
Proof.
  intros Hm Hk k' v'. rewrite lookup_insert. case_decide; [|by apply Hm].
  intros [= <-]. by subst.
Qed.

Lemma kv_typed_empty : kv_typed ∅.
Proof. intros k v. by rewrite lookup_empty. Qed.


(** ** The cart endpoint, case by case *)

(** The booking record written by [POST /bookings]. *)
Lemma post_bookings_cases env userId rq w resp w' :
  run (post_bookings env userId rq) w = Some (resp, w') →
  (booking_fields_invalid (rq_eventId rq) (rq_quantity rq) = true
   ∧ resp = json (Err "Event ID and valid quantity are required") 400 ∧ w' = w)
  ∨ (∃ eventId quantity,
       rq_eventId rq = Some eventId ∧ rq_quantity rq = Some quantity ∧ 1 ≤ quantity
       ∧ ((store w !! event_key eventId = None
           ∧ resp = json (Err "Event not found") 404 ∧ w' = w)
          ∨ ∃ event, store w !! event_key eventId = Some (VEvent event)
             ∧ ((availableTickets event < quantity
                 ∧ resp = json (ErrNotEnough (availableTickets event)) 400 ∧ w' = w)
                ∨ (quantity ≤ availableTickets event
                   ∧ ∃ booking,
                       booking =
                         {| b_id := randomUUID env; b_userId := userId;
                            b_eventId := eventId; b_quantity := quantity;
                            totalPrice :=
                              js_or truthy_num (rq_totalAmount rq) (ev_price event * quantity);
                            b_bookingDate := nowISO env 0; b_status := "Confirmed" |}
                       ∧ resp = json (BookingOk booking (ev_title event)
                                        (ev_dateTime event) (ev_location event)) 200
                       ∧ w' = booked w userId eventId event booking)))).
Proof.
  unfold post_bookings, run.
  destruct (rq_eventId rq) as [eventId|] eqn:He; cycle 1.
  { simpl. intros ?; simplify_eq. left. split; [|done].
    unfold booking_fields_invalid. by rewrite ?He. }
  destruct (rq_quantity rq) as [quantity|] eqn:Hq; cycle 1.
  { simpl. intros ?; simplify_eq. left. split; [|done].
    unfold booking_fields_invalid. simpl. by rewrite orb_true_r. }
  destruct (booking_fields_invalid _ _) eqn:Hinv.
  { simpl. intros ?; simplify_eq. by left. }
  assert (1 ≤ quantity) as Hq1.
  { unfold booking_fields_invalid in Hinv. simpl in Hinv.
    apply orb_false_iff in Hinv as [_ Hlt]. lia. }
  unfold_handler.
  destruct (store w !! event_key eventId) as [v|] eqn:Hev; cycle 1.
  { simpl. intros ?; simplify_eq. right. exists eventId, quantity. by eauto 10. }
  destruct v as [|event| |]; try done.
  intros Hrun. right. exists eventId, quantity. do 3 (split; [done|]).
  right. exists event. split; [done|]. revert Hrun.
  destruct (availableTickets event <? quantity) eqn:Hlt; simpl.
  - intros ?; simplify_eq. left. split; [lia|done].
  - intros ?; simplify_eq. right. split; [lia|]. eexists. split; [reflexivity|].
    split; [done|]. unfold booked. simpl. by rewrite <- !app_assoc.
Qed.

(** ** The direct booking endpoint, case by case *)

Lemma post_events_book_cases env userId eventId body w resp w' :
  run (post_events_book env userId eventId body) w = Some (resp, w') →
  (w' = w ∧ status resp ≠ 200
   ∧ (userId = "" ∨ eventId = "" ∨ body = None ∨ quantity_invalid (mjoin body) = true))
  ∨ (∃ quantity,
       userId ≠ "" ∧ eventId ≠ "" ∧ body = Some (Some quantity) ∧ 1 ≤ quantity
       ∧ ((store w !! event_key eventId = None
           ∧ resp = json (Err "Event not found") 404 ∧ w' = w)
          ∨ ∃ event, store w !! event_key eventId = Some (VEvent event)
             ∧ ((availableTickets event < quantity
                 ∧ resp = json (ErrNotEnough (availableTickets event)) 400 ∧ w' = w)
                ∨ (quantity ≤ availableTickets event
                   ∧ ∃ booking,
                       booking =
                         {| b_id := randomUUID env; b_userId := userId;
                            b_eventId := eventId; b_quantity := quantity;
                            totalPrice := ev_price event * quantity;
                            b_bookingDate := nowISO env 0; b_status := "Confirmed" |}
                       ∧ resp = json (BookingOk booking (ev_title event)
                                        (ev_dateTime event) (ev_location event)) 200
                       ∧ w' = booked w userId eventId event booking)))).
Proof.
  unfold post_events_book, run.
  destruct (truthy_str userId) eqn:Hu; simpl; cycle 1.
  { intros ?; simplify_eq. left. repeat split; [done|]. left.
    apply not_true_iff_false in Hu. rewrite truthy_str_spec in Hu.
    by destruct (decide (userId = "")). }
  destruct (truthy_str eventId) eqn:Hid; simpl; cycle 1.
  { intros ?; simplify_eq. left. repeat split; [done|]. right; left.
    apply not_true_iff_false in Hid. rewrite truthy_str_spec in Hid.
    by destruct (decide (eventId = "")). }
  apply truthy_str_spec in Hu, Hid.
  destruct body as [[quantity|]|]; simpl; cycle 1.
  { intros ?; simplify_eq. left. repeat split; [done|]. by do 3 right. }
  { intros ?; simplify_eq. left. repeat split; [done|]. by right; right; left. }
  destruct (quantity_invalid (Some quantity)) eqn:Hinv.
  { simpl. intros ?; simplify_eq. left. repeat split; [done|]. by do 3 right. }
  assert (1 ≤ quantity) as Hq1.
  { unfold quantity_invalid in Hinv. simpl in Hinv.
    apply orb_false_iff in Hinv as [_ Hlt]. lia. }
  unfold_handler.
  destruct (store w !! event_key eventId) as [v|] eqn:Hev; cycle 1.
  { simpl. intros ?; simplify_eq. right. exists quantity. by eauto 10. }
  destruct v as [|event| |]; try done.
  intros Hrun. right. exists quantity. do 4 (split; [done|]).
  right. exists event. split; [done|]. revert Hrun.
  destruct (availableTickets event <? quantity) eqn:Hlt; simpl.
  - intros ?; simplify_eq. left. split; [lia|done].
  - intros ?; simplify_eq. right. split; [lia|]. eexists. split; [reflexivity|].
    split; [done|]. unfold booked. simpl. by rewrite <- !app_assoc.
Qed.

(** ** Totality on typed stores *)

Lemma kv_get_event_typed m k v :
  kv_typed m → m !! event_key k = Some v → ∃ e, v = VEvent e.
Proof.
  intros Hm Hk. apply Hm in Hk. destruct v; try by vm_compute in Hk. by eexists.
Qed.

Lemma post_bookings_total env userId rq w :
  kv_typed (store w) → ∃ resp w', run (post_bookings env userId rq) w = Some (resp, w').
Proof.
  intros Hm. unfold post_bookings, run.
  destruct (rq_eventId rq) as [eventId|]; [|by eauto].
  destruct (rq_quantity rq) as [quantity|]; [|by eauto].
  destruct (booking_fields_invalid _ _); [by eauto|].
  unfold_handler.
  destruct (store w !! event_key eventId) as [v|] eqn:Hev; [|by eauto].
  destruct (kv_get_event_typed _ _ _ Hm Hev) as [e ->].
  destruct (availableTickets e <? quantity); simpl; by eauto.
Qed.

Lemma post_events_book_total env userId eventId body w :
  kv_typed (store w) →
  ∃ resp w', run (post_events_book env userId eventId body) w = Some (resp, w').
Proof.
  intros Hm. unfold post_events_book, run.
  destruct (truthy_str userId); [|by eauto].
  destruct (truthy_str eventId); [|by eauto].
  destruct body as [[quantity|]|]; simpl; [|by eauto..].
  destruct (quantity_invalid _); [by eauto|].
  unfold_handler.
  destruct (store w !! event_key eventId) as [v|] eqn:Hev; [|by eauto].
  destruct (kv_get_event_typed _ _ _ Hm Hev) as [e ->].
  destruct (availableTickets e <? quantity); simpl; by eauto.
Qed.

(** ** Store typing is kept by the handlers that write *)

Ltac answered := simpl; intros ?; simplify_eq; done.

Lemma post_signup_typed env rq w resp w' :
  kv_typed (store w) → run (post_signup env rq) w = Some (resp, w') → kv_typed (store w').
Proof.
  intros Hm. unfold run, post_signup.
  destruct (rq_email rq) as [email|]; [|answered].
  destruct (rq_password rq) as [password|]; [|answered].
  destruct (negb (truthy_str email) || negb (truthy_str password));
    [answered|].
  unfold_handler.
  destruct (truthy_opt truthy_value (store w !! user_email_key email));
    [answered|].
  simpl. intros ?; simplify_eq. simpl.
  apply kv_typed_insert; [apply kv_typed_insert; [done|]|]; by vm_compute.
Qed.

Lemma post_admin_events_typed env rq w resp w' :
  kv_typed (store w) → run (post_admin_events env rq) w = Some (resp, w') →
  kv_typed (store w').
Proof.
  intros Hm. unfold run, post_admin_events.
  destruct (rq_title rq), (rq_date rq) as [date|], (rq_location rq), (rq_price rq);
    try answered.
  destruct (event_fields_missing rq); [answered|].
  destruct (toISOString env date); [|answered].
  unfold_handler. simpl. intros ?; simplify_eq. simpl.
  apply kv_typed_insert; [done|by vm_compute].
Qed.

Lemma put_admin_events_typed env eventId rq w resp w' :
  kv_typed (store w) → run (put_admin_events env eventId rq) w = Some (resp, w') →
  kv_typed (store w').
Proof.
  intros Hm. unfold run, put_admin_events. unfold_handler.
  destruct (store w !! event_key eventId) as [[|e| |]|]; try done;
    [|answered].
  destruct (rq_date rq) as [date|]; cycle 1.
  { simpl. intros ?; simplify_eq. simpl. apply kv_typed_insert; [done|by vm_compute]. }
  destruct (truthy_str date); cycle 1.
  { simpl. intros ?; simplify_eq. simpl. apply kv_typed_insert; [done|by vm_compute]. }
  destruct (toISOString env date); [|answered].
  simpl. intros ?; simplify_eq. simpl.
  apply kv_typed_insert; [done|by vm_compute].
Qed.

Lemma put_admin_events_total env eventId rq w :
  kv_typed (store w) → ∃ resp w', run (put_admin_events env eventId rq) w = Some (resp, w').
Proof.
  intros Hm. unfold run, put_admin_events. unfold_handler.
  destruct (store w !! event_key eventId) as [v|] eqn:Hev; [|by eauto].
  destruct (kv_get_event_typed _ _ _ Hm Hev) as [e ->].
  destruct (rq_date rq) as [date|]; [|by simpl; eauto].
  destruct (truthy_str date); [|by simpl; eauto].
  destruct (toISOString env date); simpl; by eauto.
Qed.

(** ** Inventory under the key-value booking endpoints *)

Lemma booked_lookup_event w userId eventId event booking k e :
  kv_typed (store w) →
  store w !! k = Some (VEvent e) →
  store (booked w userId eventId event booking) !! k =
    if decide (k = event_key eventId)
    then Some (VEvent (with_availableTickets event
                         (availableTickets event - b_quantity booking)))
    else Some (VEvent e).
Proof.
  intros Hm Hk. unfold booked. simpl.
  assert (k ≠ booking_key (b_id booking)) as Hn1.
  { intros ->. apply Hm in Hk. by rewrite event_not_at_booking_key in Hk. }
  assert (k ≠ user_booking_key userId (b_id booking)) as Hn2.
  { intros ->. apply Hm in Hk. by rewrite event_not_at_user_booking_key in Hk. }
  case_decide as Hd.
  - subst k. by rewrite lookup_insert_eq.
  - by rewrite !lookup_insert_ne.
Qed.

Lemma booked_typed w userId eventId event booking :
  kv_typed (store w) → kv_typed (store (booked w userId eventId event booking)).
Proof.
  intros Hm. unfold booked. simpl.
  repeat apply kv_typed_insert; try done.
Qed.

Lemma post_bookings_typed env userId rq w resp w' :
  kv_typed (store w) → run (post_bookings env userId rq) w = Some (resp, w') →
  kv_typed (store w').
Proof.
  intros Hm Hrun.
  apply post_bookings_cases in Hrun
    as [(_ & _ & ->)|(eventId & q & _ & _ & _ & [(_ & _ & ->)|(ev & _ & Hc)])];
    [done..|].
  destruct Hc as [(_ & _ & ->)|(_ & b & _ & _ & ->)]; [done|].
  by apply booked_typed.
Qed.

Lemma post_events_book_typed env userId eventId body w resp w' :
  kv_typed (store w) → run (post_events_book env userId eventId body) w = Some (resp, w') →
  kv_typed (store w').
Proof.
  intros Hm Hrun.
  apply post_events_book_cases in Hrun
    as [(-> & _)|(q & _ & _ & _ & _ & [(_ & _ & ->)|(ev & _ & Hc)])];
    [done..|].
  destruct Hc as [(_ & _ & ->)|(_ & b & _ & _ & ->)]; [done|].
  by apply booked_typed.
Qed.

Lemma booked_inventory w userId eventId event booking k e :
  kv_typed (store w) →
  store w !! event_key eventId = Some (VEvent event) →
  1 ≤ b_quantity booking → b_quantity booking ≤ availableTickets event →
  store w !! k = Some (VEvent e) → inventory_ok e →
  ∃ e', store (booked w userId eventId event booking) !! k = Some (VEvent e')
        ∧ totalTickets e' = totalTickets e ∧ inventory_ok e'.
Proof.
  intros Hm Hev Hq1 Hq2 Hk Hok.
  rewrite (booked_lookup_event _ _ _ _ _ _ _ Hm Hk). case_decide as Hd.
  - subst k. rewrite Hev in Hk. simplify_eq. eexists. split; [done|].
    unfold inventory_ok in *. simpl. lia.
  - by eauto.
Qed.

Lemma post_bookings_inventory env userId rq w resp w' k e :
  kv_typed (store w) →
  store w !! k = Some (VEvent e) → inventory_ok e →
  run (post_bookings env userId rq) w = Some (resp, w') →
  ∃ e', store w' !! k = Some (VEvent e')
        ∧ totalTickets e' = totalTickets e ∧ inventory_ok e'.
Proof.
  intros Hm Hk Hok Hrun.
  apply post_bookings_cases in Hrun
    as [(_ & _ & ->)|(eventId & q & _ & _ & Hq1 & [(_ & _ & ->)|(ev & Hev & Hc)])];
    [by eauto..|].
  destruct Hc as [(_ & _ & ->)|(Hq2 & b & -> & _ & ->)]; [by eauto|].
  by eapply booked_inventory.
Qed.

Lemma post_events_book_inventory env userId eventId body w resp w' k e :
  kv_typed (store w) →
  store w !! k = Some (VEvent e) → inventory_ok e →
  run (post_events_book env userId eventId body) w = Some (resp, w') →
  ∃ e', store w' !! k = Some (VEvent e')
        ∧ totalTickets e' = totalTickets e ∧ inventory_ok e'.
Proof.
  intros Hm Hk Hok Hrun.
  apply post_events_book_cases in Hrun
    as [(-> & _)|(q & _ & _ & _ & Hq1 & [(_ & _ & ->)|(ev & Hev & Hc)])];
    [by eauto..|].
  destruct Hc as [(_ & _ & ->)|(Hq2 & b & -> & _ & ->)]; [by eauto|].
  by eapply booked_inventory.
Qed.

(** ** The in-memory variants, case by case *)

Lemma mem_initializeData_id env d :
  initialized d = true → MemServer.initializeData env d = d.
Proof. unfold MemServer.initializeData. by intros ->. Qed.

Lemma mock_initialize_id env d :
  initialized d = true → MockServer.initialize env d = d.
Proof. unfold MockServer.initialize. by intros ->. Qed.

Lemma mem_initializeData_initialized env d :
  initialized (MemServer.initializeData env d) = true.
Proof. unfold MemServer.initializeData. by destruct (initialized d) eqn:E. Qed.

Lemma mock_initialize_initialized env d :
  initialized (MockServer.initialize env d) = true.
Proof. unfold MockServer.initialize. by destruct (initialized d) eqn:E. Qed.

(** The state after a successful in-memory booking. *)
Lemma booked_mem_events d eventId event bookingId booking :
  events (set_booking bookingId booking (set_event eventId event d))
  = <[eventId := event]> (events d).
Proof. done. Qed.

Lemma mem_createBooking_cases env authHeader rq d resp d' :
  MemServer.createBooking env authHeader rq d = (resp, d') →
  let d0 := MemServer.initializeData env d in
  (d' = d0 ∧ status resp ≠ 200
   ∧ (bearer_invalid authHeader = true
      ∨ (∃ h, authHeader = Some h ∧ verifyToken_mem env (bearer_token h) = None)
      ∨ booking_fields_invalid (rq_eventId rq) (rq_quantity rq) = true))
  ∨ (∃ h userId eventId quantity,
       authHeader = Some h ∧ verifyToken_mem env (bearer_token h) = Some userId
       ∧ rq_eventId rq = Some eventId ∧ rq_quantity rq = Some quantity ∧ 1 ≤ quantity
       ∧ ((events d0 !! eventId = None
           ∧ resp = json (Err "Event not found") 404 ∧ d' = d0)
          ∨ ∃ event, events d0 !! eventId = Some event
             ∧ ((availableTickets event < quantity
                 ∧ resp = json (ErrNotEnough (availableTickets event)) 400 ∧ d' = d0)
                ∨ (quantity ≤ availableTickets event
                   ∧ ∃ booking,
                       booking =
                         {| b_id := randomUUID env; b_userId := userId;
                            b_eventId := eventId; b_quantity := quantity;
                            totalPrice :=
                              js_or truthy_num (rq_totalAmount rq) (ev_price event * quantity);
                            b_bookingDate := nowISO env 0; b_status := "Confirmed" |}
                       ∧ resp = json (BookingOk booking (ev_title event)
                                        (ev_dateTime event) (ev_location event)) 200
                       ∧ d' = set_booking (randomUUID env) booking
                                (set_event eventId
                                   (with_availableTickets event
                                      (availableTickets event - quantity)) d0))))).
Proof.
  unfold MemServer.createBooking, MemServer.json_response.
  set (d0 := MemServer.initializeData env d). simpl.
  destruct authHeader as [h|]; cycle 1.
  { intros ?; simplify_eq. left. by eauto. }
  destruct (bearer_invalid (Some h)) eqn:Hb.
  { intros ?; simplify_eq. left. by eauto. }
  destruct (verifyToken_mem env (bearer_token h)) as [userId|] eqn:Hv; cycle 1.
  { intros ?; simplify_eq. left. by eauto 10. }
  destruct (rq_eventId rq) as [eventId|] eqn:He; cycle 1.
  { intros ?; simplify_eq. left. by eauto 10. }
  destruct (rq_quantity rq) as [quantity|] eqn:Hq; cycle 1.
  { intros ?; simplify_eq. left. repeat split; [done|]. do 2 right.
    unfold booking_fields_invalid. simpl. by rewrite orb_true_r. }
  destruct (booking_fields_invalid _ _) eqn:Hinv.
  { intros ?; simplify_eq. left. by eauto 10. }
  assert (1 ≤ quantity) as Hq1.
  { unfold booking_fields_invalid in Hinv. simpl in Hinv.
    apply orb_false_iff in Hinv as [_ Hlt]. lia. }
  intros Hrun. right. exists h, userId, eventId, quantity.
  do 5 (split; [done|]). revert Hrun.
  destruct (events d0 !! eventId) as [event|] eqn:Hev; cycle 1.
  { intros ?; simplify_eq. by left. }
  intros Hrun. right. exists event. split; [done|]. revert Hrun.
  destruct (availableTickets event <? quantity) eqn:Hlt.
  - intros ?; simplify_eq. left. split; [lia|done].
  - intros ?; simplify_eq. right. split; [lia|]. eexists. by split.
Qed.

Lemma mock_createBooking_cases env token eventId quantity totalAmount d out d' :
  MockServer.createBooking env token eventId quantity totalAmount d = (out, d') →
  let d0 := MockServer.initialize env d in
  (verifyToken_mem env token = None
   ∧ out = MockServer.Rejected (Err "Invalid token") ∧ d' = d0)
  ∨ (∃ userId,
       verifyToken_mem env token = Some userId
       ∧ ((events d0 !! eventId = None
           ∧ out = MockServer.Rejected (Err "Event not found") ∧ d' = d0)
          ∨ ∃ event, events d0 !! eventId = Some event
             ∧ ((availableTickets event < quantity
                 ∧ out = MockServer.Rejected (ErrNotEnough (availableTickets event))
                 ∧ d' = d0)
                ∨ (quantity ≤ availableTickets event
                   ∧ ∃ booking,
                       booking =
                         {| b_id := randomUUID env; b_userId := userId;
                            b_eventId := eventId; b_quantity := quantity;
                            totalPrice :=
                              js_or truthy_num totalAmount (ev_price event * quantity);
                            b_bookingDate := nowISO env 0; b_status := "Confirmed" |}
                       ∧ out = MockServer.Resolved
                                 (BookingOk booking (ev_title event)
                                    (ev_dateTime event) (ev_location event))
                       ∧ d' = set_booking (randomUUID env) booking
                                (set_event eventId
                                   (with_availableTickets event
                                      (availableTickets event - quantity)) d0))))).
Proof.
  unfold MockServer.createBooking.
  set (d0 := MockServer.initialize env d). simpl.
  destruct (verifyToken_mem env token) as [userId|] eqn:Hv; cycle 1.
  { intros ?; simplify_eq. by left. }
  intros Hrun. right. exists userId. split; [done|]. revert Hrun.
  destruct (events d0 !! eventId) as [event|] eqn:Hev; cycle 1.
  { intros ?; simplify_eq. by left. }
  intros Hrun. right. exists event. split; [done|]. revert Hrun.
  destruct (availableTickets event <? quantity) eqn:Hlt.
  - intros ?; simplify_eq. left. split; [lia|done].
  - intros ?; simplify_eq. right. split; [lia|]. eexists. by split.
Qed.

(** ** Authenticated callers *)

Lemma verifyToken_truthy env token userId :
  verifyToken env token = Some userId → userId ≠ "".
Proof.
  unfold verifyToken. destruct (parse_atob env token) as [d|]; [|done].
  destruct (p_userId d) as [u|]; simpl; [|done].
  destruct (truthy_str u) eqn:Hu; simpl; [|done].
  destruct (exp_lt_now _ _); [done|]. intros [= <-]. by apply truthy_str_spec.
Qed.

Lemma requireAuth_authenticated env h userId next :
  authenticated env h userId → requireAuth env (Some h) next = next userId.
Proof.
  intros (Hb & Ht & Hv). unfold requireAuth, bearer_invalid in *.
  apply orb_false_iff in Hb as [-> ->]. simpl.
  apply truthy_str_spec in Ht. unfold bearer_token in *. rewrite Ht. simpl.
  by rewrite Hv.
Qed.

Lemma requireAdmin_admin userId admin next w :
  userId ≠ "" → store w !! user_key userId = Some (VUser admin) → u_isAdmin admin = true →
  requireAdmin userId next w = next w.
Proof.
  intros Hu Hw Hadm. apply truthy_str_spec in Hu.
  unfold requireAdmin. rewrite Hu. simpl. unfold_handler. by rewrite Hw, Hadm.
Qed.

Lemma route_put_admin_events_admin env h userId admin eventId rq w :
  authenticated env h userId →
  store w !! user_key userId = Some (VUser admin) → u_isAdmin admin = true →
  run (route_put_admin_events env (Some h) eventId rq) w
  = run (put_admin_events env eventId rq) w.
Proof.
  intros Hauth Hw Hadm. unfold route_put_admin_events, run.
  rewrite (requireAuth_authenticated _ _ _ _ Hauth).
  rewrite (requireAdmin_admin _ _ _ _ (verifyToken_truthy _ _ _ (proj2 (proj2 Hauth))) Hw Hadm).
  done.
Qed.

Lemma route_post_admin_events_admin env h userId admin rq w :
  authenticated env h userId →
  store w !! user_key userId = Some (VUser admin) → u_isAdmin admin = true →
  run (route_post_admin_events env (Some h) rq) w = run (post_admin_events env rq) w.
Proof.
  intros Hauth Hw Hadm. unfold route_post_admin_events, run.
  rewrite (requireAuth_authenticated _ _ _ _ Hauth).
  rewrite (requireAdmin_admin _ _ _ _ (verifyToken_truthy _ _ _ (proj2 (proj2 Hauth))) Hw Hadm).
  done.
Qed.

Lemma authenticated_env0 : authenticated env0 "Bearer tok-u1" "u1".
Proof. by vm_compute. Qed.

Lemma authenticated_admin_env0 : authenticated env0 "Bearer tok-admin" "admin-user-123".
Proof. by vm_compute. Qed.

Lemma gala_world_typed : kv_typed (store gala_world).
Proof. apply kv_typed_insert; [apply kv_typed_empty|by vm_compute]. Qed.

(** ** Inventory under the in-memory server *)

Lemma seeded_inventory_mem : Forall inventory_ok MemServer.sampleEvents.
Proof. repeat constructor; simpl; lia. Qed.

Lemma seeded_inventory_mock : Forall inventory_ok MockServer.sampleEvents.
Proof. repeat constructor; simpl; lia. Qed.

Lemma seed_events_inv l d :
  Forall inventory_ok l → events_inv d → events_inv (seed_events l d).
Proof.
  unfold seed_events. revert d. induction l as [|e l IH]; intros d Hl Hd; [done|].
  inversion Hl; subst. simpl. apply IH; [done|].
  intros id e'. simpl. rewrite lookup_insert. case_decide; [|by apply Hd].
  by intros [= <-].
Qed.

Lemma mem_initializeData_inv env d :
  events_inv d → events_inv (MemServer.initializeData env d).
Proof.
  intros Hd. unfold MemServer.initializeData. destruct (initialized d); [done|].
  intros id e He. simpl in He.
  eapply (seed_events_inv MemServer.sampleEvents); [apply seeded_inventory_mem| |exact He].
  apply Hd.
Qed.

Lemma mock_initialize_inv env d :
  events_inv d → events_inv (MockServer.initialize env d).
Proof.
  intros Hd. unfold MockServer.initialize. destruct (initialized d); [done|].
  intros id e He. simpl in He.
  eapply (seed_events_inv MockServer.sampleEvents); [apply seeded_inventory_mock| |exact He].
  apply Hd.
Qed.

Lemma mem_createBooking_inventory env authHeader rq d resp d' :
  events_inv d →
  MemServer.createBooking env authHeader rq d = (resp, d') →
  events_inv d'.
Proof.
  intros Hd Hrun. apply (mem_initializeData_inv env) in Hd.
  apply mem_createBooking_cases in Hrun. simpl in Hrun.
  destruct Hrun as [(-> & _)|(h & u & eid & q & _ & _ & _ & _ & Hq1 & Hc)]; [done|].
  destruct Hc as [(_ & _ & ->)|(ev & Hev & [(_ & _ & ->)|(Hq2 & b & _ & _ & ->)])];
    [done..|].
  intros id e. rewrite booked_mem_events, lookup_insert. case_decide; [|by apply Hd].
  intros [= <-]. apply Hd in Hev. unfold inventory_ok in *. simpl. lia.
Qed.

(** The mock class keeps the invariant as long as the quantity is not
    negative. *)
Lemma mock_createBooking_inventory env token eventId quantity totalAmount d out d' :
  0 ≤ quantity →
  events_inv d →
  MockServer.createBooking env token eventId quantity totalAmount d = (out, d') →
  events_inv d'.
Proof.
  intros Hq0 Hd Hrun. apply (mock_initialize_inv env) in Hd.
  apply mock_createBooking_cases in Hrun. simpl in Hrun.
  destruct Hrun as [(_ & _ & ->)|(u & _ & Hc)]; [done|].
  destruct Hc as [(_ & _ & ->)|(ev & Hev & [(_ & _ & ->)|(Hq2 & b & _ & _ & ->)])];
    [done..|].
  intros id e. rewrite booked_mem_events, lookup_insert. case_decide; [|by apply Hd].
  intros [= <-]. apply Hd in Hev. unfold inventory_ok in *. simpl. lia.
Qed.

(** C1 (inventory invariant, failing input).  Every booking variant is
    claimed to keep [0 <= availableTickets <= totalTickets]; the two
    servers do ([post_bookings_inventory], [post_events_book_inventory],
    [mem_createBooking_inventory]) because they reject a quantity below 1.
    [MockServer.createBooking] has no such test: on the seeded event "1"
    (350 of 500 available) a booking of -200 tickets is accepted and leaves
    550 tickets available out of 500. *)
Theorem mock_createBooking_negative_quantity :
  let d0 := MockServer.initialize env0 no_data in
  let r := MockServer.createBooking env0 "tok-u1" "1" (-200) None d0 in
  (∃ e, events d0 !! "1" = Some e ∧ inventory_ok e)
  ∧ (∃ b t dt l, r.1 = MockServer.Resolved (BookingOk b t dt l) ∧ b_quantity b = -200)
  ∧ ∃ e', events r.2 !! "1" = Some e'
          ∧ availableTickets e' = 550 ∧ totalTickets e' = 500 ∧ ¬ inventory_ok e'.
Proof.
  split; [|split].
  - eexists. split; [by vm_compute|]. split; simpl; lia.
  - do 4 eexists. split; [by vm_compute|]. done.
  - eexists. split; [by vm_compute|]. simpl. repeat split; [done..|].
    unfold inventory_ok. simpl. lia.
Qed.

(** ** Insufficient inventory *)

(** C2.  When an authenticated caller asks for more tickets than the
    event has left, each of the four booking operations (the two
    endpoints of the key-value server, the in-memory server, the mock
    class) answers with the not-enough-tickets error that carries the
    remaining count, and returns the state it was given: the event record,
    the bookings, the index and the write log are all unchanged. *)
Theorem insufficient_inventory_rejected
    env h userId eventId quantity totalAmount event w d :
  authenticated env h userId →
  eventId ≠ "" → 1 ≤ quantity →
  store w !! event_key eventId = Some (VEvent event) →
  initialized d = true → events d !! eventId = Some event →
  availableTickets event < quantity →
  let rq := {| rq_eventId := Some eventId; rq_quantity := Some quantity;
               rq_totalAmount := totalAmount |} in
  let refused := ErrNotEnough (availableTickets event) in
  run (route_post_events_book env (Some h) eventId (Some (Some quantity))) w
    = Some (json refused 400, w)
  ∧ run (route_post_bookings env (Some h) rq) w = Some (json refused 400, w)
  ∧ MemServer.createBooking env (Some h) rq d = (json refused 400, d)
  ∧ MockServer.createBooking env (bearer_token h) eventId quantity totalAmount d
    = (MockServer.Rejected refused, d).
Proof.
  intros Hauth Hid Hq1 Hw Hinit Hd Hlt rq refused.
  pose proof Hauth as (Hb & Ht & Hv).
  pose proof (verifyToken_truthy _ _ _ Hv) as Hu.
  apply truthy_str_spec in Hu, Hid.
  assert (truthy_num quantity = true) as Hqt by (apply truthy_num_spec; lia).
  assert ((quantity <? 1) = false) as Hq1' by lia.
  assert ((availableTickets event <? quantity) = true) as Hlt' by lia.
  unfold route_post_events_book, route_post_bookings.
  rewrite !(requireAuth_authenticated _ _ _ _ Hauth).
  repeat split.
  - unfold run, post_events_book, quantity_invalid. rewrite Hu, Hid. simpl.
    rewrite Hqt, Hq1'. simpl. unfold_handler. by rewrite Hw, Hlt'.
  - unfold run, post_bookings, booking_fields_invalid. simpl.
    rewrite Hid, Hqt, Hq1'. simpl. unfold_handler. by rewrite Hw, Hlt'.
  - unfold MemServer.createBooking, MemServer.json_response.
    rewrite (mem_initializeData_id _ _ Hinit), Hb, verifyToken_mem_eq, Hv.
    unfold booking_fields_invalid. simpl. rewrite Hid, Hqt, Hq1'. simpl.
    by rewrite Hd, Hlt'.
  - unfold MockServer.createBooking.
    rewrite (mock_initialize_id _ _ Hinit), verifyToken_mem_eq, Hv.
    by rewrite Hd, Hlt'.
Qed.

Lemma insufficient_inventory_rejected_witness :
  let rq := {| rq_eventId := Some "7"; rq_quantity := Some 61; rq_totalAmount := None |} in
  run (route_post_events_book env0 (Some "Bearer tok-u1") "7" (Some (Some 61))) gala_world
    = Some (json (ErrNotEnough 60) 400, gala_world)
  ∧ run (route_post_bookings env0 (Some "Bearer tok-u1") rq) gala_world
    = Some (json (ErrNotEnough 60) 400, gala_world)
  ∧ MemServer.createBooking env0 (Some "Bearer tok-u1") rq gala_data
    = (json (ErrNotEnough 60) 400, gala_data)
  ∧ MockServer.createBooking env0 "tok-u1" "7" 61 None gala_data
    = (MockServer.Rejected (ErrNotEnough 60), gala_data).
Proof.
  apply (insufficient_inventory_rejected env0 "Bearer tok-u1" "u1" "7" 61 None gala
           gala_world gala_data).
  - exact authenticated_env0.
  - discriminate.
  - lia.
  - by vm_compute.
  - reflexivity.
  - by vm_compute.
  - simpl. lia.
Defined.

(** ** Capacity updates *)

Lemma put_admin_events_capacity env eventId rq capacity existingEvent w :
  store w !! event_key eventId = Some (VEvent existingEvent) →
  rq_capacity rq = Some capacity →
  (∀ date, rq_date rq = Some date → date ≠ "" → is_Some (toISOString env date)) →
  ∃ updatedEvent w',
    run (put_admin_events env eventId rq) w = Some (json (EventSaved updatedEvent) 200, w')
    ∧ store w' = <[event_key eventId := VEvent updatedEvent]> (store w)
    ∧ totalTickets updatedEvent = capacity
    ∧ availableTickets updatedEvent
      = capacity - (totalTickets existingEvent - availableTickets existingEvent).
Proof.
  intros Hw Hcap Hdate. unfold run, put_admin_events. unfold_handler. rewrite Hw, Hcap.
  destruct (rq_date rq) as [date|] eqn:Hd.
  - destruct (truthy_str date) eqn:Ht.
    + apply truthy_str_spec in Ht. destruct (Hdate date eq_refl Ht) as [iso ->].
      simpl. by eauto 10.
    + simpl. by eauto 10.
  - simpl. by eauto 10.
Qed.

Lemma put_admin_events_bad_date env eventId rq existingEvent date w :
  store w !! event_key eventId = Some (VEvent existingEvent) →
  rq_date rq = Some date → date ≠ "" → toISOString env date = None →
  run (put_admin_events env eventId rq) w
  = Some (json (Err "Failed to update event") 500, w).
Proof.
  intros Hw Hd Ht Hiso. apply truthy_str_spec in Ht.
  unfold run, put_admin_events. unfold_handler. by rewrite Hw, Hd, Ht, Hiso.
Qed.

(** C3 (amended).  For every existing event, an update that supplies a
    capacity and no date, an empty date or a date that can be parsed
    succeeds, stores that capacity as [totalTickets] and stores
    [newCapacity - (oldCapacity - oldAvailable)] as [availableTickets], so
    that the number of tickets sold is preserved (100 with 60 available
    updated to 150 gives 110).  The handler has neither a failure path nor
    a clamp for a capacity below the number sold: the stored value is then
    the negative difference.  When a supplied, non-empty date cannot be
    parsed, the answer is 500 and nothing is stored. *)
Theorem update_capacity_preserves_sold env eventId rq capacity existingEvent w :
  store w !! event_key eventId = Some (VEvent existingEvent) →
  rq_capacity rq = Some capacity →
  ((∀ date, rq_date rq = Some date → date ≠ "" → is_Some (toISOString env date)) →
   ∃ updatedEvent w',
     run (put_admin_events env eventId rq) w
     = Some (json (EventSaved updatedEvent) 200, w')
     ∧ store w' !! event_key eventId = Some (VEvent updatedEvent)
     ∧ totalTickets updatedEvent = capacity
     ∧ availableTickets updatedEvent
       = capacity - (totalTickets existingEvent - availableTickets existingEvent)
     ∧ totalTickets updatedEvent - availableTickets updatedEvent
       = totalTickets existingEvent - availableTickets existingEvent
     ∧ (availableTickets updatedEvent < 0
        ↔ capacity < totalTickets existingEvent - availableTickets existingEvent))
  ∧ (∀ date, rq_date rq = Some date → date ≠ "" → toISOString env date = None →
     run (put_admin_events env eventId rq) w
     = Some (json (Err "Failed to update event") 500, w)).
Proof.
  intros Hw Hcap. split.
  - intros Hdate.
    destruct (put_admin_events_capacity _ _ _ _ _ _ Hw Hcap Hdate)
      as (e' & w' & Hrun & Hst & Htot & Hav).
    exists e', w'. split; [done|]. split; [by rewrite Hst, lookup_insert_eq|].
    repeat split; lia.
  - intros date Hd Ht Hiso. by eapply put_admin_events_bad_date.
Qed.

Lemma update_capacity_preserves_sold_witness :
  ∃ updatedEvent w',
    run (put_admin_events env0 "7" (capacity_only 150)) gala_world
      = Some (json (EventSaved updatedEvent) 200, w')
    ∧ store w' !! event_key "7" = Some (VEvent updatedEvent)
    ∧ totalTickets updatedEvent = 150
    ∧ availableTickets updatedEvent = 150 - (100 - 60)
    ∧ totalTickets updatedEvent - availableTickets updatedEvent = 100 - 60
    ∧ (availableTickets updatedEvent < 0 ↔ 150 < 100 - 60).
Proof.
  destruct (update_capacity_preserves_sold env0 "7" (capacity_only 150) 150 gala
              gala_world) as [H _].
  - by vm_compute.
  - reflexivity.
  - apply H. intros date Hd. discriminate Hd.
Defined.

(** C3 (as stated, refuted).  Lowering the capacity of an event with 40
    tickets sold to 30 neither fails nor clamps: the answer is 200 and the
    stored [availableTickets] is -10. *)
Lemma update_capacity_below_sold_goes_negative :
  ∃ updatedEvent w',
    run (put_admin_events env0 "7" (capacity_only 30)) gala_world
      = Some (json (EventSaved updatedEvent) 200, w')
    ∧ store w' !! event_key "7" = Some (VEvent updatedEvent)
    ∧ totalTickets updatedEvent = 30
    ∧ availableTickets updatedEvent = -10
    ∧ ¬ (0 ≤ availableTickets updatedEvent).
Proof.
  do 2 eexists. split; [by vm_compute|]. split; [by vm_compute|].
  simpl. repeat split; lia.
Qed.

(** ** Successful bookings *)

Lemma event_key_not_booking_key a b : event_key a ≠ booking_key b.
Proof. unfold event_key, booking_key. cbv [String.append]. discriminate. Qed.

Lemma user_booking_key_not_booking_key u a b : user_booking_key u a ≠ booking_key b.
Proof. unfold user_booking_key, booking_key. cbv [String.append]. discriminate. Qed.

Lemma event_key_not_user_booking_key a u b : event_key a ≠ user_booking_key u b.
Proof. unfold user_booking_key, event_key. cbv [String.append]. discriminate. Qed.

Lemma booked_lookup_booking w userId eventId event booking :
  store (booked w userId eventId event booking) !! booking_key (b_id booking)
  = Some (VBooking booking).
Proof.
  unfold booked. simpl.
  rewrite lookup_insert_ne by apply event_key_not_booking_key.
  rewrite lookup_insert_ne by apply user_booking_key_not_booking_key.
  by rewrite lookup_insert_eq.
Qed.

Lemma booked_lookup_index w userId eventId event booking :
  store (booked w userId eventId event booking) !! user_booking_key userId (b_id booking)
  = Some (VId (b_id booking)).
Proof.
  unfold booked. simpl.
  rewrite lookup_insert_ne by apply event_key_not_user_booking_key.
  by rewrite lookup_insert_eq.
Qed.

Lemma post_bookings_success env userId eventId quantity totalAmount event w :
  eventId ≠ "" → 1 ≤ quantity →
  store w !! event_key eventId = Some (VEvent event) →
  quantity ≤ availableTickets event →
  let booking := new_booking env userId eventId quantity
                   (js_or truthy_num totalAmount (ev_price event * quantity)) in
  run (post_bookings env userId (cart_request eventId quantity totalAmount)) w
  = Some (json (BookingOk booking (ev_title event) (ev_dateTime event)
                          (ev_location event)) 200,
          booked w userId eventId event booking).
Proof.
  intros Hid Hq1 Hw Hle booking. apply truthy_str_spec in Hid.
  assert (truthy_num quantity = true) as Hqt by (apply truthy_num_spec; lia).
  assert ((quantity <? 1) = false) as Hq1' by lia.
  assert ((availableTickets event <? quantity) = false) as Hlt' by lia.
  unfold run, post_bookings, booking_fields_invalid. simpl.
  rewrite Hid, Hqt, Hq1'. simpl. unfold_handler. rewrite Hw, Hlt'. simpl.
  unfold booked. simpl. by rewrite <- !app_assoc.
Qed.

Lemma post_events_book_success env userId eventId quantity event w :
  userId ≠ "" → eventId ≠ "" → 1 ≤ quantity →
  store w !! event_key eventId = Some (VEvent event) →
  quantity ≤ availableTickets event →
  let booking := new_booking env userId eventId quantity (ev_price event * quantity) in
  run (post_events_book env userId eventId (Some (Some quantity))) w
  = Some (json (BookingOk booking (ev_title event) (ev_dateTime event)
                          (ev_location event)) 200,
          booked w userId eventId event booking).
Proof.
  intros Hu Hid Hq1 Hw Hle booking. apply truthy_str_spec in Hu, Hid.
  assert (truthy_num quantity = true) as Hqt by (apply truthy_num_spec; lia).
  assert ((quantity <? 1) = false) as Hq1' by lia.
  assert ((availableTickets event <? quantity) = false) as Hlt' by lia.
  unfold run, post_events_book, quantity_invalid. rewrite Hu, Hid. simpl.
  rewrite Hqt, Hq1'. simpl. unfold_handler. rewrite Hw, Hlt'. simpl.
  unfold booked. simpl. by rewrite <- !app_assoc.
Qed.

Lemma mem_createBooking_success env h userId eventId quantity totalAmount event d :
  authenticated env h userId → eventId ≠ "" → 1 ≤ quantity →
  initialized d = true → events d !! eventId = Some event →
  quantity ≤ availableTickets event →
  let booking := new_booking env userId eventId quantity
                   (js_or truthy_num totalAmount (ev_price event * quantity)) in
  MemServer.createBooking env (Some h) (cart_request eventId quantity totalAmount) d
  = (json (BookingOk booking (ev_title event) (ev_dateTime event) (ev_location event)) 200,
     set_booking (randomUUID env) booking
       (set_event eventId
          (with_availableTickets event (availableTickets event - quantity)) d)).
Proof.
  intros (Hb & _ & Hv) Hid Hq1 Hinit Hd Hle booking. apply truthy_str_spec in Hid.
  assert (truthy_num quantity = true) as Hqt by (apply truthy_num_spec; lia).
  assert ((quantity <? 1) = false) as Hq1' by lia.
  assert ((availableTickets event <? quantity) = false) as Hlt' by lia.
  unfold MemServer.createBooking, MemServer.json_response.
  rewrite (mem_initializeData_id _ _ Hinit), Hb, verifyToken_mem_eq, Hv.
  unfold booking_fields_invalid. simpl. rewrite Hid, Hqt, Hq1'. simpl.
  by rewrite Hd, Hlt'.
Qed.

Lemma mock_createBooking_success env token userId eventId quantity totalAmount event d :
  verifyToken env token = Some userId →
  initialized d = true → events d !! eventId = Some event →
  quantity ≤ availableTickets event →
  let booking := new_booking env userId eventId quantity
                   (js_or truthy_num totalAmount (ev_price event * quantity)) in
  MockServer.createBooking env token eventId quantity totalAmount d
  = (MockServer.Resolved
       (BookingOk booking (ev_title event) (ev_dateTime event) (ev_location event)),
     set_booking (randomUUID env) booking
       (set_event eventId
          (with_availableTickets event (availableTickets event - quantity)) d)).
Proof.
  intros Hv Hinit Hd Hle booking.
  assert ((availableTickets event <? quantity) = false) as Hlt' by lia.
  unfold MockServer.createBooking.
  rewrite (mock_initialize_id _ _ Hinit), verifyToken_mem_eq, Hv.
  by rewrite Hd, Hlt'.
Qed.

Lemma js_or_override totalAmount event quantity b :
  totalPrice b = js_or truthy_num totalAmount (ev_price event * quantity) →
  override_price_rule totalAmount event quantity b.
Proof.
  intros H. unfold override_price_rule. rewrite H. split.
  - intros t -> Ht. simpl. apply truthy_num_spec in Ht. by rewrite Ht.
  - by intros ->.
Qed.

Lemma js_or_truthiness totalAmount event quantity b :
  totalPrice b = js_or truthy_num totalAmount (ev_price event * quantity) →
  truthiness_price_rule totalAmount event quantity b.
Proof.
  intros H. unfold truthiness_price_rule. rewrite H. split.
  - by intros [-> | ->].
  - intros t -> Ht. simpl. apply truthy_num_spec in Ht. by rewrite Ht.
Qed.

(** ** Total price of a booking *)

(** C4.  For every successful booking the stored record carries the
    total the pricing rule gives: on the three operations that take a
    [totalAmount] (the cart endpoint, the in-memory server, the mock class)
    a supplied override that passes the handler's only test, being
    non-zero, is stored as [totalPrice], and without an override
    [totalPrice] is [event.price * quantity]; the direct endpoint takes no
    override and always stores [event.price * quantity]. *)
Theorem booking_total_price env h userId eventId quantity totalAmount event w d :
  authenticated env h userId →
  eventId ≠ "" → 1 ≤ quantity →
  store w !! event_key eventId = Some (VEvent event) →
  initialized d = true → events d !! eventId = Some event →
  quantity ≤ availableTickets event →
  let rq := cart_request eventId quantity totalAmount in
  (∃ b w', run (route_post_bookings env (Some h) rq) w
             = Some (json (BookingOk b (ev_title event) (ev_dateTime event)
                                     (ev_location event)) 200, w')
           ∧ store w' !! booking_key (b_id b) = Some (VBooking b)
           ∧ override_price_rule totalAmount event quantity b)
  ∧ (∃ b d', MemServer.createBooking env (Some h) rq d
               = (json (BookingOk b (ev_title event) (ev_dateTime event)
                                  (ev_location event)) 200, d')
             ∧ bookings d' !! b_id b = Some b
             ∧ override_price_rule totalAmount event quantity b)
  ∧ (∃ b d', MockServer.createBooking env (bearer_token h) eventId quantity totalAmount d
               = (MockServer.Resolved (BookingOk b (ev_title event) (ev_dateTime event)
                                                 (ev_location event)), d')
             ∧ bookings d' !! b_id b = Some b
             ∧ override_price_rule totalAmount event quantity b)
  ∧ (∃ b w', run (route_post_events_book env (Some h) eventId (Some (Some quantity))) w
               = Some (json (BookingOk b (ev_title event) (ev_dateTime event)
                                       (ev_location event)) 200, w')
             ∧ store w' !! booking_key (b_id b) = Some (VBooking b)
             ∧ totalPrice b = ev_price event * quantity).
Proof.
  intros Hauth Hid Hq1 Hw Hinit Hd Hle rq.
  pose proof Hauth as (Hb & Ht & Hv).
  pose proof (verifyToken_truthy _ _ _ Hv) as Hu.
  unfold route_post_events_book, route_post_bookings.
  rewrite !(requireAuth_authenticated _ _ _ _ Hauth).
  split; [|split; [|split]].
  - do 2 eexists. split; [by apply post_bookings_success|].
    split; [apply booked_lookup_booking|]. by apply js_or_override.
  - do 2 eexists. split; [by apply mem_createBooking_success|].
    split; [by simpl; rewrite lookup_insert_eq|]. by apply js_or_override.
  - do 2 eexists. split; [by eapply mock_createBooking_success|].
    split; [by simpl; rewrite lookup_insert_eq|]. by apply js_or_override.
  - do 2 eexists. split; [by apply post_events_book_success|].
    split; [apply booked_lookup_booking|]. done.
Qed.

Lemma booking_total_price_witness :
  let rq := cart_request "7" 2 (Some 4200) in
  (∃ b w', run (route_post_bookings env0 (Some "Bearer tok-u1") rq) gala_world
             = Some (json (BookingOk b (ev_title gala) (ev_dateTime gala)
                                     (ev_location gala)) 200, w')
           ∧ store w' !! booking_key (b_id b) = Some (VBooking b)
           ∧ override_price_rule (Some 4200) gala 2 b)
  ∧ (∃ b d', MemServer.createBooking env0 (Some "Bearer tok-u1") rq gala_data
               = (json (BookingOk b (ev_title gala) (ev_dateTime gala)
                                  (ev_location gala)) 200, d')
             ∧ bookings d' !! b_id b = Some b
             ∧ override_price_rule (Some 4200) gala 2 b)
  ∧ (∃ b d', MockServer.createBooking env0 (bearer_token "Bearer tok-u1") "7" 2
               (Some 4200) gala_data
               = (MockServer.Resolved (BookingOk b (ev_title gala) (ev_dateTime gala)
                                                 (ev_location gala)), d')
             ∧ bookings d' !! b_id b = Some b
             ∧ override_price_rule (Some 4200) gala 2 b)
  ∧ (∃ b w', run (route_post_events_book env0 (Some "Bearer tok-u1") "7" (Some (Some 2)))
               gala_world
               = Some (json (BookingOk b (ev_title gala) (ev_dateTime gala)
                                       (ev_location gala)) 200, w')
             ∧ store w' !! booking_key (b_id b) = Some (VBooking b)
             ∧ totalPrice b = ev_price gala * 2).
Proof.
  apply (booking_total_price env0 "Bearer tok-u1" "u1" "7" 2 (Some 4200) gala
           gala_world gala_data).
  - exact authenticated_env0.
  - discriminate.
  - lia.
  - by vm_compute.
  - reflexivity.
  - by vm_compute.
  - simpl. lia.
Defined.

(** C9.  In the operations that take a [totalAmount] a value of 0, like a
    missing one, is ignored and the stored [totalPrice] is
    [event.price * quantity]; every other [totalAmount], whatever its size
    or sign, is stored as [totalPrice] with no comparison against
    [event.price * quantity]. *)
Theorem cart_total_amount_truthiness env h userId eventId quantity totalAmount event w d :
  authenticated env h userId →
  eventId ≠ "" → 1 ≤ quantity →
  store w !! event_key eventId = Some (VEvent event) →
  initialized d = true → events d !! eventId = Some event →
  quantity ≤ availableTickets event →
  let rq := cart_request eventId quantity totalAmount in
  (∃ b resp w', run (route_post_bookings env (Some h) rq) w = Some (resp, w')
                ∧ status resp = 200
                ∧ store w' !! booking_key (randomUUID env) = Some (VBooking b)
                ∧ truthiness_price_rule totalAmount event quantity b)
  ∧ (∃ b resp d', MemServer.createBooking env (Some h) rq d = (resp, d')
                  ∧ status resp = 200
                  ∧ bookings d' !! randomUUID env = Some b
                  ∧ truthiness_price_rule totalAmount event quantity b)
  ∧ (∃ b body d',
       MockServer.createBooking env (bearer_token h) eventId quantity totalAmount d
         = (MockServer.Resolved body, d')
       ∧ bookings d' !! randomUUID env = Some b
       ∧ truthiness_price_rule totalAmount event quantity b).
Proof.
  intros Hauth Hid Hq1 Hw Hinit Hd Hle rq.
  pose proof Hauth as (Hb & Ht & Hv).
  unfold route_post_bookings.
  rewrite !(requireAuth_authenticated _ _ _ _ Hauth).
  split; [|split].
  - do 3 eexists. split; [by apply post_bookings_success|]. split; [done|].
    split; [apply (booked_lookup_booking w userId eventId event (new_booking _ _ _ _ _))|].
    by apply js_or_truthiness.
  - do 3 eexists. split; [by apply mem_createBooking_success|]. split; [done|].
    split; [by simpl; rewrite lookup_insert_eq|]. by apply js_or_truthiness.
  - do 3 eexists. split; [by eapply mock_createBooking_success|].
    split; [by simpl; rewrite lookup_insert_eq|]. by apply js_or_truthiness.
Qed.

Lemma cart_total_amount_truthiness_witness :
  let rq := cart_request "7" 2 (Some 0) in
  (∃ b resp w', run (route_post_bookings env0 (Some "Bearer tok-u1") rq) gala_world
                  = Some (resp, w')
                ∧ status resp = 200
                ∧ store w' !! booking_key (randomUUID env0) = Some (VBooking b)
                ∧ truthiness_price_rule (Some 0) gala 2 b)
  ∧ (∃ b resp d', MemServer.createBooking env0 (Some "Bearer tok-u1") rq gala_data
                    = (resp, d')
                  ∧ status resp = 200
                  ∧ bookings d' !! randomUUID env0 = Some b
                  ∧ truthiness_price_rule (Some 0) gala 2 b)
  ∧ (∃ b body d',
       MockServer.createBooking env0 (bearer_token "Bearer tok-u1") "7" 2 (Some 0) gala_data
         = (MockServer.Resolved body, d')
       ∧ bookings d' !! randomUUID env0 = Some b
       ∧ truthiness_price_rule (Some 0) gala 2 b).
Proof.
  apply (cart_total_amount_truthiness env0 "Bearer tok-u1" "u1" "7" 2 (Some 0) gala
           gala_world gala_data).
  - exact authenticated_env0.
  - discriminate.
  - lia.
  - by vm_compute.
  - reflexivity.
  - by vm_compute.
  - simpl. lia.
Defined.

(** ** Order of the writes of a booking *)

Lemma written_before_suffix {A} (a b : A) (l l' : list A) :
  written_before a b l' → written_before a b (l ++ l').
Proof.
  intros (l1 & l2 & l3 & ->). exists (l ++ l1), l2, l3. by rewrite <- app_assoc.
Qed.

Lemma written_before_pair {A} (a b : A) : written_before a b [a; b].
Proof. by exists [], [], []. Qed.

Lemma written_before_first_last {A} (a b c : A) : written_before a c [a; b; c].
Proof. by exists [], [b], []. Qed.

(** C5 (amended).  In every successful run of the booking transaction
    the writes come in a fixed order, which depends on the back end.  The
    in-memory server and the mock class set the event with the decremented
    [availableTickets] first and the booking second.  Both endpoints of the
    key-value server write the booking first, the user-booking index entry
    second and the event last. *)
Theorem booking_write_order env userId eventId body rq authHeader token quantity
    totalAmount w d :
  (∀ resp w', run (post_events_book env userId eventId body) w = Some (resp, w') →
     status resp = 200 →
     writes w' = writes w ++ [booking_key (randomUUID env);
                              user_booking_key userId (randomUUID env);
                              event_key eventId]
     ∧ written_before (booking_key (randomUUID env)) (event_key eventId) (writes w'))
  ∧ (∀ resp w', run (post_bookings env userId rq) w = Some (resp, w') →
       status resp = 200 →
       ∃ eventId', rq_eventId rq = Some eventId'
         ∧ writes w' = writes w ++ [booking_key (randomUUID env);
                                    user_booking_key userId (randomUUID env);
                                    event_key eventId']
         ∧ written_before (booking_key (randomUUID env)) (event_key eventId') (writes w'))
  ∧ (∀ resp d', MemServer.createBooking env authHeader rq d = (resp, d') →
       status resp = 200 →
       ∃ eventId', rq_eventId rq = Some eventId'
         ∧ log d' = log (MemServer.initializeData env d)
                      ++ [SetEvent eventId'; SetBooking (randomUUID env)]
         ∧ written_before (SetEvent eventId') (SetBooking (randomUUID env)) (log d'))
  ∧ (∀ b d', MockServer.createBooking env token eventId quantity totalAmount d
               = (MockServer.Resolved b, d') →
       log d' = log (MockServer.initialize env d)
                  ++ [SetEvent eventId; SetBooking (randomUUID env)]
       ∧ written_before (SetEvent eventId) (SetBooking (randomUUID env)) (log d')).
Proof.
  split; [|split; [|split]].
  - intros resp w' Hrun H200. apply post_events_book_cases in Hrun.
    destruct Hrun as [(_ & Hn & _)|(q & _ & _ & _ & _ & Hc)]; [done|].
    destruct Hc as [(_ & -> & _)|(ev & _ & [(_ & -> & _)|(_ & b & -> & _ & ->)])];
      [done..|].
    simpl. split; [done|]. apply written_before_suffix, written_before_first_last.
  - intros resp w' Hrun H200. apply post_bookings_cases in Hrun.
    destruct Hrun as [(_ & -> & _)|(eid & q & He & _ & _ & Hc)]; [done|].
    destruct Hc as [(_ & -> & _)|(ev & _ & [(_ & -> & _)|(_ & b & -> & _ & ->)])];
      [done..|].
    exists eid. simpl. split; [done|]. split; [done|].
    apply written_before_suffix, written_before_first_last.
  - intros resp d' Hrun H200. apply mem_createBooking_cases in Hrun. simpl in Hrun.
    destruct Hrun as [(_ & Hn & _)|(h & u & eid & q & _ & _ & He & _ & _ & Hc)]; [done|].
    destruct Hc as [(_ & -> & _)|(ev & _ & [(_ & -> & _)|(_ & b & -> & _ & ->)])];
      [done..|].
    exists eid. simpl. split; [done|]. rewrite <- app_assoc. split; [done|].
    apply written_before_suffix, written_before_pair.
  - intros b d' Hrun. apply mock_createBooking_cases in Hrun. simpl in Hrun.
    destruct Hrun as [(_ & ? & _)|(u & _ & Hc)]; [done|].
    destruct Hc as [(_ & ? & _)|(ev & _ & [(_ & ? & _)|(_ & b' & -> & _ & ->)])];
      [done..|].
    simpl. rewrite <- app_assoc. split; [done|].
    apply written_before_suffix, written_before_pair.
Qed.

(** A successful run of each of the four operations on the event "7". *)
Lemma booking_write_order_witness :
  (∃ resp w', run (post_events_book env0 "u1" "7" (Some (Some 2))) gala_world
                = Some (resp, w')
     ∧ status resp = 200
     ∧ writes w' = [booking_key (randomUUID env0);
                    user_booking_key "u1" (randomUUID env0); event_key "7"])
  ∧ (∃ resp w', run (post_bookings env0 "u1" (cart_request "7" 2 None)) gala_world
                  = Some (resp, w')
       ∧ status resp = 200
       ∧ written_before (booking_key (randomUUID env0)) (event_key "7") (writes w'))
  ∧ (∃ resp d', MemServer.createBooking env0 (Some "Bearer tok-u1")
                  (cart_request "7" 2 None) gala_data = (resp, d')
       ∧ status resp = 200
       ∧ written_before (SetEvent "7") (SetBooking (randomUUID env0)) (log d'))
  ∧ (∃ b d', MockServer.createBooking env0 "tok-u1" "7" 2 None gala_data
               = (MockServer.Resolved b, d')
       ∧ written_before (SetEvent "7") (SetBooking (randomUUID env0)) (log d')).
Proof.
  destruct (booking_write_order env0 "u1" "7" (Some (Some 2)) (cart_request "7" 2 None)
              (Some "Bearer tok-u1") "tok-u1" 2 None gala_world gala_data)
    as (H1 & H2 & H3 & H4).
  split; [|split; [|split]].
  - do 2 eexists. split; [by vm_compute|]. split; [reflexivity|].
    eapply (proj1 (H1 _ _ _ _)).
  - do 2 eexists. split; [by vm_compute|]. split; [reflexivity|].
    edestruct H2 as (eid & Heid & _ & Hwb); [by vm_compute|reflexivity|].
    injection Heid as <-. exact Hwb.
  - do 2 eexists. split; [by vm_compute|]. split; [reflexivity|].
    edestruct H3 as (eid & Heid & _ & Hwb); [by vm_compute|reflexivity|].
    injection Heid as <-. exact Hwb.
  - do 2 eexists. split; [by vm_compute|].
    edestruct H4 as (_ & Hwb); [by vm_compute|]. exact Hwb.
  Unshelve. all: try (by vm_compute); try reflexivity.
Defined.

(** C5 (as stated, refuted).  A successful booking of two tickets of the
    event "7" through the direct endpoint of the key-value server: the
    event record is not persisted before the booking record, it is
    persisted after it. *)
Lemma kv_booking_persists_event_last :
  ∃ resp w',
    run (post_events_book env0 "u1" "7" (Some (Some 2))) gala_world = Some (resp, w')
    ∧ status resp = 200
    ∧ writes w' = [booking_key (randomUUID env0);
                   user_booking_key "u1" (randomUUID env0); event_key "7"]
    ∧ ¬ written_before (event_key "7") (booking_key (randomUUID env0)) (writes w')
    ∧ written_before (booking_key (randomUUID env0)) (event_key "7") (writes w').
Proof.
  do 2 eexists. split; [by vm_compute|]. split; [reflexivity|]. split; [reflexivity|].
  split.
  - intros (l1 & l2 & l3 & H).
    destruct l1 as [|x1 [|x2 [|x3 l1]]]; simpl in H.
    + injection H as H _. by vm_compute in H.
    + injection H as _ H _. by vm_compute in H.
    + injection H as _ _ H. by destruct l2.
    + injection H as _ _ _ H. by destruct l1.
  - apply written_before_first_last.
Qed.

(** ** Creating and reading back an event *)

Lemma js_or_str_default o : js_or truthy_str o "" = default "" o.
Proof.
  destruct o as [s|]; simpl; [|done].
  destruct (truthy_str s) eqn:Hs; [done|].
  apply not_true_iff_false in Hs. rewrite truthy_str_spec in Hs.
  by destruct (decide (s = "")).
Qed.

Lemma js_or_str_falsy o d : o = None ∨ o = Some "" → js_or truthy_str o d = d.
Proof. by intros [-> | ->]. Qed.

Lemma js_or_str_truthy s d : s ≠ "" → js_or truthy_str (Some s) d = s.
Proof. intros Hs. apply truthy_str_spec in Hs. simpl. by rewrite Hs. Qed.

Lemma js_or_num_falsy o d : o = None ∨ o = Some 0 → js_or truthy_num o d = d.
Proof. by intros [-> | ->]. Qed.

Lemma js_or_num_truthy n d : n ≠ 0 → js_or truthy_num (Some n) d = n.
Proof. intros Hn. apply truthy_num_spec in Hn. simpl. by rewrite Hn. Qed.

Lemma event_fields_present title date location price capacity description category
    imageUrl status :
  title ≠ "" → date ≠ "" → location ≠ "" →
  event_fields_missing (event_request title date location (Some price) capacity
                          description category imageUrl status) = false.
Proof.
  intros Ht Hd Hl. apply truthy_str_spec in Ht, Hd, Hl.
  unfold event_fields_missing. simpl. by rewrite Ht, Hd, Hl.
Qed.

Lemma event_fields_missing_of rq : required_field_missing rq → event_fields_missing rq = true.
Proof.
  unfold event_fields_missing.
  intros [H|[H|[H|H]]]; rewrite H; simpl; by rewrite ?orb_true_r.
Qed.

Lemma post_admin_events_missing env rq w :
  event_fields_missing rq = true →
  run (post_admin_events env rq) w
  = Some (json (Err "Title, date, location, and price are required") 400, w).
Proof.
  intros Hm. unfold run, post_admin_events.
  destruct (rq_title rq), (rq_date rq), (rq_location rq), (rq_price rq); try done.
  by rewrite Hm.
Qed.

(** C6 (amended).  For every input with a non-empty title, date and
    location and with a price, whose date [Date] can parse,
    [createEvent] followed by [getEvent] on the returned id yields the
    stored event; its title, location and price equal the input, its
    [dateTime] is the ISO form of the input date, the defaults
    (description empty, category "General", capacity 100, status "active")
    stand in the place of omitted and of falsy fields, and
    [availableTickets] equals [totalTickets].  [createEvent] answers with
    the 400 validation error and writes nothing when a required field is
    missing. *)
Theorem create_then_get_event env rq w :
  (∀ title date location price iso,
     rq_title rq = Some title → rq_date rq = Some date →
     rq_location rq = Some location → rq_price rq = Some price →
     title ≠ "" → date ≠ "" → location ≠ "" →
     toISOString env date = Some iso →
     ∃ e w1,
       run (post_admin_events env rq) w = Some (json (EventSaved e) 200, w1)
       ∧ ev_id e = randomUUID env
       ∧ run (get_events_id (ev_id e)) w1 = Some (json (EventOk e) 200, w1)
       ∧ fields_as_stored iso rq e)
  ∧ (required_field_missing rq →
     run (post_admin_events env rq) w
     = Some (json (Err "Title, date, location, and price are required") 400, w)).
Proof.
  split.
  - intros title date location price iso Ht Hd Hl Hp Htn Hdn Hln Hiso.
    assert (event_fields_missing rq = false) as Hm.
    { apply truthy_str_spec in Htn, Hdn, Hln.
      unfold event_fields_missing. rewrite Ht, Hd, Hl, Hp. simpl.
      by rewrite Htn, Hdn, Hln. }
    unfold run, post_admin_events. rewrite Ht, Hd, Hl, Hp, Hm, Hiso.
    unfold_handler. simpl. do 2 eexists. split; [done|]. split; [done|].
    split.
    { unfold get_events_id. unfold_handler. simpl. by rewrite lookup_insert_eq. }
    unfold fields_as_stored, parseFloat. simpl.
    split; [done|]. split; [done|]. split; [done|]. split; [done|].
    split; [apply js_or_str_default|].
    split; [apply js_or_str_falsy|].
    split; [by intros c -> Hc; apply js_or_str_truthy|].
    split; [apply js_or_num_falsy|].
    split; [by intros n -> Hn; apply js_or_num_truthy|].
    split; [by intros H; rewrite js_or_str_falsy|].
    split; [by intros s -> Hs; rewrite js_or_str_truthy|].
    done.
  - intros Hmiss. by apply post_admin_events_missing, event_fields_missing_of.
Qed.

Lemma create_then_get_event_witness :
  let rq := event_request "Gala" "2025-06-01T18:00:00.000Z" "Town Hall" (Some 2500)
              (Some 80) None None None None in
  (∃ e w1,
     run (post_admin_events env0 rq) empty_world = Some (json (EventSaved e) 200, w1)
     ∧ ev_id e = randomUUID env0
     ∧ run (get_events_id (ev_id e)) w1 = Some (json (EventOk e) 200, w1)
     ∧ fields_as_stored "2025-06-01T18:00:00.000Z" rq e)
  ∧ run (post_admin_events env0 (capacity_only 80)) empty_world
    = Some (json (Err "Title, date, location, and price are required") 400, empty_world).
Proof.
  split.
  - eapply (proj1 (create_then_get_event env0 _ empty_world)); try reflexivity;
      discriminate.
  - apply (proj2 (create_then_get_event env0 (capacity_only 80) empty_world)).
    by left.
Defined.

(** C6 (as stated, refuted).  A request that supplies every required
    field and a capacity of 0: the event read back has 100 tickets, so its
    fields do not equal the input with defaults in the place of the
    omitted fields only. *)
Lemma create_then_get_event_capacity_zero :
  let rq := event_request "Gala" "2025-06-01T18:00:00.000Z" "Town Hall" (Some 2500)
              (Some 0) (Some "Annual gala") (Some "Dinner") (Some "") (Some "active") in
  ∃ e w1,
    run (post_admin_events env0 rq) empty_world = Some (json (EventSaved e) 200, w1)
    ∧ run (get_events_id (ev_id e)) w1 = Some (json (EventOk e) 200, w1)
    ∧ rq_capacity rq = Some 0 ∧ totalTickets e = 100
    ∧ ¬ fields_equal_input rq e.
Proof.
  do 2 eexists. split; [by vm_compute|]. split; [by vm_compute|].
  split; [done|]. split; [done|].
  intros (_ & _ & _ & _ & _ & _ & Hcap & _). simpl in Hcap. discriminate Hcap.
Qed.

(** ** Falsy capacity and price at creation *)

Lemma mem_createEvent_admin env h adminId admin rq d :
  authenticated env h adminId → initialized d = true →
  users d !! adminId = Some admin → u_isAdmin admin = true →
  MemServer.createEvent env (Some h) rq d
  = match rq_title rq, rq_date rq, rq_location rq, rq_price rq with
    | Some title, Some date, Some location, Some price =>
        if event_fields_missing rq then
          (json (Err "Title, date, location, and price are required") 400, d)
        else
          match toISOString env date with
          | None => (json (Err "Internal server error") 500, d)
          | Some dateTime =>
              let event :=
                {| ev_id := randomUUID env; ev_title := title;
                   ev_description := js_or truthy_str (rq_description rq) "";
                   ev_dateTime := dateTime; ev_location := location;
                   ev_type := js_or truthy_str (rq_category rq) "General";
                   totalTickets := js_or truthy_num (rq_capacity rq) 100;
                   availableTickets := js_or truthy_num (rq_capacity rq) 100;
                   ev_price := parseFloat price;
                   ev_imageUrl := js_or truthy_str (rq_imageUrl rq) "";
                   ev_status := Some (js_or truthy_str (rq_status rq) "active");
                   ev_createdAt := Some (nowISO env 0);
                   ev_updatedAt := Some (nowISO env 1) |} in
              (json (EventSaved event) 200, set_event (randomUUID env) event d)
          end
    | _, _, _, _ => (json (Err "Title, date, location, and price are required") 400, d)
    end.
Proof.
  intros (Hb & _ & Hv) Hinit Hu Hadm.
  unfold MemServer.createEvent, MemServer.json_response.
  rewrite (mem_initializeData_id _ _ Hinit), Hb, verifyToken_mem_eq, Hv, Hu. simpl.
  by rewrite Hadm.
Qed.

(** C10.  At creation a supplied capacity of 0 is treated like a missing
    one: the request has the same outcome as the request without a
    capacity, and the event is stored with 100 tickets, all available.  A
    supplied price of 0 is accepted and stored as it is; only a missing
    price is rejected by the required-field test.  This holds for the
    key-value server and for the in-memory server. *)
Theorem createEvent_zero_capacity_zero_price
    env h adminId admin title date location iso price capacity description category
    imageUrl status w d :
  title ≠ "" → date ≠ "" → location ≠ "" → toISOString env date = Some iso →
  authenticated env h adminId → initialized d = true →
  users d !! adminId = Some admin → u_isAdmin admin = true →
  let rq c p := event_request title date location p c description category imageUrl status in
  let required := Err "Title, date, location, and price are required" in
  (run (post_admin_events env (rq (Some 0) (Some price))) w
   = run (post_admin_events env (rq None (Some price))) w
   ∧ (∃ e w', run (post_admin_events env (rq (Some 0) (Some price))) w
                = Some (json (EventSaved e) 200, w')
              ∧ store w' !! event_key (randomUUID env) = Some (VEvent e)
              ∧ totalTickets e = 100 ∧ availableTickets e = 100)
   ∧ (∃ e w', run (post_admin_events env (rq capacity (Some 0))) w
                = Some (json (EventSaved e) 200, w')
              ∧ store w' !! event_key (randomUUID env) = Some (VEvent e)
              ∧ ev_price e = 0)
   ∧ run (post_admin_events env (rq capacity None)) w = Some (json required 400, w))
  ∧ (MemServer.createEvent env (Some h) (rq (Some 0) (Some price)) d
     = MemServer.createEvent env (Some h) (rq None (Some price)) d
     ∧ (∃ e d', MemServer.createEvent env (Some h) (rq (Some 0) (Some price)) d
                  = (json (EventSaved e) 200, d')
                ∧ events d' !! randomUUID env = Some e
                ∧ totalTickets e = 100 ∧ availableTickets e = 100)
     ∧ (∃ e d', MemServer.createEvent env (Some h) (rq capacity (Some 0)) d
                  = (json (EventSaved e) 200, d')
                ∧ events d' !! randomUUID env = Some e
                ∧ ev_price e = 0)
     ∧ MemServer.createEvent env (Some h) (rq capacity None) d = (json required 400, d)).
Proof.
  intros Ht Hd Hl Hiso Hauth Hinit Hu Hadm rq required.
  assert (∀ c p, event_fields_missing (rq c (Some p)) = false) as Hpresent.
  { intros c p. by apply event_fields_present. }
  split.
  - unfold run, post_admin_events. simpl. rewrite !Hpresent, Hiso.
    unfold_handler. simpl. split; [done|].
    split; [by do 2 eexists; split; [done|]; simpl; rewrite lookup_insert_eq|].
    split; [by do 2 eexists; split; [done|]; simpl; rewrite lookup_insert_eq|].
    done.
  - rewrite !(mem_createEvent_admin _ _ _ _ _ _ Hauth Hinit Hu Hadm). simpl.
    rewrite !Hpresent, Hiso. simpl. split; [done|].
    split; [by do 2 eexists; split; [done|]; simpl; rewrite lookup_insert_eq|].
    split; [by do 2 eexists; split; [done|]; simpl; rewrite lookup_insert_eq|].
    done.
Qed.

Lemma createEvent_zero_capacity_zero_price_witness :
  let rq c p := event_request "Gala" "2025-06-01T18:00:00.000Z" "Town Hall" p c
                  None None None None in
  (∃ e w', run (post_admin_events env0 (rq (Some 0) (Some 2500))) empty_world
             = Some (json (EventSaved e) 200, w')
           ∧ store w' !! event_key (randomUUID env0) = Some (VEvent e)
           ∧ totalTickets e = 100 ∧ availableTickets e = 100)
  ∧ (∃ e d', MemServer.createEvent env0 (Some "Bearer tok-admin") (rq (Some 50) (Some 0))
               admin_data
               = (json (EventSaved e) 200, d')
             ∧ events d' !! randomUUID env0 = Some e
             ∧ ev_price e = 0).
Proof.
  pose proof (createEvent_zero_capacity_zero_price env0 "Bearer tok-admin"
                "admin-user-123" (admin_user "digest" "2025-01-01T00:00:00.000Z")
                "Gala" "2025-06-01T18:00:00.000Z" "Town Hall" "2025-06-01T18:00:00.000Z"
                2500 (Some 50) None None None None empty_world admin_data) as H.
  destruct H as ((_ & Hkv & _) & (_ & _ & Hmem & _)); try discriminate; try reflexivity.
  all: try exact authenticated_admin_env0.
  split; [exact Hkv|exact Hmem].
Defined.

(** ** Token verification *)

Lemma verifyToken_some env token userId :
  verifyToken env token = Some userId ↔
  ∃ decoded, parse_atob env token = Some decoded
             ∧ p_userId decoded = Some userId ∧ userId ≠ ""
             ∧ (∀ exp, p_exp decoded = Some exp → now env ≤ exp).
Proof.
  unfold verifyToken. split.
  - destruct (parse_atob env token) as [d|]; [|done].
    destruct (p_userId d) as [u|] eqn:Hu; simpl; [|done].
    destruct (truthy_str u) eqn:Ht; simpl; [|done].
    destruct (exp_lt_now (p_exp d) (now env)) eqn:He; [done|].
    intros [= <-]. exists d. split; [done|]. split; [done|].
    split; [by apply truthy_str_spec|].
    intros exp Hexp. rewrite Hexp in He. simpl in He. lia.
  - intros (d & -> & Hu & Hne & Hexp). rewrite Hu. simpl.
    apply truthy_str_spec in Hne. rewrite Hne. simpl.
    destruct (p_exp d) as [exp|]; simpl; [|done].
    specialize (Hexp exp eq_refl). by destruct (Z.ltb_spec exp (now env)); [lia|].
Qed.

Lemma verifyToken_expired env token decoded exp :
  parse_atob env token = Some decoded → p_exp decoded = Some exp → exp < now env →
  verifyToken env token = None.
Proof.
  intros Hd He Hlt. unfold verifyToken. rewrite Hd, He. simpl.
  destruct (negb _); [done|]. by destruct (Z.ltb_spec exp (now env)); [|lia].
Qed.

(** C7 (amended).  For every string input, [verifyToken] returns the
    subject id exactly when the input decodes to a payload with a
    non-empty subject id whose expiry, if the payload has one, is not
    before the current time; it returns null on malformed input and on an
    expiry in the past.  The three copies of the function agree.  A token
    issued by [generateToken] is accepted up to and including the
    millisecond of its expiry, 24 hours after it was issued, and rejected
    after it. *)
Theorem verifyToken_accepts_until_expiry env token userId :
  (verifyToken env token = Some userId ↔
   ∃ decoded, parse_atob env token = Some decoded
              ∧ p_userId decoded = Some userId ∧ userId ≠ ""
              ∧ (∀ exp, p_exp decoded = Some exp → now env ≤ exp))
  ∧ (parse_atob env token = None → verifyToken env token = None)
  ∧ (∀ decoded exp, parse_atob env token = Some decoded → p_exp decoded = Some exp →
       exp < now env → verifyToken env token = None)
  ∧ verifyToken_mem env token = verifyToken env token
  ∧ (∀ issuer,
       userId ≠ "" →
       parse_atob env (generateToken issuer userId) = Some (issued_payload issuer userId) →
       (now env ≤ now issuer + day_ms →
        verifyToken env (generateToken issuer userId) = Some userId)
       ∧ (now issuer + day_ms < now env →
          verifyToken env (generateToken issuer userId) = None)).
Proof.
  split; [apply verifyToken_some|].
  split; [by unfold verifyToken; intros ->|].
  split; [apply verifyToken_expired|].
  split; [apply verifyToken_mem_eq|].
  intros issuer Hne Hdec. split.
  - intros Hle. apply verifyToken_some. exists (issued_payload issuer userId).
    split; [done|]. split; [done|]. split; [done|].
    intros exp [= <-]. done.
  - intros Hlt. by eapply verifyToken_expired.
Qed.

Lemma verifyToken_accepts_until_expiry_witness :
  verifyToken env0 (generateToken env0 "u1") = Some "u1"
  ∧ verifyToken env_late (generateToken env0 "u1") = None.
Proof.
  split.
  - apply (proj2 (proj2 (proj2 (proj2
             (verifyToken_accepts_until_expiry env0 "tok-fresh" "u1")))) env0).
    + discriminate.
    + reflexivity.
    + simpl. unfold day_ms. lia.
  - apply (proj2 (proj2 (proj2 (proj2
             (verifyToken_accepts_until_expiry env_late "tok-fresh" "u1")))) env0).
    + discriminate.
    + reflexivity.
    + simpl. unfold day_ms. lia.
Defined.

(** C7 (as stated, refuted).  A token whose expiry equals the current
    time is accepted although its expiry is not strictly greater than the
    current time, and so is a token whose payload has no expiry at all. *)
Lemma verifyToken_accepts_at_expiry :
  parse_atob env0 "tok-now" = Some {| p_userId := Some "u1"; p_exp := Some (now env0) |}
  ∧ verifyToken env0 "tok-now" = Some "u1"
  ∧ verifyToken_strict env0 "tok-now" = None
  ∧ parse_atob env0 "tok-noexp" = Some {| p_userId := Some "u1"; p_exp := None |}
  ∧ verifyToken env0 "tok-noexp" = Some "u1"
  ∧ verifyToken_strict env0 "tok-noexp" = None
  ∧ verifyToken env0 "tok-now" ≠ verifyToken_strict env0 "tok-now".
Proof. repeat split; by vm_compute. Qed.

(** ** Duplicate sign-up *)

(** C8.  When the e-mail of a sign-up request is already registered, each
    of the three sign-up operations answers with the duplicate-e-mail
    error (status 400, or the rejection of the mock class) and returns the
    state it was given: the existing account with its password digest is
    unchanged, and no user record and no e-mail index entry is written. *)
Theorem duplicate_signup_rejected env rq email password uid uid' w d :
  rq_email rq = Some email → rq_password rq = Some password →
  email ≠ "" → password ≠ "" →
  store w !! user_email_key email = Some (VId uid) → uid ≠ "" →
  initialized d = true → userEmails d !! email = Some uid' →
  let duplicate := Err "User already exists with this email" in
  run (post_signup env rq) w = Some (json duplicate 400, w)
  ∧ MemServer.signup env rq d = (json duplicate 400, d)
  ∧ MockServer.signUp env email password
      (default "" (rq_firstName rq)) (default "" (rq_lastName rq)) d
    = (MockServer.Rejected duplicate, d).
Proof.
  intros He Hp Hen Hpn Hw Hun Hinit Hd duplicate.
  apply truthy_str_spec in Hen, Hpn, Hun.
  split; [|split].
  - unfold run, post_signup. rewrite He, Hp, Hen, Hpn. simpl.
    unfold_handler. rewrite Hw. simpl. by rewrite Hun.
  - unfold MemServer.signup, MemServer.json_response.
    rewrite (mem_initializeData_id _ _ Hinit), He, Hp, Hen, Hpn. simpl.
    by rewrite Hd.
  - unfold MockServer.signUp. rewrite (mock_initialize_id _ _ Hinit).
    by rewrite Hd.
Qed.

Lemma duplicate_signup_rejected_witness :
  let duplicate := Err "User already exists with this email" in
  run (post_signup env0 ann_again) ann_world = Some (json duplicate 400, ann_world)
  ∧ MemServer.signup env0 ann_again ann_data = (json duplicate 400, ann_data)
  ∧ MockServer.signUp env0 "ann@example.com" "other" "Eve" "" ann_data
    = (MockServer.Rejected duplicate, ann_data).
Proof.
  apply (duplicate_signup_rejected env0 ann_again "ann@example.com" "other" "u1" "u1"
           ann_world ann_data); try reflexivity; try discriminate; by vm_compute.
Defined.

(** * Part III: further properties of the handlers *)

Ltac unfold_kv :=
  unfold_handler;
  unfold kv_get_id, kv_get_booking, kv_del, kv_getByPrefix, kv_getByPrefix_as in *.

(** ** What a booking changes *)

Lemma booking_key_not_event_key a b : booking_key a ≠ event_key b.
Proof. intros H. symmetry in H. by apply event_key_not_booking_key in H. Qed.

Lemma user_booking_key_not_event_key u a b : user_booking_key u a ≠ event_key b.
Proof. intros H. symmetry in H. by apply event_key_not_user_booking_key in H. Qed.

Lemma booked_event_exact w userId eventId event booking :
  store (booked w userId eventId event booking) !! event_key eventId
  = Some (VEvent (with_availableTickets event
                    (availableTickets event - b_quantity booking))).
Proof. unfold booked. simpl. by rewrite lookup_insert_eq. Qed.

Lemma booked_other_event w userId eventId event booking id :
  id ≠ eventId →
  store (booked w userId eventId event booking) !! event_key id
  = store w !! event_key id.
Proof.
  intros Hne. unfold booked. simpl.
  rewrite lookup_insert_ne by (intros H; by apply event_key_inj in H).
  rewrite lookup_insert_ne by apply user_booking_key_not_event_key.
  by rewrite lookup_insert_ne by apply booking_key_not_event_key.
Qed.

(** X1.  A successful booking lowers [availableTickets] of the booked event by
    exactly the quantity, keeps every other field of it, and leaves every
    other event as it was.  This holds for the two endpoints of the
    key-value server, for the in-memory server and for the mock class. *)
Theorem booking_decrements_exactly env userId eventId body rq authHeader token quantity
    totalAmount w d :
  (∀ resp w', run (post_events_book env userId eventId body) w = Some (resp, w') →
     status resp = 200 →
     ∃ q event, body = Some (Some q)
       ∧ store w !! event_key eventId = Some (VEvent event)
       ∧ store w' !! event_key eventId
         = Some (VEvent (with_availableTickets event (availableTickets event - q)))
       ∧ ∀ id, id ≠ eventId → store w' !! event_key id = store w !! event_key id)
  ∧ (∀ resp w', run (post_bookings env userId rq) w = Some (resp, w') →
       status resp = 200 →
       ∃ id q event, rq_eventId rq = Some id ∧ rq_quantity rq = Some q
         ∧ store w !! event_key id = Some (VEvent event)
         ∧ store w' !! event_key id
           = Some (VEvent (with_availableTickets event (availableTickets event - q)))
         ∧ ∀ id', id' ≠ id → store w' !! event_key id' = store w !! event_key id')
  ∧ (∀ resp d', MemServer.createBooking env authHeader rq d = (resp, d') →
       status resp = 200 →
       ∃ id q event, rq_eventId rq = Some id ∧ rq_quantity rq = Some q
         ∧ events (MemServer.initializeData env d) !! id = Some event
         ∧ events d' !! id
           = Some (with_availableTickets event (availableTickets event - q))
         ∧ ∀ id', id' ≠ id →
             events d' !! id' = events (MemServer.initializeData env d) !! id')
  ∧ (∀ b d', MockServer.createBooking env token eventId quantity totalAmount d
               = (MockServer.Resolved b, d') →
       ∃ event, events (MockServer.initialize env d) !! eventId = Some event
         ∧ events d' !! eventId
           = Some (with_availableTickets event (availableTickets event - quantity))
         ∧ ∀ id', id' ≠ eventId →
             events d' !! id' = events (MockServer.initialize env d) !! id').
Proof.
  split; [|split; [|split]].
  - intros resp w' Hrun H200. apply post_events_book_cases in Hrun.
    destruct Hrun as [(_ & Hn & _)|(q & _ & _ & Hb & _ & Hc)]; [done|].
    destruct Hc as [(_ & -> & _)|(ev & Hev & [(_ & -> & _)|(_ & b & -> & _ & ->)])];
      [done..|].
    exists q, ev. split; [done|]. split; [done|].
    split; [apply booked_event_exact|]. intros id. apply booked_other_event.
  - intros resp w' Hrun H200. apply post_bookings_cases in Hrun.
    destruct Hrun as [(_ & -> & _)|(eid & q & He & Hq & _ & Hc)]; [done|].
    destruct Hc as [(_ & -> & _)|(ev & Hev & [(_ & -> & _)|(_ & b & -> & _ & ->)])];
      [done..|].
    exists eid, q, ev. do 3 (split; [done|]).
    split; [apply booked_event_exact|]. intros id. apply booked_other_event.
  - intros resp d' Hrun H200. apply mem_createBooking_cases in Hrun. simpl in Hrun.
    destruct Hrun as [(_ & Hn & _)|(h & u & eid & q & _ & _ & He & Hq & _ & Hc)]; [done|].
    destruct Hc as [(_ & -> & _)|(ev & Hev & [(_ & -> & _)|(_ & b & -> & _ & ->)])];
      [done..|].
    exists eid, q, ev. do 3 (split; [done|]). simpl.
    split; [by rewrite lookup_insert_eq|]. intros id' Hne. by rewrite lookup_insert_ne.
  - intros b d' Hrun. apply mock_createBooking_cases in Hrun. simpl in Hrun.
    destruct Hrun as [(_ & ? & _)|(u & _ & Hc)]; [done|].
    destruct Hc as [(_ & ? & _)|(ev & Hev & [(_ & ? & _)|(_ & b' & -> & _ & ->)])];
      [done..|].
    exists ev. split; [done|]. simpl.
    split; [by rewrite lookup_insert_eq|]. intros id' Hne. by rewrite lookup_insert_ne.
Qed.

Lemma booking_decrements_exactly_witness :
  ∃ w' event,
    store w' !! event_key "7" = Some (VEvent event)
    ∧ availableTickets event = 58 ∧ totalTickets event = 100.
Proof.
  destruct (booking_decrements_exactly env0 "u1" "7" None (cart_request "7" 2 None)
              None "" 0 None gala_world no_data) as (_ & H & _).
  edestruct H as (id & q & ev & Hid & Hq & Hev & Hev' & _);
    [by vm_compute|reflexivity|].
  injection Hid as <-. injection Hq as <-.
  vm_compute in Hev. injection Hev as <-.
  do 2 eexists. split; [exact Hev'|]. by split.
Defined.

(** ** Bookings over a store that can throw *)

Lemma post_bookings_faulty_never env userId rq :
  post_bookings_faulty (λ _, false) env userId rq = post_bookings env userId rq.
Proof. reflexivity. Qed.

Lemma post_events_book_faulty_never message env userId eventId body :
  post_events_book_faulty (λ _, false) message env userId eventId body
  = post_events_book env userId eventId body.
Proof. reflexivity. Qed.

Lemma booking_writes_outcome throws failed env userId eventId booking updatedEvent
    ok w resp w' :
  status failed = 500 → status ok = 200 →
  run (attempt (throws 1%nat) failed
         (kv_set (booking_key (randomUUID env)) (VBooking booking));;
       attempt (throws 2%nat) failed
         (kv_set (user_booking_key userId (randomUUID env)) (VId (randomUUID env)));;
       attempt (throws 3%nat) failed (kv_set (event_key eventId) (VEvent updatedEvent));;
       mret ok) w = Some (resp, w') →
  booking_outcome env userId w resp w'.
Proof.
  intros Hf Hok. unfold run, attempt, booking_outcome. unfold_handler.
  destruct (throws 1%nat).
  { intros [= <- <-]. right; right. split; [done|]. split; [|done].
    exists 0%nat. split; [lia|]. by rewrite app_nil_r. }
  destruct (throws 2%nat).
  { simpl. intros [= <- <-]. right; right. split; [done|]. simpl. split.
    - exists 1%nat. split; [lia|done].
    - intros id. by rewrite lookup_insert_ne by apply booking_key_not_event_key. }
  destruct (throws 3%nat).
  { simpl. intros [= <- <-]. right; right. split; [done|]. simpl. split.
    - exists 2%nat. split; [lia|]. by rewrite <- app_assoc.
    - intros id. rewrite lookup_insert_ne by apply user_booking_key_not_event_key.
      by rewrite lookup_insert_ne by apply booking_key_not_event_key. }
  simpl. intros [= <- <-]. right; left. split; [done|]. exists eventId. simpl.
  by rewrite <- !app_assoc.
Qed.

Lemma run_get_event onError k (next : option Event → Handler Response) w :
  run (attempt false onError (kv_get_event k) ≫= next) w
  = match store w !! k with
    | None => run (next None) w
    | Some (VEvent event) => run (next (Some event)) w
    | Some _ => None
    end.
Proof.
  unfold run, attempt, mbind, handler_bind, kv_get_event.
  by destruct (store w !! k) as [[]|].
Qed.

Lemma refused_outcome env userId w resp :
  status resp ≠ 200 → status resp ≠ 500 → booking_outcome env userId w resp w.
Proof. intros. by left. Qed.

Lemma thrown_outcome env userId w resp :
  status resp = 500 → booking_outcome env userId w resp w.
Proof.
  intros. right; right. split; [done|]. split; [|done].
  exists 0%nat. split; [lia|]. by rewrite app_nil_r.
Qed.

Ltac turned_away :=
  cbv [run respond mbind handler_bind]; simpl; intros ?; simplify_eq;
  by apply refused_outcome.

(** X2.  A booking over a store that can throw.  For both booking
    endpoints of the key-value server, whichever store calls throw: an
    answer other than 200 and 500 comes with the store and the write log
    untouched; the 200 answer comes with exactly three writes, the
    booking, the index entry and the event; the 500 answer comes after
    none, one or two of the first two writes, and with every event as it
    was.  The writes are not undone: when the last write of a bookable
    request throws, the answer is 500 while the booking and its index entry
    stay stored and the event still offers the tickets. *)
Theorem kv_booking_store_failure throws message env userId eventId body rq w :
  (∀ resp w',
     run (post_events_book_faulty throws message env userId eventId body) w
     = Some (resp, w') →
     booking_outcome env userId w resp w')
  ∧ (∀ resp w',
       run (post_bookings_faulty throws env userId rq) w = Some (resp, w') →
       booking_outcome env userId w resp w')
  ∧ (∀ event quantity totalAmount,
       userId ≠ "" → eventId ≠ "" → 1 ≤ quantity →
       store w !! event_key eventId = Some (VEvent event) →
       quantity ≤ availableTickets event →
       last_write_throws throws →
       (∃ w',
          run (post_events_book_faulty throws message env userId eventId
                 (Some (Some quantity))) w
          = Some (json (Err "Failed to save booking data") 500, w')
          ∧ stranded userId eventId
              (new_booking env userId eventId quantity (ev_price event * quantity))
              event w')
       ∧ (∃ w',
            run (post_bookings_faulty throws env userId
                   (cart_request eventId quantity totalAmount)) w
            = Some (json (Err "Failed to create booking") 500, w')
            ∧ stranded userId eventId
                (new_booking env userId eventId quantity
                   (js_or truthy_num totalAmount (ev_price event * quantity)))
                event w')).
Proof.
  split; [|split].
  - intros resp w'. unfold post_events_book_faulty.
    destruct (truthy_str userId); cbn [negb];
      [|turned_away].
    destruct (truthy_str eventId); cbn [negb];
      [|turned_away].
    destruct body as [[quantity|]|];
      [|turned_away..].
    destruct (quantity_invalid (Some quantity));
      [turned_away|].
    destruct (throws 0%nat).
    { cbv [run respond mbind handler_bind attempt]. intros ?; simplify_eq.
      by apply thrown_outcome. }
    rewrite run_get_event.
    destruct (store w !! event_key eventId) as [[|event| |]|]; try done;
      [|turned_away].
    destruct (availableTickets event <? quantity);
      [turned_away|].
    intros Hrun. eapply (booking_writes_outcome throws); [| |exact Hrun]; done.
  - intros resp w'. unfold post_bookings_faulty.
    destruct (rq_eventId rq) as [eid|];
      [|turned_away].
    destruct (rq_quantity rq) as [quantity|];
      [|turned_away].
    destruct (booking_fields_invalid _ _);
      [turned_away|].
    cbv zeta. destruct (throws 0%nat).
    { cbv [run respond mbind handler_bind attempt]. intros ?; simplify_eq.
      by apply thrown_outcome. }
    rewrite run_get_event.
    destruct (store w !! event_key eid) as [[|event| |]|]; try done;
      [|turned_away].
    destruct (availableTickets event <? quantity);
      [turned_away|].
    intros Hrun. eapply (booking_writes_outcome throws); [| |exact Hrun]; done.
  - intros event quantity totalAmount Hu Hid Hq1 Hev Hle (H0 & H1 & H2 & H3).
    apply truthy_str_spec in Hu, Hid.
    assert (truthy_num quantity = true) as Hqt by (apply truthy_num_spec; lia).
    assert ((quantity <? 1) = false) as Hq1' by lia.
    assert ((availableTickets event <? quantity) = false) as Hlt' by lia.
    assert (∀ booking,
              b_id booking = randomUUID env →
              stranded userId eventId booking event
                {| store := <[user_booking_key userId (randomUUID env) :=
                               VId (randomUUID env)]>
                              (<[booking_key (randomUUID env) := VBooking booking]>
                                 (store w));
                   writes := (writes w ++ [booking_key (randomUUID env)])
                             ++ [user_booking_key userId (randomUUID env)] |}) as Hst.
    { intros booking Hb. unfold stranded. rewrite Hb. simpl. split; [|split].
      - rewrite lookup_insert_ne by apply user_booking_key_not_booking_key.
        by rewrite lookup_insert_eq.
      - by rewrite lookup_insert_eq.
      - rewrite lookup_insert_ne by apply user_booking_key_not_event_key.
        by rewrite lookup_insert_ne by apply booking_key_not_event_key. }
    split.
    + eexists. split; [|by apply Hst].
      unfold run, post_events_book_faulty, quantity_invalid, attempt.
      rewrite Hu, Hid. simpl. rewrite Hqt, Hq1', H0, H1, H2, H3. simpl.
      unfold_handler. by rewrite Hev, Hlt'.
    + eexists. split; [|by apply Hst].
      unfold run, post_bookings_faulty, booking_fields_invalid, attempt. simpl.
      rewrite Hid, Hqt, Hq1', H0, H1, H2, H3. simpl.
      unfold_handler. by rewrite Hev, Hlt'.
Qed.

Lemma kv_booking_store_failure_witness :
  ∃ w',
    run (post_bookings_faulty event_write_fails env0 "u1" (cart_request "7" 2 None))
        gala_world
    = Some (json (Err "Failed to create booking") 500, w')
    ∧ stranded "u1" "7" (new_booking env0 "u1" "7" 2 (2500 * 2)) gala w'.
Proof.
  destruct (proj2 (proj2 (kv_booking_store_failure event_write_fails "" env0 "u1" "7" None
                            (cart_request "7" 2 None) gala_world)) gala 2 None)
    as [_ H];
    [done|done|lia|by vm_compute|simpl; lia|by vm_compute|exact H].
Defined.

(** ** The authentication gates *)

Lemma requireAuth_cases env authHeader next w :
  (∃ msg, requireAuth env authHeader next w = Some (Return (json (Err msg) 401), w))
  ∨ (∃ h userId, authHeader = Some h ∧ authenticated env h userId ∧ userId ≠ ""
       ∧ requireAuth env authHeader next w = next userId w).
Proof.
  unfold requireAuth, respond. destruct authHeader as [h|]; [|by left; eexists].
  destruct (truthy_str h) eqn:Hh; cbn [negb]; [|by left; eexists].
  destruct (startsWith "Bearer " h) eqn:Hp; cbn [negb]; [|by left; eexists].
  destruct (truthy_str (String.substring 7 (String.length h - 7) h)) eqn:Ht; cbn [negb];
    [|by left; eexists].
  destruct (verifyToken env (String.substring 7 (String.length h - 7) h))
    as [userId|] eqn:Hv; [|by left; eexists].
  right. exists h, userId. split; [done|]. split; [|split; [|done]].
  - unfold authenticated, bearer_invalid, bearer_token. rewrite Hh, Hp. simpl.
    split; [done|]. split; [by apply truthy_str_spec|done].
  - by eapply verifyToken_truthy.
Qed.

(** X3.  A route behind [requireAuth] answers 401 with the store
    untouched when the caller is not authenticated: no header, an empty
    one, one without the "Bearer " prefix, an empty token, or a token
    [verifyToken] turns down.  Otherwise the answer and the state are those
    of the handler, run with the non-empty subject id that [verifyToken]
    reads from the token. *)
Theorem requireAuth_gate env authHeader next w resp w' :
  run (requireAuth env authHeader next) w = Some (resp, w') →
  (status resp = 401 ∧ w' = w
   ∧ ∀ h userId, authHeader = Some h → ¬ authenticated env h userId)
  ∨ (∃ h userId, authHeader = Some h ∧ authenticated env h userId ∧ userId ≠ ""
       ∧ run (next userId) w = Some (resp, w')).
Proof.
  unfold requireAuth, respond.
  destruct authHeader as [h|]; [|intros [= <- <-]; left; by repeat split].
  destruct (truthy_str h) eqn:Hh; cbn [negb]; cycle 1.
  { intros [= <- <-]. left. do 2 (split; [done|]). intros ? ? [= <-] (Hb & _).
    unfold bearer_invalid in Hb. by rewrite Hh in Hb. }
  destruct (startsWith "Bearer " h) eqn:Hp; cbn [negb]; cycle 1.
  { intros [= <- <-]. left. do 2 (split; [done|]). intros ? ? [= <-] (Hb & _).
    unfold bearer_invalid in Hb. by rewrite Hh, Hp in Hb. }
  fold (bearer_token h).
  destruct (truthy_str (bearer_token h)) eqn:Ht; cbn [negb]; cycle 1.
  { intros [= <- <-]. left. do 2 (split; [done|]). intros ? ? [= <-] (_ & Hne & _).
    apply truthy_str_spec in Hne. congruence. }
  destruct (verifyToken env (bearer_token h)) as [userId|] eqn:Hv; cycle 1.
  { intros [= <- <-]. left. do 2 (split; [done|]). intros ? ? [= <-] (_ & _ & Hv').
    congruence. }
  intros Hrun. right. exists h, userId. split; [done|]. split; [|split; [|done]].
  - unfold authenticated, bearer_invalid. rewrite Hh, Hp. simpl.
    split; [done|]. split; [by apply truthy_str_spec|done].
  - by eapply verifyToken_truthy.
Qed.

Lemma requireAuth_gate_witness :
  ∃ resp w', run (route_post_bookings env0 (Some "Bearer tok-u1") (cart_request "7" 2 None))
                 gala_world = Some (resp, w')
             ∧ run (post_bookings env0 "u1" (cart_request "7" 2 None)) gala_world
               = Some (resp, w').
Proof.
  edestruct (requireAuth_gate env0 (Some "Bearer tok-u1")
               (λ userId, post_bookings env0 userId (cart_request "7" 2 None)) gala_world)
    as [(H401 & _)|(h & userId & [= <-] & (_ & _ & Hv) & _ & Hrun)];
    [by vm_compute|by vm_compute in H401|].
  vm_compute in Hv. injection Hv as <-.
  do 2 eexists. split; [by vm_compute|exact Hrun].
Defined.

Lemma requireAdmin_gate userId next w :
  (∃ msg code, requireAdmin userId next w = Some (Return (json (Err msg) code), w)
               ∧ (code = 401 ∨ code = 403))
  ∨ (∃ admin, store w !! user_key userId = Some (VUser admin) ∧ u_isAdmin admin = true
              ∧ requireAdmin userId next w = next w)
  ∨ requireAdmin userId next w = None.
Proof.
  unfold requireAdmin. unfold_handler.
  destruct (truthy_str userId); simpl; [|by left; do 2 eexists; split; [done|left]].
  destruct (store w !! user_key userId) as [[u| | |]|] eqn:Hu;
    try (by right; right); [|by left; do 2 eexists; split; [done|right]].
  destruct (u_isAdmin u) eqn:Ha; simpl; [|by left; do 2 eexists; split; [done|right]].
  right; left. by exists u.
Qed.

(** X4.  The two writing admin routes change the store only for a caller
    whose token resolves to a stored user with the admin flag: for every
    other caller the answer is 401 or 403 and the store is untouched. *)
Theorem admin_routes_gate env authHeader eventId rq w resp w' :
  run (route_post_admin_events env authHeader rq) w = Some (resp, w')
  ∨ run (route_put_admin_events env authHeader eventId rq) w = Some (resp, w') →
  ((status resp = 401 ∨ status resp = 403) ∧ w' = w)
  ∨ (∃ h userId admin, authHeader = Some h ∧ authenticated env h userId
       ∧ store w !! user_key userId = Some (VUser admin) ∧ u_isAdmin admin = true).
Proof.
  assert (∀ handler : Handler Response,
            run (requireAuth env authHeader (λ userId, requireAdmin userId handler)) w
            = Some (resp, w') →
            ((status resp = 401 ∨ status resp = 403) ∧ w' = w)
            ∨ (∃ h userId admin, authHeader = Some h ∧ authenticated env h userId
                 ∧ store w !! user_key userId = Some (VUser admin)
                 ∧ u_isAdmin admin = true)) as Hgate.
  { intros handler. unfold run.
    destruct (requireAuth_cases env authHeader (λ userId, requireAdmin userId handler) w)
      as [(msg & ->)|(h & userId & Hh & Hauth & Hne & ->)].
    { intros ?; simplify_eq. left. split; [by left|done]. }
    destruct (requireAdmin_gate userId handler w)
      as [(m & c & -> & Hc)|[(admin & Hu & Hadm & _)| ->]]; [| |done].
    - intros ?; simplify_eq. by left.
    - intros _. right. by exists h, userId, admin. }
  unfold route_post_admin_events, route_put_admin_events.
  intros [Hrun|Hrun]; by apply Hgate in Hrun.
Qed.

Lemma admin_routes_gate_witness :
  ((status (json (Err "Admin access required") 403) = 401
    ∨ status (json (Err "Admin access required") 403) = 403) ∧ gala_world = gala_world)
  ∨ (∃ h userId admin, Some "Bearer tok-u1" = Some h ∧ authenticated env0 h userId
       ∧ store gala_world !! user_key userId = Some (VUser admin)
       ∧ u_isAdmin admin = true).
Proof.
  apply (admin_routes_gate env0 (Some "Bearer tok-u1") "7" (capacity_only 10) gala_world).
  left. by vm_compute.
Defined.

(** ** Accounts: sign-up, sign-in *)

Lemma user_key_not_user_email_key a b : user_key a ≠ user_email_key b.
Proof. unfold user_key, user_email_key. cbv [String.append]. discriminate. Qed.

Lemma user_email_key_inj a b : user_email_key a = user_email_key b → a = b.
Proof. unfold user_email_key. cbv [String.append]. congruence. Qed.

Lemma user_key_inj a b : user_key a = user_key b → a = b.
Proof. unfold user_key. cbv [String.append]. congruence. Qed.

Lemma string_eqb_refl_neg s : negb (String.eqb s s) = false.
Proof. by rewrite String.eqb_refl. Qed.

Lemma post_signup_success env email password firstName lastName w :
  email ≠ "" → password ≠ "" →
  store w !! user_email_key email = None →
  let user := new_user env email password firstName lastName (Some (nowISO env 1)) in
  run (post_signup env (signup_request email password firstName lastName)) w
  = Some (json (AuthOk (randomUUID env) email (u_firstName user) (u_lastName user) false
                       (generateToken env (randomUUID env))) 200,
          {| store := <[user_email_key email := VId (randomUUID env)]>
                        (<[user_key (randomUUID env) := VUser user]> (store w));
             writes := writes w ++ [user_key (randomUUID env); user_email_key email] |}).
Proof.
  intros He Hp Hfree user. apply truthy_str_spec in He, Hp.
  unfold run, post_signup. simpl. rewrite He, Hp. simpl. unfold_handler.
  rewrite Hfree. simpl. by rewrite <- app_assoc.
Qed.

Lemma mem_signup_success env email password firstName lastName d :
  email ≠ "" → password ≠ "" →
  initialized d = true → userEmails d !! email = None →
  let user := new_user env email password firstName lastName None in
  MemServer.signup env (signup_request email password firstName lastName) d
  = (json (AuthOk (randomUUID env) email (u_firstName user) (u_lastName user) false
                  (generateToken env (randomUUID env))) 200,
     set_userEmail email (randomUUID env) (set_user (randomUUID env) user d)).
Proof.
  intros He Hp Hinit Hfree user. apply truthy_str_spec in He, Hp.
  unfold MemServer.signup, MemServer.json_response.
  rewrite (mem_initializeData_id _ _ Hinit). simpl. rewrite He, Hp. simpl.
  by rewrite Hfree.
Qed.

Lemma mock_signUp_success env email password firstName lastName d :
  initialized d = true → userEmails d !! email = None →
  let user := new_user env email password (Some firstName) (Some lastName) None in
  MockServer.signUp env email password firstName lastName d
  = (MockServer.Resolved
       (AuthOk (randomUUID env) email (u_firstName user) (u_lastName user) false
               (generateToken env (randomUUID env))),
     set_userEmail email (randomUUID env) (set_user (randomUUID env) user d)).
Proof.
  intros Hinit Hfree user. unfold MockServer.signUp.
  rewrite (mock_initialize_id _ _ Hinit). by rewrite Hfree.
Qed.

(** X5.  Sign-up then sign-in.  After a successful sign-up, a sign-in with
    the same e-mail and password, served at any later time by a platform
    with the same digest function, succeeds and names the same account:
    the id drawn at sign-up, the e-mail, the names as stored, and no admin
    flag.  The sign-in leaves the state as the sign-up left it.  This holds
    for the three back ends. *)
Theorem signup_then_signin env env' email password firstName lastName w d :
  email ≠ "" → password ≠ "" → randomUUID env ≠ "" →
  store w !! user_email_key email = None →
  initialized d = true → userEmails d !! email = None →
  hashPassword env' password = hashPassword env password →
  let rq := signup_request email password firstName lastName in
  let granted issuer :=
    AuthOk (randomUUID env) email (js_or truthy_str firstName "")
           (js_or truthy_str lastName "") false (generateToken issuer (randomUUID env)) in
  (∃ w1, run (post_signup env rq) w = Some (json (granted env) 200, w1)
         ∧ run (post_signin env' (signin_request email password)) w1
           = Some (json (granted env') 200, w1))
  ∧ (∃ d1, MemServer.signup env rq d = (json (granted env) 200, d1)
           ∧ MemServer.signin env' (signin_request email password) d1
             = (json (granted env') 200, d1))
  ∧ (∃ d1, MockServer.signUp env email password (default "" firstName)
             (default "" lastName) d
           = (MockServer.Resolved (granted env), d1)
           ∧ MockServer.signIn env' email password d1
             = (MockServer.Resolved (granted env'), d1)).
Proof.
  intros He Hp Hid Hwfree Hinit Hdfree Hhash rq granted.
  pose proof He as He'. pose proof Hp as Hp'. pose proof Hid as Hid'.
  apply truthy_str_spec in He', Hp', Hid'.
  split; [|split].
  - eexists. split; [by apply post_signup_success|].
    unfold run, post_signin. simpl. rewrite He', Hp'. simpl. unfold_kv. simpl.
    rewrite lookup_insert_eq, Hid'. simpl.
    rewrite lookup_insert_ne by (intros H; symmetry in H;
                                 by apply user_key_not_user_email_key in H).
    rewrite lookup_insert_eq. simpl. by rewrite Hhash, string_eqb_refl_neg.
  - eexists. split; [by apply mem_signup_success|].
    unfold MemServer.signin, MemServer.json_response.
    rewrite mem_initializeData_id by done. simpl. rewrite He', Hp'.
    unfold set_userEmail, set_user. simpl.
    rewrite lookup_insert_eq, Hid'. simpl. rewrite lookup_insert_eq. simpl.
    by rewrite Hhash, string_eqb_refl_neg.
  - eexists. split.
    { rewrite mock_signUp_success by done. unfold granted, new_user.
      cbn [u_firstName u_lastName]. rewrite !js_or_str_default. reflexivity. }
    unfold MockServer.signIn. rewrite mock_initialize_id by done.
    unfold set_userEmail, set_user. cbn [userEmails users].
    rewrite lookup_insert_eq, Hid'. cbn [negb]. rewrite lookup_insert_eq.
    unfold new_user. cbn [u_password u_id u_email u_firstName u_lastName u_isAdmin].
    rewrite Hhash, string_eqb_refl_neg. unfold granted.
    rewrite !js_or_str_default. reflexivity.
Qed.

Lemma signup_then_signin_witness :
  ∃ w1 token token',
    run (post_signup env0 (signup_request "bob@example.com" "secret" (Some "Bob") None))
        ann_world
    = Some (json (AuthOk (randomUUID env0) "bob@example.com" "Bob" "" false token) 200, w1)
    ∧ run (post_signin env1 (signin_request "bob@example.com" "secret")) w1
      = Some (json (AuthOk (randomUUID env0) "bob@example.com" "Bob" "" false token') 200,
              w1).
Proof.
  destruct (signup_then_signin env0 env1 "bob@example.com" "secret" (Some "Bob") None
              ann_world ann_data) as ((w1 & H1 & H2) & _);
    try discriminate; try reflexivity; try (by vm_compute).
  exists w1. do 2 eexists. split; [exact H1|exact H2].
Defined.

Ltac refused :=
  simpl; intros ?; simplify_eq; split; [done|]; by (simpl; intros; simplify_eq).

Lemma string_eqb_neg_false a b : negb (String.eqb a b) = false → a = b.
Proof. intros H. apply negb_false_iff in H. by apply String.eqb_eq. Qed.

(** X6.  Sign-in is read-only and sound.  Whatever the request, sign-in
    returns the state it was given (after the one-time seeding of the
    in-memory back ends), and it grants a token only when the e-mail index
    leads to a stored user whose password digest equals the digest of the
    supplied password.  This holds for the three back ends. *)
Theorem signin_sound env rq email password w d :
  (∀ resp w', run (post_signin env rq) w = Some (resp, w') →
     w' = w
     ∧ (status resp = 200 →
        ∃ email password userId user,
          si_email rq = Some email ∧ si_password rq = Some password
          ∧ store w !! user_email_key email = Some (VId userId)
          ∧ store w !! user_key userId = Some (VUser user)
          ∧ u_password user = hashPassword env password))
  ∧ (∀ resp d', MemServer.signin env rq d = (resp, d') →
       d' = MemServer.initializeData env d
       ∧ (status resp = 200 →
          ∃ email password userId user,
            si_email rq = Some email ∧ si_password rq = Some password
            ∧ userEmails d' !! email = Some userId
            ∧ users d' !! userId = Some user
            ∧ u_password user = hashPassword env password))
  ∧ (∀ out d', MockServer.signIn env email password d = (out, d') →
       d' = MockServer.initialize env d
       ∧ (∀ b, out = MockServer.Resolved b →
          ∃ userId user,
            userEmails d' !! email = Some userId
            ∧ users d' !! userId = Some user
            ∧ u_password user = hashPassword env password)).
Proof.
  split; [|split].
  - intros resp w'. unfold run, post_signin.
    destruct (si_email rq) as [em|]; [|refused].
    destruct (si_password rq) as [pw|]; [|refused].
    destruct (negb (truthy_str em) || negb (truthy_str pw)); [refused|].
    unfold_kv.
    destruct (store w !! user_email_key em) as [[| | |uid]|] eqn:Hidx; try done;
      [|refused].
    destruct (negb (truthy_str uid)); [refused|].
    destruct (store w !! user_key uid) as [[u| | |]|] eqn:Hu; try done;
      [|refused].
    destruct (negb (String.eqb (u_password u) (hashPassword env pw))) eqn:Hpw;
      [refused|].
    simpl. intros ?; simplify_eq. split; [done|]. intros _.
    exists em, pw, uid, u. repeat split; try done. by apply string_eqb_neg_false.
  - intros resp d'. unfold MemServer.signin, MemServer.json_response.
    set (d0 := MemServer.initializeData env d).
    destruct (si_email rq) as [em|]; [|refused].
    destruct (si_password rq) as [pw|]; [|refused].
    destruct (negb (truthy_str em) || negb (truthy_str pw)); [refused|].
    destruct (userEmails d0 !! em) as [uid|] eqn:Hidx; [|refused].
    destruct (negb (truthy_str uid)); [refused|].
    destruct (users d0 !! uid) as [u|] eqn:Hu; [|refused].
    destruct (negb (String.eqb (u_password u) (hashPassword env pw))) eqn:Hpw;
      [refused|].
    intros ?; simplify_eq. split; [done|]. intros _.
    exists em, pw, uid, u. repeat split; try done. by apply string_eqb_neg_false.
  - intros out d'. unfold MockServer.signIn.
    set (d0 := MockServer.initialize env d).
    destruct (userEmails d0 !! email) as [uid|] eqn:Hidx; [|refused].
    destruct (negb (truthy_str uid)); [refused|].
    destruct (users d0 !! uid) as [u|] eqn:Hu; [|refused].
    destruct (negb (String.eqb (u_password u) (hashPassword env password))) eqn:Hpw;
      [refused|].
    intros ?; simplify_eq. split; [done|]. intros b _.
    exists uid, u. repeat split; try done. by apply string_eqb_neg_false.
Qed.

Lemma signin_sound_witness :
  ∃ resp, run (post_signin env0 (signin_request "ann@example.com" "guess")) ann_world
          = Some (resp, ann_world) ∧ status resp = 401.
Proof.
  destruct (signin_sound env0 (signin_request "ann@example.com" "guess") "" ""
              ann_world no_data) as (H & _).
  edestruct H as (Hw & _); [by vm_compute|].
  eexists. split; [by vm_compute|]. reflexivity.
Defined.

(** X7.  A new account has no admin rights.  After a successful sign-up a
    caller who presents a token of the new account is turned away by the
    admin routes of the key-value server and by the event creation of the
    in-memory back ends: the answer is the admin-access error and nothing
    is written. *)
Theorem new_account_is_not_admin env env' email password firstName lastName h
    eventId rq w d :
  email ≠ "" → password ≠ "" →
  store w !! user_email_key email = None →
  initialized d = true → userEmails d !! email = None →
  authenticated env' h (randomUUID env) →
  let signup := signup_request email password firstName lastName in
  let denied := Err "Admin access required" in
  (∃ resp w1, run (post_signup env signup) w = Some (resp, w1) ∧ status resp = 200
       ∧ run (route_post_admin_events env' (Some h) rq) w1 = Some (json denied 403, w1)
       ∧ run (route_put_admin_events env' (Some h) eventId rq) w1
         = Some (json denied 403, w1))
  ∧ (∃ resp d1, MemServer.signup env signup d = (resp, d1) ∧ status resp = 200
       ∧ MemServer.createEvent env' (Some h) rq d1 = (json denied 403, d1)
       ∧ MockServer.createAdminEvent env' (bearer_token h) rq d1
         = (MockServer.Rejected denied, d1)).
Proof.
  intros He Hp Hwfree Hinit Hdfree Hauth signup denied.
  pose proof Hauth as (Hb & _ & Hv).
  pose proof (verifyToken_truthy _ _ _ Hv) as Hid. apply truthy_str_spec in Hid.
  split.
  - do 2 eexists. split; [by apply post_signup_success|]. split; [done|].
    unfold route_post_admin_events, route_put_admin_events, run.
    rewrite !(requireAuth_authenticated _ _ _ _ Hauth).
    unfold requireAdmin. rewrite Hid. simpl. unfold_handler. simpl.
    rewrite lookup_insert_ne by (intros H; symmetry in H;
                                 by apply user_key_not_user_email_key in H).
    by rewrite lookup_insert_eq.
  - do 2 eexists. split; [by apply mem_signup_success|]. split; [done|].
    unfold MemServer.createEvent, MockServer.createAdminEvent, MemServer.json_response.
    rewrite mem_initializeData_id, mock_initialize_id by done.
    rewrite Hb, verifyToken_mem_eq, Hv.
    unfold set_userEmail, set_user. cbn [users]. by rewrite lookup_insert_eq.
Qed.

Lemma new_account_is_not_admin_witness :
  ∃ resp w1,
    run (post_signup env0 (signup_request "bob@example.com" "secret" None None)) ann_world
    = Some (resp, w1)
    ∧ status resp = 200
    ∧ run (route_post_admin_events env1 (Some "Bearer tok-new") (capacity_only 10)) w1
      = Some (json (Err "Admin access required") 403, w1).
Proof.
  destruct (new_account_is_not_admin env0 env1 "bob@example.com" "secret" None None
              "Bearer tok-new" "7" (capacity_only 10) ann_world ann_data)
    as ((resp & w1 & H1 & H2 & H3 & _) & _);
    try discriminate; try reflexivity; try (by vm_compute).
  by exists resp, w1.
Defined.

(** ** The profile *)

(** X8.  A profile update changes the two names and the update time only.
    For a stored user, the update writes back the same id, e-mail,
    password digest, admin flag and creation time; a name that is missing
    or empty in the request keeps its old value; and reading the profile
    afterwards returns what the update returned.  For an unknown user both
    endpoints answer 404 and write nothing. *)
Theorem profile_update_changes_names_only env userId firstName lastName user w :
  (store w !! user_key userId = Some (VUser user) →
   ∃ user' w',
     put_user_profile env userId firstName lastName w
     = Some (Continue (profile_of user'), w')
     ∧ store w' = <[user_key userId := VUser user']> (store w)
     ∧ get_user_profile userId w' = Some (Continue (profile_of user'), w')
     ∧ u_id user' = u_id user ∧ u_email user' = u_email user
     ∧ u_password user' = u_password user ∧ u_isAdmin user' = u_isAdmin user
     ∧ u_createdAt user' = u_createdAt user
     ∧ (firstName = None ∨ firstName = Some "" → u_firstName user' = u_firstName user)
     ∧ (∀ name, firstName = Some name → name ≠ "" → u_firstName user' = name)
     ∧ (lastName = None ∨ lastName = Some "" → u_lastName user' = u_lastName user)
     ∧ (∀ name, lastName = Some name → name ≠ "" → u_lastName user' = name))
  ∧ (store w !! user_key userId = None →
     put_user_profile env userId firstName lastName w
     = Some (Return (json (Err "User not found") 404), w)
     ∧ get_user_profile userId w = Some (Return (json (Err "User not found") 404), w)).
Proof.
  split.
  - intros Hu. unfold put_user_profile, get_user_profile. unfold_handler.
    rewrite Hu. simpl. do 2 eexists. split; [done|]. split; [done|].
    split; [by simpl; rewrite lookup_insert_eq|].
    do 5 (split; [done|]).
    split; [apply js_or_str_falsy|].
    split; [by intros name -> Hn; apply js_or_str_truthy|].
    split; [apply js_or_str_falsy|].
    by intros name -> Hn; apply js_or_str_truthy.
  - intros Hu. unfold put_user_profile, get_user_profile. unfold_handler.
    by rewrite Hu.
Qed.

Lemma profile_update_changes_names_only_witness :
  ∃ user' w',
    put_user_profile env0 "u1" (Some "Anna") (Some "") ann_world
    = Some (Continue (profile_of user'), w')
    ∧ u_firstName user' = "Anna" ∧ u_lastName user' = u_lastName ann
    ∧ u_password user' = u_password ann.
Proof.
  destruct (proj1 (profile_update_changes_names_only env0 "u1" (Some "Anna") (Some "")
                     ann ann_world))
    as (u' & w' & H1 & _ & _ & _ & _ & Hpw & _ & _ & _ & Hf & Hl & _);
    [by vm_compute|].
  exists u', w'. split; [exact H1|].
  split; [by apply Hf|]. split; [by apply Hl; right|exact Hpw].
Defined.

(** ** Catalogue edits and the inventory invariant *)

Lemma put_admin_events_cases env eventId rq w resp w' :
  run (put_admin_events env eventId rq) w = Some (resp, w') →
  (store w !! event_key eventId = None
   ∧ resp = json (Err "Event not found") 404 ∧ w' = w)
  ∨ (∃ existingEvent, store w !! event_key eventId = Some (VEvent existingEvent)
       ∧ ((resp = json (Err "Failed to update event") 500 ∧ w' = w)
          ∨ ∃ updatedEvent,
              resp = json (EventSaved updatedEvent) 200
              ∧ store w' = <[event_key eventId := VEvent updatedEvent]> (store w)
              ∧ writes w' = writes w ++ [event_key eventId]
              ∧ ev_id updatedEvent = ev_id existingEvent
              ∧ totalTickets updatedEvent
                = default (totalTickets existingEvent) (rq_capacity rq)
              ∧ availableTickets updatedEvent
                = match rq_capacity rq with
                  | Some capacity =>
                      capacity - (totalTickets existingEvent
                                  - availableTickets existingEvent)
                  | None => availableTickets existingEvent
                  end)).
Proof.
  unfold run, put_admin_events. unfold_handler.
  destruct (store w !! event_key eventId) as [[|e| |]|] eqn:Hev; try done; cycle 1.
  { simpl. intros ?; simplify_eq. by left. }
  intros Hrun. right. exists e. split; [done|]. revert Hrun.
  destruct (rq_date rq) as [date|]; [destruct (truthy_str date);
                                     [destruct (toISOString env date)|]|];
    simpl; intros ?; simplify_eq; try (by left);
    right; eexists; (split; [reflexivity|]); simpl;
    by destruct (rq_capacity rq).
Qed.

(** X9.  An update keeps the inventory invariant exactly when the capacity it
    supplies, if any, covers the tickets already sold.  On an event that
    satisfies [0 <= availableTickets <= totalTickets], a successful update
    without a capacity leaves both counts as they were, and a successful
    update with a capacity leaves the invariant in force if and only if the
    capacity is at least [totalTickets - availableTickets].  No key other
    than the event's own is written, and an unknown id is answered with 404
    and no write. *)
Theorem update_keeps_inventory_iff env eventId rq w resp w' :
  run (put_admin_events env eventId rq) w = Some (resp, w') →
  (store w !! event_key eventId = None →
   resp = json (Err "Event not found") 404 ∧ w' = w)
  ∧ (∀ existingEvent,
       store w !! event_key eventId = Some (VEvent existingEvent) →
       inventory_ok existingEvent →
       status resp = 200 →
       ∃ updatedEvent,
         store w' !! event_key eventId = Some (VEvent updatedEvent)
         ∧ (rq_capacity rq = None →
            totalTickets updatedEvent = totalTickets existingEvent
            ∧ availableTickets updatedEvent = availableTickets existingEvent)
         ∧ (inventory_ok updatedEvent ↔
            ∀ capacity, rq_capacity rq = Some capacity →
                        totalTickets existingEvent - availableTickets existingEvent
                        ≤ capacity)
         ∧ ∀ k, k ≠ event_key eventId → store w' !! k = store w !! k).
Proof.
  intros Hrun. apply put_admin_events_cases in Hrun. split.
  - intros Hnone. destruct Hrun as [(_ & -> & ->)|(e & He & _)]; [done|congruence].
  - intros existingEvent Hev Hok H200.
    destruct Hrun as [(Hnone & _)|(e & He & Hc)]; [congruence|].
    rewrite Hev in He. injection He as <-.
    destruct Hc as [(-> & _)|(u & -> & Hst & _ & _ & Htot & Hav)]; [done|].
    exists u. rewrite Hst. split; [by rewrite lookup_insert_eq|].
    split; [by intros Hcap; rewrite Hcap in Htot, Hav|].
    split; [|by intros k Hk; rewrite lookup_insert_ne].
    unfold inventory_ok in *. rewrite Htot, Hav.
    destruct (rq_capacity rq) as [c|]; simpl.
    + split.
      * intros [H0 _] c' [= <-]. lia.
      * intros H. specialize (H c eq_refl). lia.
    + split; [by intros _ c'|by intros _].
Qed.

Lemma update_keeps_inventory_iff_witness :
  (∃ updatedEvent w',
     run (put_admin_events env0 "7" (capacity_only 40)) gala_world
     = Some (json (EventSaved updatedEvent) 200, w')
     ∧ store w' !! event_key "7" = Some (VEvent updatedEvent)
     ∧ inventory_ok updatedEvent)
  ∧ run (put_admin_events env0 "8" (capacity_only 40)) gala_world
    = Some (json (Err "Event not found") 404, gala_world).
Proof.
  split.
  - destruct (put_admin_events_total env0 "7" (capacity_only 40) gala_world
                gala_world_typed) as (resp & w' & Hrun).
    assert (∃ u, resp = json (EventSaved u) 200) as [u ->].
    { vm_compute in Hrun. injection Hrun as <- _. by eexists. }
    destruct (proj2 (update_keeps_inventory_iff env0 "7" (capacity_only 40) gala_world
                       (json (EventSaved u) 200) w' Hrun) gala)
      as (u' & Hu' & _ & Hiff & _); [by vm_compute|by vm_compute|reflexivity|].
    exists u, w'. split; [exact Hrun|].
    assert (u' = u) as ->.
    { apply put_admin_events_cases in Hrun.
      destruct Hrun as [(Hn & _)|(e & _ & [(Hr & _)|(u2 & Hr & Hst & _)])];
        [by vm_compute in Hn|discriminate Hr|].
      injection Hr as ->. rewrite Hst, lookup_insert_eq in Hu'. congruence. }
    split; [exact Hu'|]. apply Hiff. intros c [= <-]. simpl. lia.
  - destruct (put_admin_events_total env0 "8" (capacity_only 40) gala_world
                gala_world_typed) as (resp & w' & Hrun).
    destruct (proj1 (update_keeps_inventory_iff env0 "8" (capacity_only 40) gala_world
                       resp w' Hrun)) as [-> ->]; [by vm_compute|].
    exact Hrun.
Defined.

(** X10.  [createEvent] stores an event whose tickets are all available, and
    the stored event satisfies [0 <= availableTickets <= totalTickets]
    exactly when the capacity of the request, if any, is not negative: a
    negative capacity is stored as it is.  This holds for the three back
    ends. *)
Theorem created_event_inventory_iff env rq authHeader token w d :
  (∀ e w', run (post_admin_events env rq) w = Some (json (EventSaved e) 200, w') →
     store w' !! event_key (ev_id e) = Some (VEvent e)
     ∧ availableTickets e = totalTickets e
     ∧ (inventory_ok e ↔ ∀ capacity, rq_capacity rq = Some capacity → 0 ≤ capacity))
  ∧ (∀ e d', MemServer.createEvent env authHeader rq d = (json (EventSaved e) 200, d') →
       events d' !! ev_id e = Some e
       ∧ availableTickets e = totalTickets e
       ∧ (inventory_ok e ↔ ∀ capacity, rq_capacity rq = Some capacity → 0 ≤ capacity))
  ∧ (∀ e d', MockServer.createAdminEvent env token rq d
               = (MockServer.Resolved (EventSaved e), d') →
       events d' !! ev_id e = Some e
       ∧ availableTickets e = totalTickets e
       ∧ (inventory_ok e ↔ ∀ capacity, rq_capacity rq = Some capacity → 0 ≤ capacity)).
Proof.
  assert (∀ e : Event,
            totalTickets e = js_or truthy_num (rq_capacity rq) 100 →
            availableTickets e = js_or truthy_num (rq_capacity rq) 100 →
            availableTickets e = totalTickets e
            ∧ (inventory_ok e ↔ ∀ capacity, rq_capacity rq = Some capacity → 0 ≤ capacity))
    as Hinv.
  { intros e Ht Ha. split; [congruence|]. unfold inventory_ok. rewrite Ha, Ht.
    destruct (rq_capacity rq) as [c|]; simpl.
    - destruct (truthy_num c) eqn:Hc.
      + split; [by intros [H _] c' [= <-]|]. intros H. specialize (H c eq_refl). lia.
      + apply not_true_iff_false in Hc. rewrite truthy_num_spec in Hc.
        assert (c = 0) as -> by lia. split; [by intros _ c' [= <-]|]. intros _. lia.
    - split; [by intros _ c'|]. intros _. lia. }
  split; [|split].
  - intros e w'. unfold run, post_admin_events.
    destruct (rq_title rq), (rq_date rq) as [date|], (rq_location rq), (rq_price rq);
      try (by intros ?; simplify_eq).
    destruct (event_fields_missing rq); [by intros ?; simplify_eq|].
    destruct (toISOString env date); [|by intros ?; simplify_eq].
    unfold_handler. simpl. intros ?; simplify_eq.
    split; [by simpl; rewrite lookup_insert_eq|]. by apply Hinv.
  - intros e d'. unfold MemServer.createEvent, MemServer.json_response.
    destruct authHeader as [h|]; [|by intros ?; simplify_eq].
    destruct (bearer_invalid (Some h)); [by intros ?; simplify_eq|].
    destruct (verifyToken_mem env (bearer_token h)); [|by intros ?; simplify_eq].
    destruct (negb _); [by intros ?; simplify_eq|].
    destruct (rq_title rq), (rq_date rq) as [date|], (rq_location rq), (rq_price rq);
      try (by intros ?; simplify_eq).
    destruct (event_fields_missing rq); [by intros ?; simplify_eq|].
    destruct (toISOString env date); [|by intros ?; simplify_eq].
    intros ?; simplify_eq.
    split; [by simpl; rewrite lookup_insert_eq|]. by apply Hinv.
  - intros e d'. unfold MockServer.createAdminEvent.
    destruct (verifyToken_mem env token); [|by intros ?; simplify_eq].
    destruct (negb _); [by intros ?; simplify_eq|].
    destruct (rq_title rq), (rq_date rq) as [date|], (rq_location rq), (rq_price rq);
      try (by intros ?; simplify_eq).
    destruct (event_fields_missing rq); [by intros ?; simplify_eq|].
    destruct (toISOString env date); [|by intros ?; simplify_eq].
    intros ?; simplify_eq.
    split; [by simpl; rewrite lookup_insert_eq|]. by apply Hinv.
Qed.

Lemma created_event_inventory_iff_witness :
  ∃ e w',
    run (post_admin_events env0
           (event_request "Gala" "2025-06-01T18:00:00.000Z" "Town Hall" (Some 2500)
              (Some (-5)) None None None None)) empty_world
    = Some (json (EventSaved e) 200, w')
    ∧ availableTickets e = -5 ∧ ¬ inventory_ok e.
Proof.
  destruct (created_event_inventory_iff env0
              (event_request "Gala" "2025-06-01T18:00:00.000Z" "Town Hall" (Some 2500)
                 (Some (-5)) None None None None) None "" empty_world no_data)
    as (H & _).
  edestruct H as (_ & _ & Hiff); [by vm_compute|].
  do 2 eexists. split; [by vm_compute|]. split; [reflexivity|].
  intros Hok. pose proof (proj1 Hiff Hok (-5) eq_refl) as Hneg. lia.
Defined.

(** ** Enumerating the store *)

Lemma prefix_values_elem p (m : gmap string Value) v :
  v ∈ prefix_values p m ↔ ∃ k, m !! k = Some v ∧ startsWith p k = true.
Proof.
  unfold prefix_values. rewrite list_elem_of_fmap. split.
  - intros ([k v'] & -> & Hin). apply elem_of_map_to_list in Hin.
    apply map_lookup_filter_Some in Hin as [Hk Hp]. by exists k.
  - intros (k & Hk & Hp). exists (k, v). split; [done|].
    apply elem_of_map_to_list. by apply map_lookup_filter_Some.
Qed.

Lemma startsWith_cons_eq c p d s :
  startsWith (String c p) (String d s) = true → c = d.
Proof. simpl. intros H. apply andb_true_iff in H as [H _]. by apply Ascii.eqb_eq. Qed.

Lemma booking_prefix_typed k v :
  startsWith "booking:" k = true → well_keyed k v = true → is_booking v = true.
Proof.
  intros Hp. unfold well_keyed. rewrite Hp.
  destruct (startsWith "event:" k) eqn:He; [|done].
  destruct k as [|c k]; [done|].
  apply startsWith_cons_eq in Hp, He. congruence.
Qed.

Lemma event_prefix_typed k v :
  startsWith "event:" k = true → well_keyed k v = true → is_event v = true.
Proof. intros Hp. unfold well_keyed. by rewrite Hp. Qed.

Lemma mapM_cast {A} (cast : Value → option A) (inj : A → Value) (l : list Value) :
  (∀ a, cast (inj a) = Some a) →
  Forall (λ v, ∃ a, v = inj a) l →
  ∃ k, mapM cast l = Some k ∧ inj <$> k = l.
Proof.
  intros Hcast. induction 1 as [|v l [a ->] _ (k & Hk & Hl)].
  - by exists [].
  - exists (a :: k). split; [|by rewrite <- Hl].
    apply mapM_Some. constructor; [done|]. by apply mapM_Some.
Qed.

Lemma typed_bookings (m : gmap string Value) :
  kv_typed m →
  ∃ bookings, mapM as_booking (prefix_values "booking:" m) = Some bookings
    ∧ VBooking <$> bookings = prefix_values "booking:" m.
Proof.
  intros Hm. apply mapM_cast; [done|]. apply Forall_forall. intros v Hv.
  apply prefix_values_elem in Hv as (k & Hk & Hp).
  pose proof (booking_prefix_typed k v Hp (Hm _ _ Hk)) as Hb.
  destruct v; try done. by eexists.
Qed.

Lemma typed_events (m : gmap string Value) :
  kv_typed m →
  ∃ events, mapM as_event (prefix_values "event:" m) = Some events
    ∧ VEvent <$> events = prefix_values "event:" m.
Proof.
  intros Hm. apply mapM_cast; [done|]. apply Forall_forall. intros v Hv.
  apply prefix_values_elem in Hv as (k & Hk & Hp).
  pose proof (event_prefix_typed k v Hp (Hm _ _ Hk)) as Hb.
  destruct v; try done. by eexists.
Qed.

Lemma typed_bookings_elem (m : gmap string Value) bookings b :
  VBooking <$> bookings = prefix_values "booking:" m →
  b ∈ bookings ↔ ∃ k, m !! k = Some (VBooking b) ∧ startsWith "booking:" k = true.
Proof.
  intros Hl. rewrite <- prefix_values_elem, <- Hl, list_elem_of_fmap. split.
  - intros Hb. by exists b.
  - by intros (b' & [= <-] & Hb).
Qed.

Lemma filter_none {A} (P : A → Prop) `{∀ x, Decision (P x)} (l : list A) :
  (∀ x, x ∈ l → ¬ P x) → filter P l = [].
Proof.
  induction l as [|x l IH]; [done|]. intros Hl.
  rewrite filter_cons_False by (apply Hl; by left).
  apply IH. intros y Hy. apply Hl. by right.
Qed.

Lemma filter_some_length {A} (P : A → Prop) `{∀ x, Decision (P x)} (l : list A) x :
  x ∈ l → P x → (0 < length (filter P l))%nat.
Proof.
  intros Hx HP. assert (x ∈ filter P l) as Hin by by apply list_elem_of_filter.
  destruct (filter P l); [by apply not_elem_of_nil in Hin|simpl; lia].
Qed.

(** ** Deleting an event *)

Lemma delete_admin_events_booked eventId w event k booking :
  kv_typed (store w) →
  store w !! event_key eventId = Some (VEvent event) →
  startsWith "booking:" k = true → store w !! k = Some (VBooking booking) →
  b_eventId booking = eventId →
  delete_admin_events eventId w
  = Some (Return (json (Err "Cannot delete event with existing bookings") 400), w).
Proof.
  intros Hm Hev Hp Hk Hb.
  destruct (typed_bookings _ Hm) as (bookings & Hmap & Hl).
  unfold delete_admin_events. unfold_kv. rewrite Hev. simpl. rewrite Hmap.
  rewrite bool_decide_true; [done|].
  apply (filter_some_length _ _ booking); [|done].
  apply (typed_bookings_elem _ _ _ Hl). by exists k.
Qed.

(** X11.  The guard of event deletion.  On a typed store: an unknown id is
    answered with 404; an event that some stored booking refers to is not
    deleted, the answer is 400 and the store is untouched; an event that no
    stored booking refers to is deleted, after which reading it answers
    404 while every other key still holds what it held. *)
Theorem delete_event_guard eventId w :
  kv_typed (store w) →
  (store w !! event_key eventId = None →
   delete_admin_events eventId w
   = Some (Return (json (Err "Event not found") 404), w))
  ∧ (∀ event, store w !! event_key eventId = Some (VEvent event) →
       ((∃ k booking, startsWith "booking:" k = true
                      ∧ store w !! k = Some (VBooking booking)
                      ∧ b_eventId booking = eventId) →
        delete_admin_events eventId w
        = Some (Return (json (Err "Cannot delete event with existing bookings") 400), w))
       ∧ ((∀ k booking, store w !! k = Some (VBooking booking) →
                        b_eventId booking ≠ eventId) →
          ∃ w', delete_admin_events eventId w
                = Some (Continue "Event deleted successfully", w')
                ∧ run (get_events_id eventId) w'
                  = Some (json (Err "Event not found") 404, w')
                ∧ (∀ k, k ≠ event_key eventId → store w' !! k = store w !! k)
                ∧ writes w' = writes w)).
Proof.
  intros Hm.
  destruct (typed_bookings _ Hm) as (bookings & Hmap & Hl).
  split.
  - intros Hnone. unfold delete_admin_events. unfold_kv. by rewrite Hnone.
  - intros event Hev. split.
    + intros (k & b & Hp & Hk & Hb). by eapply delete_admin_events_booked.
    + intros Hfree.
      unfold delete_admin_events. unfold_kv. rewrite Hev. simpl. rewrite Hmap.
      rewrite filter_none; cycle 1.
      { intros b Hb. apply (typed_bookings_elem _ _ _ Hl) in Hb as (k & Hk & _).
        by eapply Hfree. }
      simpl. eexists. split; [done|]. simpl.
      split; [by unfold run, get_events_id; unfold_kv; simpl; rewrite lookup_delete_eq|].
      split; [|done]. intros k Hk. by rewrite lookup_delete_ne.
Qed.

Lemma delete_event_guard_witness :
  ∃ w', delete_admin_events "7" gala_world
        = Some (Continue "Event deleted successfully", w')
        ∧ run (get_events_id "7") w' = Some (json (Err "Event not found") 404, w').
Proof.
  destruct (proj2 (delete_event_guard "7" gala_world gala_world_typed) gala)
    as (_ & Hdel); [by vm_compute|].
  destruct Hdel as (w' & H1 & H2 & _).
  - intros k b Hk. exfalso. unfold gala_world in Hk. simpl in Hk.
    apply lookup_singleton_Some in Hk as [_ Hk]. discriminate Hk.
  - exists w'. split; [exact H1|exact H2].
Defined.

(** X12.  An event with a booking cannot be deleted.  After a successful
    booking through either endpoint of the key-value server, deleting the
    booked event is refused with 400 and the store is left as the booking
    left it. *)
Theorem booked_event_cannot_be_deleted env userId eventId body rq w resp w' :
  kv_typed (store w) →
  run (post_events_book env userId eventId body) w = Some (resp, w')
  ∨ (rq_eventId rq = Some eventId
     ∧ run (post_bookings env userId rq) w = Some (resp, w')) →
  status resp = 200 →
  delete_admin_events eventId w'
  = Some (Return (json (Err "Cannot delete event with existing bookings") 400), w').
Proof.
  intros Hm Hrun H200.
  assert (∃ event booking, w' = booked w userId eventId event booking
                           ∧ b_eventId booking = eventId) as (ev & b & -> & Hb).
  { destruct Hrun as [Hrun|[Hid Hrun]].
    - apply post_events_book_cases in Hrun.
      destruct Hrun as [(_ & Hn & _)|(q & _ & _ & _ & _ & Hc)]; [done|].
      destruct Hc as [(_ & -> & _)|(ev & _ & [(_ & -> & _)|(_ & b & -> & _ & ->)])];
        [done..|]. by do 2 eexists.
    - apply post_bookings_cases in Hrun.
      destruct Hrun as [(_ & -> & _)|(eid & q & He & _ & _ & Hc)]; [done|].
      rewrite Hid in He. injection He as <-.
      destruct Hc as [(_ & -> & _)|(ev & _ & [(_ & -> & _)|(_ & b & -> & _ & ->)])];
        [done..|]. by do 2 eexists. }
  pose proof (booked_typed w userId eventId ev b Hm) as Hm'.
  eapply (delete_admin_events_booked eventId _ _ (booking_key (b_id b)) b Hm'
            (booked_event_exact _ _ _ _ _));
    [by vm_compute|apply booked_lookup_booking|done].
Qed.

Lemma booked_event_cannot_be_deleted_witness :
  ∃ resp w',
    run (post_bookings env0 "u1" (cart_request "7" 2 None)) gala_world = Some (resp, w')
    ∧ delete_admin_events "7" w'
      = Some (Return (json (Err "Cannot delete event with existing bookings") 400), w').
Proof.
  destruct (post_bookings_total env0 "u1" (cart_request "7" 2 None) gala_world
              gala_world_typed) as (resp & w' & Hrun).
  exists resp, w'. split; [exact Hrun|].
  apply (booked_event_cannot_be_deleted env0 "u1" "7" None (cart_request "7" 2 None)
           gala_world resp w' gala_world_typed).
  - right. split; [reflexivity|exact Hrun].
  - vm_compute in Hrun. by injection Hrun as <- _.
Defined.

(** ** Statistics *)

Lemma revenue_from a l : foldl (λ sum b, sum + totalPrice b) a l = a + revenue l.
Proof.
  unfold revenue. revert a. induction l as [|b l IH]; intros a; simpl; [lia|].
  rewrite (IH (a + totalPrice b)), (IH (0 + totalPrice b)). lia.
Qed.

Lemma revenue_cons b l : revenue (b :: l) = totalPrice b + revenue l.
Proof. unfold revenue at 1. simpl. by rewrite revenue_from. Qed.

Lemma revenue_perm l l' : l ≡ₚ l' → revenue l = revenue l'.
Proof.
  induction 1 as [|b l l' _ IH|b b' l|l1 l2 l3 _ IH1 _ IH2];
    rewrite ?revenue_cons; lia.
Qed.

Lemma values_of_insert_fresh {A} (m : gmap string A) k a :
  m !! k = None → values_of (<[k := a]> m) ≡ₚ a :: values_of m.
Proof.
  intros Hk. unfold values_of. by rewrite (map_to_list_insert m k a Hk).
Qed.

Lemma mem_admin_stats_admin env h adminId admin d :
  authenticated env h adminId → initialized d = true →
  users d !! adminId = Some admin → u_isAdmin admin = true →
  MemServer.admin_stats env (Some h) d
  = (inr {| totalEvents := Z.of_nat (size (events d));
            totalBookings := Z.of_nat (size (bookings d));
            totalRevenue := revenue (values_of (bookings d));
            activeEvents := active_count (values_of (events d));
            totalUsers := None |}, d)
  ∧ MockServer.getAdminStats env (bearer_token h) d
    = (inr {| totalEvents := Z.of_nat (size (events d));
              totalBookings := Z.of_nat (size (bookings d));
              totalRevenue := revenue (values_of (bookings d));
              activeEvents := active_count (values_of (events d));
              totalUsers := None |}, d).
Proof.
  intros (Hb & _ & Hv) Hinit Hu Hadm.
  unfold MemServer.admin_stats, MockServer.getAdminStats.
  rewrite mem_initializeData_id, mock_initialize_id by done.
  rewrite Hb, verifyToken_mem_eq, Hv, Hu. simpl. by rewrite Hadm.
Qed.

(** X13.  Statistics follow bookings.  On the in-memory back ends, a
    successful booking stored under a fresh id raises the booking count
    reported to an administrator by one and the reported revenue by the
    [totalPrice] of the booking, and leaves the event count as it was. *)
Theorem stats_follow_bookings env env' h adminId admin caller rq token eventId quantity
    totalAmount d :
  initialized d = true →
  authenticated env' h adminId →
  users d !! adminId = Some admin → u_isAdmin admin = true →
  bookings d !! randomUUID env = None →
  (∀ resp d', MemServer.createBooking env caller rq d = (resp, d') → status resp = 200 →
     ∃ b t dt l s s',
       body resp = BookingOk b t dt l
       ∧ MemServer.admin_stats env' (Some h) d = (inr s, d)
       ∧ MemServer.admin_stats env' (Some h) d' = (inr s', d')
       ∧ totalBookings s' = totalBookings s + 1
       ∧ totalRevenue s' = totalRevenue s + totalPrice b
       ∧ totalEvents s' = totalEvents s)
  ∧ (∀ b t dt l d',
       MockServer.createBooking env token eventId quantity totalAmount d
       = (MockServer.Resolved (BookingOk b t dt l), d') →
       ∃ s s',
         MockServer.getAdminStats env' (bearer_token h) d = (inr s, d)
         ∧ MockServer.getAdminStats env' (bearer_token h) d' = (inr s', d')
         ∧ totalBookings s' = totalBookings s + 1
         ∧ totalRevenue s' = totalRevenue s + totalPrice b
         ∧ totalEvents s' = totalEvents s).
Proof.
  intros Hinit Hauth Hu Hadm Hfresh.
  assert (∀ eid ev ev' b,
            events d !! eid = Some ev →
            let d' := set_booking (randomUUID env) b (set_event eid ev' d) in
            initialized d' = true ∧ users d' !! adminId = Some admin
            ∧ size (bookings d') = S (size (bookings d))
            ∧ revenue (values_of (bookings d'))
              = revenue (values_of (bookings d)) + totalPrice b
            ∧ size (events d') = size (events d)) as Hstep.
  { intros eid ev ev' b Hev d'. subst d'. simpl. split; [done|]. split; [done|].
    split; [by apply map_size_insert_None|].
    split.
    - rewrite (revenue_perm _ _ (values_of_insert_fresh _ _ _ Hfresh)), revenue_cons. lia.
    - apply map_size_insert_Some. by rewrite Hev. }
  split.
  - intros resp d' Hrun H200. apply mem_createBooking_cases in Hrun.
    rewrite (mem_initializeData_id _ _ Hinit) in Hrun. simpl in Hrun.
    destruct Hrun as [(_ & Hn & _)|(hh & u & eid & q & _ & _ & _ & _ & _ & Hc)]; [done|].
    destruct Hc as [(_ & -> & _)|(ev & Hev & [(_ & -> & _)|(_ & b & Hb & -> & ->)])];
      [done..|].
    destruct (Hstep eid ev (with_availableTickets ev (availableTickets ev - q)) b Hev)
      as (Hi' & Hu' & Hsz & Hrev & Hev').
    do 6 eexists. split; [done|].
    split; [apply (mem_admin_stats_admin _ _ _ _ _ Hauth Hinit Hu Hadm)|].
    split; [apply (mem_admin_stats_admin _ _ _ _ _ Hauth Hi' Hu' Hadm)|].
    simpl in *. rewrite Hsz, Hrev, Hev'. repeat split; lia.
  - intros b t dt l d' Hrun. apply mock_createBooking_cases in Hrun.
    rewrite (mock_initialize_id _ _ Hinit) in Hrun. simpl in Hrun.
    destruct Hrun as [(_ & ? & _)|(u & _ & Hc)]; [done|].
    destruct Hc as [(_ & ? & _)|(ev & Hev & [(_ & ? & _)|(_ & b' & Hb & Hr & ->)])];
      [done..|].
    injection Hr as <- _ _ _.
    destruct (Hstep eventId ev
                (with_availableTickets ev (availableTickets ev - quantity)) b Hev)
      as (Hi' & Hu' & Hsz & Hrev & Hev').
    do 2 eexists.
    split; [apply (mem_admin_stats_admin _ _ _ _ _ Hauth Hinit Hu Hadm)|].
    split; [apply (mem_admin_stats_admin _ _ _ _ _ Hauth Hi' Hu' Hadm)|].
    simpl in *. rewrite Hsz, Hrev, Hev'. repeat split; lia.
Qed.

Lemma stats_follow_bookings_witness :
  ∃ s s' d',
    MemServer.admin_stats env0 (Some "Bearer tok-admin") staffed_data = (inr s, staffed_data)
    ∧ MemServer.admin_stats env0 (Some "Bearer tok-admin") d' = (inr s', d')
    ∧ totalBookings s' = totalBookings s + 1
    ∧ totalRevenue s' = totalRevenue s + 5000.
Proof.
  destruct (stats_follow_bookings env0 env0 "Bearer tok-admin" "admin-user-123"
              (admin_user "digest" "2025-01-01T00:00:00.000Z") (Some "Bearer tok-u1")
              (cart_request "7" 2 None) "tok-u1" "7" 2 None staffed_data) as (H & _);
    try reflexivity; try exact authenticated_admin_env0.
  edestruct H as (b & t & dt & l & s & s' & Hb & Hs & Hs' & Hn & Hr & _);
    [by vm_compute|reflexivity|].
  simpl in Hb. injection Hb as <- _ _ _.
  do 3 eexists. split; [exact Hs|]. split; [exact Hs'|]. split; [exact Hn|exact Hr].
Defined.

Lemma sum_prices_perm (l l' : list Value) :
  l ≡ₚ l' →
  foldr (λ v sum, value_price v + sum) 0 l = foldr (λ v sum, value_price v + sum) 0 l'.
Proof. induction 1; simpl; lia. Qed.

Lemma revenue_values bookings :
  revenue bookings = foldr (λ v sum, value_price v + sum) 0 (VBooking <$> bookings).
Proof.
  induction bookings as [|b l IH]; [done|]. rewrite revenue_cons, IH. done.
Qed.

Lemma booked_prefix_bookings w userId eventId event booking :
  store w !! booking_key (b_id booking) = None →
  prefix_values "booking:" (store (booked w userId eventId event booking))
  ≡ₚ VBooking booking :: prefix_values "booking:" (store w).
Proof.
  intros Hfresh. unfold prefix_values, booked. simpl.
  rewrite map_filter_insert_not by (intros y; by vm_compute).
  rewrite map_filter_insert_not by (intros y; by vm_compute).
  rewrite map_filter_insert_True by by vm_compute.
  rewrite map_to_list_insert; [done|].
  apply map_lookup_filter_None. by left.
Qed.

Lemma booked_prefix_events w userId eventId event booking old :
  store w !! event_key eventId = Some old →
  length (prefix_values "event:" (store (booked w userId eventId event booking)))
  = length (prefix_values "event:" (store w)).
Proof.
  intros Hold. unfold prefix_values, booked. simpl.
  rewrite map_filter_insert_True by by vm_compute.
  rewrite map_filter_insert_not by (intros y; by vm_compute).
  rewrite map_filter_insert_not by (intros y; by vm_compute).
  rewrite !length_fmap, !length_map_to_list.
  apply map_size_insert_Some. eexists. apply map_lookup_filter_Some.
  split; [exact Hold|by vm_compute].
Qed.

Lemma booked_prefix_users w userId eventId event booking :
  prefix_values "user:" (store (booked w userId eventId event booking))
  = prefix_values "user:" (store w).
Proof.
  unfold prefix_values, booked. simpl.
  by do 3 (rewrite map_filter_insert_not by (intros y; by vm_compute)).
Qed.

Lemma get_admin_stats_typed w :
  kv_typed (store w) →
  ∃ events bookings,
    VEvent <$> events = prefix_values "event:" (store w)
    ∧ VBooking <$> bookings = prefix_values "booking:" (store w)
    ∧ get_admin_stats w
      = Some (Continue
                {| totalEvents := Z.of_nat (length events);
                   totalBookings := Z.of_nat (length bookings);
                   totalRevenue := revenue bookings;
                   activeEvents := active_count events;
                   totalUsers := Some (Z.of_nat (length (prefix_values "user:" (store w)))) |},
              w).
Proof.
  intros Hm.
  destruct (typed_events _ Hm) as (events & He & Hel).
  destruct (typed_bookings _ Hm) as (bookings & Hb & Hbl).
  exists events, bookings. split; [done|]. split; [done|].
  unfold get_admin_stats. unfold_kv. by rewrite He, Hb.
Qed.

(** X14.  Statistics follow bookings on the key-value server too.  On a typed
    store, a successful booking through the cart endpoint under a fresh id
    raises the reported booking count by one and the reported revenue by
    the [totalPrice] of the booking, and leaves the reported numbers of
    events and of users as they were. *)
Theorem kv_stats_follow_bookings env userId rq w resp w' :
  kv_typed (store w) →
  store w !! booking_key (randomUUID env) = None →
  run (post_bookings env userId rq) w = Some (resp, w') →
  status resp = 200 →
  ∃ b t dt l s s',
    body resp = BookingOk b t dt l
    ∧ get_admin_stats w = Some (Continue s, w)
    ∧ get_admin_stats w' = Some (Continue s', w')
    ∧ totalBookings s' = totalBookings s + 1
    ∧ totalRevenue s' = totalRevenue s + totalPrice b
    ∧ totalEvents s' = totalEvents s
    ∧ totalUsers s' = totalUsers s.
Proof.
  intros Hm Hfresh Hrun H200.
  apply post_bookings_cases in Hrun.
  destruct Hrun as [(_ & -> & _)|(eid & q & _ & _ & _ & Hc)]; [done|].
  destruct Hc as [(_ & -> & _)|(ev & Hev & [(_ & -> & _)|(_ & b & Hb & -> & ->)])];
    [done..|].
  assert (b_id b = randomUUID env) as Hbid by by rewrite Hb.
  rewrite <- Hbid in Hfresh.
  pose proof (booked_typed w userId eid ev b Hm) as Hm'.
  destruct (get_admin_stats_typed w Hm) as (es & bs & Hes & Hbs & Hs).
  destruct (get_admin_stats_typed _ Hm') as (es' & bs' & Hes' & Hbs' & Hs').
  do 6 eexists. split; [done|]. split; [exact Hs|]. split; [exact Hs'|].
  cbn [totalBookings totalRevenue totalEvents totalUsers].
  pose proof (booked_prefix_bookings w userId eid ev b Hfresh) as Hperm.
  rewrite <- Hbs', <- Hbs in Hperm.
  split; [|split; [|split]].
  - apply Permutation_length in Hperm. simpl in Hperm.
    rewrite !length_fmap in Hperm. lia.
  - rewrite !revenue_values. rewrite (sum_prices_perm _ _ Hperm). simpl. lia.
  - pose proof (booked_prefix_events w userId eid ev b _ Hev) as Hlen.
    rewrite <- Hes', <- Hes, !length_fmap in Hlen. lia.
  - by rewrite booked_prefix_users.
Qed.

Lemma kv_stats_follow_bookings_witness :
  ∃ s s' w',
    get_admin_stats gala_world = Some (Continue s, gala_world)
    ∧ get_admin_stats w' = Some (Continue s', w')
    ∧ totalBookings s' = totalBookings s + 1
    ∧ totalRevenue s' = totalRevenue s + 5000.
Proof.
  edestruct (kv_stats_follow_bookings env0 "u1" (cart_request "7" 2 None) gala_world)
    as (b & t & dt & l & s & s' & Hb & Hs & Hs' & Hn & Hr & _);
    [exact gala_world_typed|by vm_compute|by vm_compute|reflexivity|].
  simpl in Hb. injection Hb as <- _ _ _.
  do 3 eexists. split; [exact Hs|]. split; [exact Hs'|]. split; [exact Hn|exact Hr].
Defined.

(** ** The cart *)

Lemma cart_sum_from (f : Cart.CartItem → Z) a l :
  foldl (λ total item, total + f item) a l = a + foldl (λ total item, total + f item) 0 l.
Proof.
  revert a. induction l as [|x l IH]; intros a; simpl; [lia|].
  rewrite (IH (a + f x)), (IH (0 + f x)). lia.
Qed.

Lemma cart_items_cons x l :
  Cart.getTotalItems (x :: l) = Cart.quantity x + Cart.getTotalItems l.
Proof. unfold Cart.getTotalItems. simpl. by rewrite cart_sum_from. Qed.

Lemma cart_price_cons x l :
  Cart.getTotalPrice (x :: l)
  = Cart.price x * Cart.quantity x + Cart.getTotalPrice l.
Proof.
  unfold Cart.getTotalPrice. simpl.
  by rewrite (cart_sum_from (λ item, Cart.price item * Cart.quantity item)).
Qed.



(** The update both [addToCart] and [updateQuantity] map over the cart. *)
Lemma cart_map_absent (g : Cart.CartItem → Cart.CartItem) id (l : list Cart.CartItem) :
  id ∉ Cart.eventId <$> l →
  ((λ c, if bool_decide (Cart.eventId c = id) then g c else c) <$> l) = l.
Proof.
  induction l as [|x l IH]; [done|]. intros Hn. rewrite !fmap_cons in *.
  apply not_elem_of_cons in Hn as [Hx Hl].
  rewrite bool_decide_false by done. by rewrite IH.
Qed.

Lemma cart_map_ids (g : Cart.CartItem → Cart.CartItem) id (l : list Cart.CartItem) :
  (∀ c, Cart.eventId (g c) = Cart.eventId c) →
  Cart.eventId <$> ((λ c, if bool_decide (Cart.eventId c = id) then g c else c) <$> l)
  = Cart.eventId <$> l.
Proof.
  intros Hg. induction l as [|x l IH]; [done|]. rewrite !fmap_cons, IH.
  by destruct (bool_decide _); rewrite ?Hg.
Qed.



Lemma cart_map_totals (g : Cart.CartItem → Cart.CartItem) id (l : list Cart.CartItem) x :
  NoDup (Cart.eventId <$> l) → x ∈ l → Cart.eventId x = id →
  (∀ c, Cart.price (g c) = Cart.price c) →
  let l' := ((λ c, if bool_decide (Cart.eventId c = id) then g c else c) <$> l) in
  Cart.getTotalItems l'
  = Cart.getTotalItems l + (Cart.quantity (g x) - Cart.quantity x)
  ∧ Cart.getTotalPrice l'
    = Cart.getTotalPrice l + Cart.price x * (Cart.quantity (g x) - Cart.quantity x).
Proof.
  intros Hnd Hx Hid Hg. induction l as [|y l IH]; [by apply not_elem_of_nil in Hx|].
  cbv zeta in *. rewrite !fmap_cons in *. apply NoDup_cons in Hnd as [Hy Hnd].
  rewrite !cart_items_cons, !cart_price_cons.
  apply elem_of_cons in Hx as [<-|Hx].
  - rewrite bool_decide_true by done. rewrite <- Hid in *.
    rewrite (cart_map_absent g _ l Hy), Hg. lia.
  - assert (Cart.eventId y ≠ id) as Hne.
    { intros Heq. apply Hy. rewrite Heq, <- Hid. apply list_elem_of_fmap. by exists x. }
    rewrite bool_decide_false by done.
    destruct (IH Hnd Hx) as [-> ->]. lia.
Qed.


Lemma two_lines_distinct : NoDup (Cart.eventId <$> two_lines).
Proof.
  unfold two_lines. rewrite !fmap_cons, fmap_nil. apply NoDup_cons.
  split; [|apply NoDup_singleton].
  intros Hin. apply list_elem_of_singleton in Hin. discriminate Hin.
Qed.


Lemma cart_filter_ids (P : Cart.CartItem → Prop) `{∀ x, Decision (P x)}
    (l : list Cart.CartItem) :
  NoDup (Cart.eventId <$> l) → NoDup (Cart.eventId <$> filter P l).
Proof.
  intros Hnd. eapply sublist_NoDup; [exact Hnd|].
  apply fmap_sublist, sublist_filter.
Qed.

Lemma cart_removed id (l : list Cart.CartItem) :
  id ∉ Cart.eventId <$> filter (λ item, Cart.eventId item ≠ id) l.
Proof.
  intros Hin. apply list_elem_of_fmap in Hin as (x & -> & Hx).
  by apply list_elem_of_filter in Hx as [Hne _].
Qed.

(** X16.  Changing a quantity.  On a cart with distinct event ids whose lines
    all have a positive quantity, [updateQuantity] keeps both facts.  With
    a quantity of 0 or less it removes the line, exactly as
    [removeFromCart] does; with a positive quantity it keeps the lines and
    their order, and the number of tickets changes by the difference
    between the new and the old quantity of the line. *)
Theorem updateQuantity_cases id q prev :
  NoDup (Cart.eventId <$> prev) →
  Forall (λ item, 0 < Cart.quantity item) prev →
  let next := Cart.updateQuantity id q prev in
  NoDup (Cart.eventId <$> next)
  ∧ Forall (λ item, 0 < Cart.quantity item) next
  ∧ (q ≤ 0 → next = Cart.removeFromCart id prev ∧ id ∉ Cart.eventId <$> next)
  ∧ (0 < q →
     Cart.eventId <$> next = Cart.eventId <$> prev
     ∧ ∀ line, line ∈ prev → Cart.eventId line = id →
         Cart.getTotalItems next = Cart.getTotalItems prev - Cart.quantity line + q).
Proof.
  intros Hnd Hpos next. subst next. unfold Cart.updateQuantity, Cart.removeFromCart.
  destruct (Z.leb_spec q 0) as [Hq|Hq].
  - split; [by apply cart_filter_ids|].
    split.
    { apply Forall_forall. intros x Hx. apply list_elem_of_filter in Hx as [_ Hx].
      by eapply Forall_forall in Hpos. }
    split; [|lia]. intros _. split; [done|apply cart_removed].
  - pose (g := λ c : Cart.CartItem, Cart.with_quantity c q).
    pose proof (cart_map_ids g id prev (λ c, eq_refl)) as Hids.
    cbv beta delta [g] in Hids.
    split; [by rewrite Hids|].
    split.
    { apply Forall_fmap. eapply Forall_impl; [exact Hpos|]. intros x Hx. simpl.
      by destruct (bool_decide _). }
    split; [lia|]. intros _. split; [done|]. intros line Hl Hid.
    pose proof (cart_map_totals g id prev line Hnd Hl Hid (λ c, eq_refl)) as [Hi _].
    cbv beta delta [g] in Hi. rewrite Hi. simpl. lia.
Qed.

Lemma updateQuantity_cases_witness :
  Cart.updateQuantity "7" 0 two_lines = Cart.removeFromCart "7" two_lines
  ∧ Cart.getTotalItems (Cart.updateQuantity "7" 5 two_lines)
    = Cart.getTotalItems two_lines - 2 + 5.
Proof.
  assert (Forall (λ item, 0 < Cart.quantity item) two_lines) as Hpos.
  { repeat constructor; simpl; lia. }
  split.
  - destruct (updateQuantity_cases "7" 0 two_lines two_lines_distinct Hpos)
      as (_ & _ & Hrem & _). apply Hrem. lia.
  - destruct (updateQuantity_cases "7" 5 two_lines two_lines_distinct Hpos)
      as (_ & _ & _ & Hset). destruct Hset as [_ Hset]; [lia|].
    apply (Hset (cart_line "7" 2500 2)); [by left|reflexivity].
Defined.

(** X17.  Checkout.  The requests the checkout sends, one per cart line, carry
    amounts that add up to the total the cart shows; and when every line
    has an event id and at least one ticket, every request passes the
    field validation of the booking endpoints. *)
Theorem checkout_requests_total cartItems :
  requested_total (Cart.checkout_requests cartItems) = Cart.getTotalPrice cartItems
  ∧ length (Cart.checkout_requests cartItems) = length cartItems
  ∧ (Forall bookable cartItems →
     Forall (λ rq, booking_fields_invalid (rq_eventId rq) (rq_quantity rq) = false)
            (Cart.checkout_requests cartItems)).
Proof.
  unfold Cart.checkout_requests. split; [|split].
  - induction cartItems as [|x l IH]; [done|].
    rewrite fmap_cons, cart_price_cons. simpl. rewrite <- IH. done.
  - by rewrite length_fmap.
  - intros Hok. apply Forall_fmap. eapply Forall_impl; [exact Hok|].
    intros x [Hid Hq]. simpl. unfold booking_fields_invalid. simpl.
    apply truthy_str_spec in Hid. rewrite Hid.
    assert (truthy_num (Cart.quantity x) = true) as -> by (apply truthy_num_spec; lia).
    simpl. lia.
Qed.

Lemma checkout_requests_total_witness :
  Forall (λ rq, booking_fields_invalid (rq_eventId rq) (rq_quantity rq) = false)
         (Cart.checkout_requests two_lines).
Proof.
  apply (proj2 (proj2 (checkout_requests_total two_lines))).
  repeat constructor; simpl; (discriminate || lia).
Defined.

(** ** Social sign-in *)

Lemma provider_of_name p : provider_of (provider_name p) = Some p.
Proof. by destruct p. Qed.

(** X18.  Social sign-in on the in-memory back ends.  When no account is
    registered under the provider's e-mail, the first sign-in creates one
    with the provider's fixed id, an empty password digest and no admin
    flag.  When an account is registered under that e-mail, however it was
    created, sign-in writes nothing and grants a token for that account; in
    particular a second social sign-in leaves the state as the first one
    left it.  A provider name outside the three known ones is answered with
    400 and no write. *)
Theorem social_signin_accounts env env' p name d :
  initialized d = true →
  (userEmails d !! social_email p = None →
   ∃ d1,
     MemServer.auth_social env (Some (provider_name p)) d
     = (json (AuthOk (social_id p) (social_email p) (social_firstName p) "User" false
                     (generateToken env (social_id p))) 200, d1)
     ∧ MockServer.signInWithSocial env p d
       = (MockServer.Resolved
            (AuthOk (social_id p) (social_email p) (social_firstName p) "User" false
                    (generateToken env (social_id p))), d1)
     ∧ users d1 !! social_id p = Some (social_user p (nowISO env 0))
     ∧ userEmails d1 !! social_email p = Some (social_id p)
     ∧ MemServer.auth_social env' (Some (provider_name p)) d1
       = (json (AuthOk (social_id p) (social_email p) (social_firstName p) "User" false
                       (generateToken env' (social_id p))) 200, d1))
  ∧ (∀ userId user,
       userEmails d !! social_email p = Some userId → userId ≠ "" →
       users d !! userId = Some user →
       MemServer.auth_social env (Some (provider_name p)) d
       = (json (AuthOk (u_id user) (u_email user) (u_firstName user) (u_lastName user)
                       (u_isAdmin user) (generateToken env userId)) 200, d)
       ∧ MockServer.signInWithSocial env p d
         = (MockServer.Resolved
              (AuthOk (u_id user) (u_email user) (u_firstName user) (u_lastName user)
                      (u_isAdmin user) (generateToken env userId)), d))
  ∧ (provider_of name = None →
     MemServer.auth_social env (Some name) d
     = (json (Err "Valid provider (google, facebook, github) is required") 400, d)).
Proof.
  intros Hinit.
  assert (∀ e userId user,
            userEmails d !! social_email p = Some userId → userId ≠ "" →
            users d !! userId = Some user →
            MemServer.auth_social e (Some (provider_name p)) d
            = (json (AuthOk (u_id user) (u_email user) (u_firstName user) (u_lastName user)
                            (u_isAdmin user) (generateToken e userId)) 200, d)
            ∧ MockServer.signInWithSocial e p d
              = (MockServer.Resolved
                   (AuthOk (u_id user) (u_email user) (u_firstName user) (u_lastName user)
                           (u_isAdmin user) (generateToken e userId)), d)) as Hknown.
  { intros e userId user Hidx Hne Hu. apply truthy_str_spec in Hne.
    unfold MemServer.auth_social, MockServer.signInWithSocial, MemServer.json_response.
    rewrite mem_initializeData_id, mock_initialize_id by done. simpl.
    rewrite provider_of_name, Hidx. simpl. rewrite Hne. simpl. by rewrite Hu. }
  split; [|split; [apply Hknown|]].
  - intros Hfree.
    assert (∀ e, MemServer.auth_social e (Some (provider_name p)) d
                 = (json (AuthOk (social_id p) (social_email p) (social_firstName p)
                                 "User" false (generateToken e (social_id p))) 200,
                    set_userEmail (social_email p) (social_id p)
                      (set_user (social_id p) (social_user p (nowISO e 0)) d))
                 ∧ MockServer.signInWithSocial e p d
                   = (MockServer.Resolved
                        (AuthOk (social_id p) (social_email p) (social_firstName p)
                                "User" false (generateToken e (social_id p))),
                      set_userEmail (social_email p) (social_id p)
                        (set_user (social_id p) (social_user p (nowISO e 0)) d)))
      as Hnew.
    { intros e.
      unfold MemServer.auth_social, MockServer.signInWithSocial, MemServer.json_response.
      rewrite mem_initializeData_id, mock_initialize_id by done. simpl.
      rewrite provider_of_name, Hfree. simpl. by rewrite lookup_insert_eq. }
    destruct (Hnew env) as [Hmem Hmock]. eexists.
    split; [exact Hmem|]. split; [exact Hmock|].
    split; [by simpl; rewrite lookup_insert_eq|].
    split; [by simpl; rewrite lookup_insert_eq|].
    unfold MemServer.auth_social, MemServer.json_response.
    rewrite mem_initializeData_id by done. simpl.
    rewrite provider_of_name. simpl. rewrite !lookup_insert_eq. simpl.
    assert (truthy_str (social_id p) = true) as -> by by destruct p.
    simpl. by rewrite lookup_insert_eq.
  - intros Hnone.
    unfold MemServer.auth_social, MemServer.json_response.
    rewrite mem_initializeData_id by done. simpl. by rewrite Hnone.
Qed.

Lemma social_signin_accounts_witness :
  ∃ d1 token,
    MemServer.auth_social env0 (Some "github") ann_data
    = (json (AuthOk "github-user-123" "user@github.com" "GitHub" "User" false token) 200, d1)
    ∧ users d1 !! "github-user-123" = Some (social_user github (nowISO env0 0)).
Proof.
  destruct (social_signin_accounts env0 env1 github "" ann_data eq_refl) as (H & _).
  destruct H as (d1 & H1 & _ & H2 & _); [by vm_compute|].
  exists d1. eexists. split; [exact H1|exact H2].
Defined.

(** ** Listing the bookings of a user *)

Lemma append_cons c p q : String c p +:+ q = String c (p +:+ q).
Proof. reflexivity. Qed.

Lemma append_assoc p q r : (p +:+ q) +:+ r = p +:+ (q +:+ r).
Proof. induction p as [|c p IH]; [done|]. by rewrite !append_cons, IH. Qed.

Lemma startsWith_app_l p q s : startsWith (p +:+ q) s = true → startsWith p s = true.
Proof.
  revert s. induction p as [|c p IH]; intros s; [done|].
  rewrite append_cons. destruct s as [|d s]; [done|]. simpl.
  intros H. apply andb_true_iff in H as [-> H]. by apply IH.
Qed.

Lemma startsWith_self p s : startsWith p (p +:+ s) = true.
Proof.
  induction p as [|c p IH]; [done|]. rewrite append_cons. simpl.
  by rewrite Ascii.eqb_refl, IH.
Qed.

Lemma user_booking_key_prefixed userId bookingId :
  startsWith ("user_booking:" +:+ userId +:+ ":") (user_booking_key userId bookingId) = true.
Proof.
  unfold user_booking_key.
  replace ("user_booking:" +:+ userId +:+ ":" +:+ bookingId)
    with (("user_booking:" +:+ userId +:+ ":") +:+ bookingId);
    [apply startsWith_self|].
  by rewrite !append_assoc.
Qed.

Lemma user_booking_prefix_typed userId k v :
  startsWith ("user_booking:" +:+ userId +:+ ":") k = true →
  well_keyed k v = true → is_id v = true.
Proof.
  intros Hp. apply startsWith_app_l in Hp. unfold well_keyed. rewrite Hp.
  destruct k as [|c k]; [done|]. pose proof (startsWith_cons_eq _ _ _ _ Hp) as <-.
  done.
Qed.

Lemma typed_ids (m : gmap string Value) userId :
  kv_typed m →
  ∃ ids, mapM as_id (prefix_values ("user_booking:" +:+ userId +:+ ":") m) = Some ids
    ∧ VId <$> ids = prefix_values ("user_booking:" +:+ userId +:+ ":") m.
Proof.
  intros Hm. apply mapM_cast; [done|]. apply Forall_forall. intros v Hv.
  apply prefix_values_elem in Hv as (k & Hk & Hp).
  pose proof (user_booking_prefix_typed userId k v Hp (Hm _ _ Hk)) as Hb.
  destruct v; try done. by eexists.
Qed.

Lemma kv_get_booking_typed (m : gmap string Value) id v :
  kv_typed m → m !! booking_key id = Some v → ∃ b, v = VBooking b.
Proof.
  intros Hm Hk. apply Hm in Hk.
  assert (is_booking v = true) as Hb.
  { eapply booking_prefix_typed; [|exact Hk]. by vm_compute. }
  destruct v; try done. by eexists.
Qed.

Lemma collect_bookings_typed ids w :
  kv_typed (store w) →
  ∃ listed, collect_bookings ids w = Some (Continue listed, w)
    ∧ (∀ id b e, id ∈ ids → store w !! booking_key id = Some (VBooking b) →
         store w !! event_key (b_eventId b) = Some (VEvent e) →
         (b, Some (info_of e)) ∈ listed)
    ∧ (∀ b info, (b, info) ∈ listed →
         ∃ id, id ∈ ids ∧ store w !! booking_key id = Some (VBooking b)).
Proof.
  intros Hm. induction ids as [|id ids (listed & Hrun & Hin & Hout)].
  - exists []. split; [done|]. split.
    + by intros id b e Hid%not_elem_of_nil.
    + by intros b info Hb%not_elem_of_nil.
  - simpl. unfold_kv.
    destruct (store w !! booking_key id) as [v|] eqn:Hb.
    + destruct (kv_get_booking_typed _ _ _ Hm Hb) as [b ->].
      assert (∃ oe, store w !! event_key (b_eventId b) = (VEvent <$> oe)) as [oe Hoe].
      { destruct (store w !! event_key (b_eventId b)) as [v|] eqn:He.
        - destruct (kv_get_event_typed _ _ _ Hm He) as [e ->]. by exists (Some e).
        - by exists None. }
      exists ((b, info_of <$> oe) :: listed). rewrite Hoe.
      split; [by destruct oe; simpl; rewrite Hrun|]. split.
      * intros id' b' e Hid Hb' He. apply elem_of_cons in Hid as [->|Hid].
        -- rewrite Hb in Hb'. injection Hb' as <-. rewrite Hoe in He.
           destruct oe as [e'|]; [|done]. injection He as ->. by left.
        -- right. by eapply Hin.
      * intros b' info Hl. apply elem_of_cons in Hl as [[= -> ->]|Hl].
        -- exists id. split; [by left|done].
        -- destruct (Hout _ _ Hl) as (id' & Hid' & Hb'). exists id'. split; [by right|done].
    + exists listed. split; [done|]. split.
      * intros id' b' e Hid Hb' He. apply elem_of_cons in Hid as [->|Hid]; [congruence|].
        by eapply Hin.
      * intros b' info Hl. destruct (Hout _ _ Hl) as (id' & Hid' & Hb').
        exists id'. split; [by right|done].
Qed.

(** X19.  A booking shows up in the listing of its user.  On a typed store,
    after a successful booking through the cart endpoint the listing of the
    caller's bookings is defined, leaves the store as it is, and contains
    the new booking together with the title, date and location of the
    booked event; and every listed booking is one the store holds. *)
Theorem booking_is_listed env userId rq w resp w' :
  kv_typed (store w) →
  run (post_bookings env userId rq) w = Some (resp, w') →
  status resp = 200 →
  ∃ b title dateTime location listed info,
    body resp = BookingOk b title dateTime location
    ∧ get_user_bookings userId w' = Some (Continue listed, w')
    ∧ (b, Some info) ∈ listed
    ∧ ei_title info = title ∧ ei_dateTime info = dateTime ∧ ei_location info = location
    ∧ ∀ b' info', (b', info') ∈ listed →
        ∃ id, store w' !! booking_key id = Some (VBooking b').
Proof.
  intros Hm Hrun H200.
  apply post_bookings_cases in Hrun.
  destruct Hrun as [(_ & -> & _)|(eid & q & _ & _ & _ & Hc)]; [done|].
  destruct Hc as [(_ & -> & _)|(ev & Hev & [(_ & -> & _)|(_ & b & Hb & -> & ->)])];
    [done..|].
  pose proof (booked_typed w userId eid ev b Hm) as Hm'.
  set (w' := booked w userId eid ev b) in *.
  destruct (typed_ids (store w') userId Hm') as (ids & Hids & Hidl).
  destruct (collect_bookings_typed ids w' Hm') as (listed & Hcol & Hin & Hout).
  assert (b_id b ∈ ids) as Hbid.
  { assert (VId (b_id b) ∈ VId <$> ids) as Hv.
    { rewrite Hidl. apply prefix_values_elem. exists (user_booking_key userId (b_id b)).
      split; [apply booked_lookup_index|apply user_booking_key_prefixed]. }
    apply list_elem_of_fmap in Hv as (id & [= ->] & Hid). done. }
  assert (b_eventId b = eid) as Heid by by rewrite Hb.
  exists b, (ev_title ev), (ev_dateTime ev), (ev_location ev), listed.
  eexists. split; [done|]. split.
  { unfold get_user_bookings. unfold_kv. rewrite Hids. exact Hcol. }
  split.
  { eapply Hin; [exact Hbid|apply booked_lookup_booking|].
    rewrite Heid. apply booked_event_exact. }
  split; [done|]. split; [done|]. split; [done|].
  intros b' info' Hl. destruct (Hout _ _ Hl) as (id & _ & Hb'). by exists id.
Qed.

Lemma booking_is_listed_witness :
  ∃ w' b listed info,
    get_user_bookings "u1" w' = Some (Continue listed, w')
    ∧ (b, Some info) ∈ listed ∧ b_quantity b = 2 ∧ ei_title info = "Gala".
Proof.
  edestruct (booking_is_listed env0 "u1" (cart_request "7" 2 None) gala_world)
    as (b & t & dt & l & listed & info & Hb & Hl & Hin & Ht & _);
    [exact gala_world_typed|by vm_compute|reflexivity|].
  simpl in Hb. injection Hb as <- <- _ _.
  do 4 eexists. split; [exact Hl|]. split; [exact Hin|]. split; [reflexivity|exact Ht].
Defined.

Lemma own_bookings_elem userId d b info :
  (b, info) ∈ own_bookings userId d
  ↔ (∃ id, bookings d !! id = Some b) ∧ b_userId b = userId
    ∧ info = (info_of <$> events d !! b_eventId b).
Proof.
  unfold own_bookings, values_of. rewrite list_elem_of_fmap. split.
  - intros (b' & [= -> ->] & Hb). apply list_elem_of_filter in Hb as [Hu Hb].
    apply list_elem_of_fmap in Hb as ([id b''] & -> & Hb).
    apply elem_of_map_to_list in Hb. split; [by exists id|done].
  - intros ((id & Hb) & Hu & ->). exists b. split; [done|].
    apply list_elem_of_filter. split; [done|].
    apply list_elem_of_fmap. exists (id, b). split; [done|].
    by apply elem_of_map_to_list.
Qed.

(** X20.  A booking shows up in the listing of its user, and in no other.  On
    the in-memory back ends, after a successful booking the listing of the
    caller's bookings contains the new booking with the title, date and
    location of its event, every listed booking belongs to the caller, and
    the listing of a different user does not contain the new booking. *)
Theorem mem_booking_is_listed env env' h userId h2 other rq eventId quantity totalAmount d :
  initialized d = true →
  authenticated env h userId → authenticated env' h userId →
  authenticated env' h2 other → other ≠ userId →
  (∀ resp d', MemServer.createBooking env (Some h) rq d = (resp, d') → status resp = 200 →
     ∃ b t dt l listed listed2 info,
       body resp = BookingOk b t dt l
       ∧ MemServer.user_bookings env' (Some h) d' = (inr listed, d')
       ∧ (b, Some info) ∈ listed
       ∧ ei_title info = t ∧ ei_dateTime info = dt ∧ ei_location info = l
       ∧ (∀ b' info', (b', info') ∈ listed → b_userId b' = userId)
       ∧ MemServer.user_bookings env' (Some h2) d' = (inr listed2, d')
       ∧ ∀ info', (b, info') ∉ listed2)
  ∧ (∀ b t dt l d',
       MockServer.createBooking env (bearer_token h) eventId quantity totalAmount d
       = (MockServer.Resolved (BookingOk b t dt l), d') →
       ∃ listed listed2 info,
         MockServer.getUserBookings env' (bearer_token h) d' = (inr listed, d')
         ∧ (b, Some info) ∈ listed
         ∧ ei_title info = t ∧ ei_dateTime info = dt ∧ ei_location info = l
         ∧ (∀ b' info', (b', info') ∈ listed → b_userId b' = userId)
         ∧ MockServer.getUserBookings env' (bearer_token h2) d' = (inr listed2, d')
         ∧ ∀ info', (b, info') ∉ listed2).
Proof.
  intros Hinit (_ & _ & Hv) (Hb1 & _ & Hv1) (Hb2 & _ & Hv2) Hne.
  assert (∀ eid ev b,
            b_userId b = userId → b_eventId b = eid →
            let d' := set_booking (randomUUID env) b (set_event eid ev d) in
            MemServer.user_bookings env' (Some h) d' = (inr (own_bookings userId d'), d')
            ∧ MockServer.getUserBookings env' (bearer_token h) d'
              = (inr (own_bookings userId d'), d')
            ∧ (b, Some (info_of ev)) ∈ own_bookings userId d'
            ∧ (∀ b' info', (b', info') ∈ own_bookings userId d' → b_userId b' = userId)
            ∧ MemServer.user_bookings env' (Some h2) d' = (inr (own_bookings other d'), d')
            ∧ MockServer.getUserBookings env' (bearer_token h2) d'
              = (inr (own_bookings other d'), d')
            ∧ ∀ info', (b, info') ∉ own_bookings other d') as Hstep.
  { intros eid ev b Hu He d'.
    assert (initialized d' = true) as Hi' by done.
    unfold MemServer.user_bookings, MockServer.getUserBookings.
    rewrite !mem_initializeData_id, !mock_initialize_id by done.
    rewrite Hb1, Hb2, !verifyToken_mem_eq, Hv1, Hv2.
    split; [done|]. split; [done|]. split.
    { apply own_bookings_elem. split; [|split; [done|]].
      - exists (randomUUID env). subst d'. simpl. by rewrite lookup_insert_eq.
      - subst d'. simpl. by rewrite He, lookup_insert_eq. }
    split; [by intros b' info' (_ & ? & _)%own_bookings_elem|].
    split; [done|]. split; [done|].
    intros info' (_ & Hu' & _)%own_bookings_elem. congruence. }
  split.
  - intros resp d' Hrun H200. apply mem_createBooking_cases in Hrun.
    rewrite (mem_initializeData_id _ _ Hinit) in Hrun. simpl in Hrun.
    destruct Hrun as [(_ & Hn & _)|(hh & u & eid & q & [= <-] & Hu & _ & _ & _ & Hc)];
      [done|].
    rewrite verifyToken_mem_eq, Hv in Hu. injection Hu as <-.
    destruct Hc as [(_ & -> & _)|(ev & Hev & [(_ & -> & _)|(_ & b & Hb & -> & ->)])];
      [done..|].
    destruct (Hstep eid (with_availableTickets ev (availableTickets ev - q)) b)
      as (H1 & _ & H2 & H3 & H4 & _ & H5); [by rewrite Hb..|].
    do 7 eexists. split; [done|]. split; [exact H1|]. split; [exact H2|].
    do 3 (split; [done|]). split; [exact H3|]. split; [exact H4|exact H5].
  - intros b t dt l d' Hrun. apply mock_createBooking_cases in Hrun.
    rewrite (mock_initialize_id _ _ Hinit) in Hrun. simpl in Hrun.
    destruct Hrun as [(_ & ? & _)|(u & Hu & Hc)]; [done|].
    rewrite verifyToken_mem_eq, Hv in Hu. injection Hu as <-.
    destruct Hc as [(_ & ? & _)|(ev & Hev & [(_ & ? & _)|(_ & b' & Hb & Hr & ->)])];
      [done..|].
    injection Hr as <- -> -> ->.
    destruct (Hstep eventId (with_availableTickets ev (availableTickets ev - quantity)) b)
      as (_ & H1 & H2 & H3 & _ & H4 & H5); [by rewrite Hb..|].
    do 3 eexists. split; [exact H1|]. split; [exact H2|].
    do 3 (split; [done|]). split; [exact H3|]. split; [exact H4|exact H5].
Qed.

Lemma mem_booking_is_listed_witness :
  ∃ d' b listed info,
    MemServer.user_bookings env0 (Some "Bearer tok-u1") d' = (inr listed, d')
    ∧ (b, Some info) ∈ listed ∧ b_quantity b = 2 ∧ ei_title info = "Gala".
Proof.
  destruct (mem_booking_is_listed env0 env0 "Bearer tok-u1" "u1" "Bearer tok-admin"
              "admin-user-123" (cart_request "7" 2 None) "7" 2 None staffed_data)
    as (H & _);
    try reflexivity; try exact authenticated_env0; try exact authenticated_admin_env0;
    [discriminate|].
  edestruct H as (b & t & dt & l & listed & listed2 & info & Hb & Hl & Hin & Ht & _);
    [by vm_compute|reflexivity|].
  simpl in Hb. injection Hb as <- <- _ _.
  do 4 eexists. split; [exact Hl|]. split; [exact Hin|]. split; [reflexivity|exact Ht].
Defined.
